(* ===== verification/_CoqProject ===== *)
-Q . S2P
Prelude.v
PyStr.v
Json.v
JsonDepth.v
Proc.v
Provisioner.v
Repr.v
ProvisionerProps.v
