(* ===== verification/Prelude.v ===== *)
(** * Verification of [github-create-api.py] (review-insights-platform)

    The repository's only source file, [src/github-create-api.py], is a
    one-shot provisioning script.  [main] (lines 12-140) checks that
    [curl] runs, reads a GitHub user name and token from standard input,
    creates the repository [review-insights-platform] with one
    [curl -X POST] to [/user/repos], adds a [git] remote, pushes [main]
    and [gh-pages], sets the repository topics with one [curl -X PUT],
    and prints a summary.  The module body (lines 142-144) first changes
    directory with [os.chdir].

    The script is glue code.  Its behaviour rests on the parts of the
    Python runtime it calls: [str] methods ([strip], [in], [*], [str()]
    in f-strings), the [json] module ([dumps] for the two request bodies,
    [loads] for the error response), [dict.get], and the process
    interface ([print], [input], [subprocess.run], [sys.exit],
    [os.chdir], [try]/[except], uncaught exceptions).  The development
    models those parts, then the script on top of them, then states what
    the script does for every answer of the operating system.

    ** Files (in dependency order)

    - [Prelude] (this file): the [py_scope] notations, the reader of
      source literals ([py]: the UTF-8 bytes of a Rocq string decoded to
      code points), the tactics ([bool_to_prop], [case_first], [zcases]),
      the [pyrt] hint database and the [pyrw] rewrite database, and the
      generic lemmas on lists and integers the other files share.
    - [PyStr] (Module [Str]): a [str] as its list of code points
      ([pystr]); [str.isspace] ([is_space], CPython's whitespace set),
      [str.strip] ([strip] from [lstrip] and [rstrip]), the [in]
      operator on strings ([str_contains]), repetition ([str_repeat]),
      [str(int)] ([str_of_Z]); CPython's [do_strip] with its two index
      loops ([strip_left_index], [strip_right_index] on the signed index
      of [Py_ssize_t]).  Theorems: [strip] is characterised by its
      decomposition ([strip_iff]), is idempotent, is empty exactly on
      blank input; [do_strip] computes [lstrip], [rstrip] and [strip]
      ([do_strip_correct]); [str_contains] decides the substring
      relation.
    - [Json] (Module [Json]): JSON values as Python sees them ([json],
      with the nested induction principle [json_ind']); CPython's
      [json.dumps] with its defaults ([dumps]: [ensure_ascii], separators
      [", "] and [": "], lowercase [\uXXXX] escapes, surrogate pairs);
      the C scanner behind [json.loads] without its recursion limit,
      the reference decoder ([loads]: strict control
      characters, [\u] escapes and surrogate joining, the number syntax,
      [NaN]/[Infinity], the BOM and "Extra data" errors); the [dict] the
      decoder builds ([dict_set], [dict_get]) and its view as a stdpp
      [gmap] ([dict_view]).  Theorems: [loads (dumps v) = Some v] on
      well-formed values ([loads_dumps]), the output of [dumps] is
      printable ASCII, and [loads] of an object whose members repeat a
      key keeps one entry per key with the value of the last member
      ([loads_duplicate_keys], through [dict_build], the object the
      decoder's loop builds).  Lemmas: the dictionary operations
      implement the finite-map specification and keep keys unique, every
      value [loads] returns has distinct keys in all its objects
      ([loads_keys_unique]), and the fuel of [loads] never runs out
      ([loads_fuel_enough]).
    - [JsonDepth] (Module [JsonDepth]): [json.loads] as CPython runs
      it, with the recursion limit: [scan_once], [parse_object] and
      [parse_array] call [Py_EnterRecursiveCall] before each object and
      array and end with [RecursionError] past the headroom [d];
      [decode d] gives the value, a [JSONDecodeError] or the
      [RecursionError].  [json_depth] counts the objects and arrays on
      the deepest path of a value.  Theorem ([decode_refines_loads]): it
      refines the reference decoder, is equal to it when the headroom is
      at least the length of the text, and ends with [RecursionError] on
      every text whose value nests deeper than the headroom
      ([scan_once_deep]: the limited scanner stops on the recursion error
      at the first nested value past the headroom).
    - [Proc] (Module [Proc]): the process.  The class [Interpreter]
      holds the recursion headroom of the interpreter when the script
      calls [json.loads].  Python's exceptions ([exc]);
      a program is a free monad of effects ([prog]: [Print], [Input],
      [Run], [Chdir], [Raise]) with stdpp's bind; [try]/[except] with a
      bare [except] ([try_except]), [subprocess.run] with and without
      [check=True] ([subprocess_run]), [input] (a line, [EOFError] at
      the end of input, [KeyboardInterrupt] for a Ctrl-C at the prompt:
      [input_result]), [sys.exit], [os.chdir]; a command interrupted by
      Ctrl-C ([Interrupted]) raises [KeyboardInterrupt].  The operating system
      is an interface, the
      type class [World]: what it answers to each effect; [exec] runs a
      program against a world and gives the observable trace (lines
      printed, prompts, commands started, directory changes), the outcome
      and the final world; [exit_status] is the status of the process
      (0, the [sys.exit] code, 130 for an uncaught [KeyboardInterrupt],
      or 1 for another uncaught exception).
      [sworld] is the instance of scripted worlds (queues of answers).
      Lemmas: [exec] of a bind and of a [try], the programs that only
      print ([quiet], [aborts]), the statuses a program can exit with
      when the world's answers keep an invariant ([exits_in],
      [exec_exits_in], by rule induction), the events a program cannot
      finish without ([eventually], [exec_eventually]: a liveness
      property of a program carried to every world), dropping the output
      ([silent]), and every world is simulated by a script
      ([exec_scripted]).
    - [Provisioner] (Module [Provisioner], Section [Script] over an
      [Interpreter]): the script, statement by statement: the Python operations on the decoded response
      ([json_loads], [py_get], [py_eq_str], [py_in], [fmt]), the
      constants and request bodies ([repo_name], [create_payload],
      [create_repo_cmd], [topics_payload], [topics_cmd], the [git]
      argument vectors), the blocks of [main] as the source's comments
      cut it ([banner], [check_curl], [instructions], [read_credentials],
      [create_repo] with [create_failed] and [report_error], [push],
      [add_topics], [summary]), [main] and the module body [entry].
    - [Repr] (Module [Repr]): what [print] writes for a line
      ([line_text]): [str()] of the value of an f-string field
      ([py_str]), that is CPython's [repr] of a decoded value
      ([py_repr]: [list_repr], [dict_repr], [unicode_repr] as
      [repr_str] with its quote choice [repr_quote] and escapes
      [repr_char], the special floats).  The printability of non-ASCII
      code points (the Unicode database) and [repr] of a finite float
      are the two parameters of the class [ReprData].  Theorems: [repr]
      of a [str] reads back through the syntax of Python string literals
      ([unrepr], [repr_str_roundtrip]), and [str()] of a list or dict
      holds no control character or line break ([py_repr_printable]).
    - [ProvisionerProps] (Module [ProvisionerProps], Section [Props]
      over an [Interpreter], so that every theorem holds for every
      recursion headroom): the properties of
      the script over scripted worlds ([script ins rs]: the lines of
      standard input and the results of the commands), observed through
      [outputs], [commands] and the exit status.  The abstract workflow
      of the specification (Module [Workflow]: the steps of section 4,
      the error taxonomy of section 7) and the refinement theorem
      [script_refines_workflow]; the refinement down to the output: the
      last line of a run is the [diagnostic] of the workflow's outcome
      ([script_refines_diagnostics]; the diagnostics are not all
      distinct as text: the generic API error can print the curl
      message); the properties of section 8 (blank credentials, bad
      credentials, already exists, success and its summary with any
      status of the best-effort steps, push failure and its recovery
      line);
      the order of the commands for every answer ([commands_in_order]);
      progress: non-blank answers always lead to the creation request
      ([create_request_sent]);
      the token reaches the output only through the recovery line of a
      failed push ([token_not_printed]);
      the exit status 0 or 1 when no prompt and no command is interrupted
      ([exit_status_01]) and 0, 1 or 130 in every world
      ([exit_status_cases]); the request bodies as the server decodes
      them, written out as the descriptors of the specification
      ([request_bodies_decode]), and the homepage sent is the pages URL
      the summary prints
      ([homepage_is_deploy_page]); the other error paths
      ([api_error_message], [api_error_unknown], [tool_missing], where a
      Ctrl-C during the [curl] check is reported as a missing [curl]); a
      message that is a list or a dict, where [in] tests elements and
      keys and the generic message prints its [repr] through
      [Repr.line_text] ([container_message_text]); and the
      behaviours the specification does not cover (malformed, too deeply
      nested or unexpected responses, [git] missing, end of input at
      either prompt, a missing working directory in every world
      ([missing_directory]), a Ctrl-C at a prompt or during the creation
      request).

    ** Modelling choices, bounds and fuel

    - A [str] is a list of Unicode code points ([list Z]); the literals
      of the source are Rocq strings holding their UTF-8 bytes, decoded
      by [py].  The newline and the double quote of the source are
      written as code points ([nl], [dq]).
    - A printed line is a list of pieces: text, or a decoded value that
      is a list, dict or float (reachable only in the generic error
      message), whose text [str()] is given by [Repr.py_str].
    - JSON numbers: an integer literal becomes [JInt]; a literal with a
      fraction or exponent, and [NaN], [Infinity], [-Infinity], become
      [JFloat] holding the literal's text (the script never inspects a
      number).
    - Fuel: [loads s] gives the scanner [S (2 * length s)] steps.  A
      step of the scanner that does not consume a character is followed
      by one that does, so twice the length plus one is enough, and any
      larger fuel gives the same result ([loads_fuel_enough]).
    - The theorems about runs quantify over scripted worlds; the
      completeness of scripts ([entry_scripted]) carries them to every
      world, and [exit_status_cases] is stated for every world directly.
    - The recursion headroom of the interpreter is a parameter (class
      [Interpreter]): it is [sys.getrecursionlimit()] less the frames in
      use up to CPython 3.11 and the C recursion limit from 3.12 on; the
      theorems hold for every value, and [decode_refines_loads] shows
      that a headroom of the length of the text never triggers.
    - Not modelled: the binary value of floats (a float is kept as its
      literal; the script never computes with one),
      the text of tracebacks (only the exit status), the bytes on the
      terminal, other signals than [SIGINT] (a Ctrl-C is delivered where
      the script blocks: at a prompt or while a command runs), and the
      external programs themselves ([curl], [git], the GitHub API), of which only the
      answers are modelled.
    - Two failure paths of the library are left out, and neither changes
      a theorem's statement, since each theorem takes the decoder's
      result or the command's answer as a hypothesis:
      the [ValueError] that [json.loads] raises from CPython 3.11 on for
      an integer literal longer than [sys.get_int_max_str_digits()]
      (4300 digits by default; [scan_number] returns the integer), and
      the [UnicodeDecodeError] of [subprocess.run(text=True)] on output
      that is not valid in the locale's encoding (a command's output is
      modelled as the decoded [str]).

    ** Further work

    The shortest round-trip [repr] of finite floats (a parameter here). *)

From Stdlib Require Import String Ascii Wf_nat.
From Stdlib Require Export ZArith Lia.
From stdpp Require Export base list decidable option.
(** The string literal notation, for the source literals read by [py]. *)
Export (notations) String.

#[local] Open Scope Z_scope.

Declare Scope py_scope.
Delimit Scope py_scope with py.

(** A Python [str]: its code points. *)
Abbreviation pystr := (list Z) (only parsing).

(** ** Source literals *)

Definition is_cont (b : Z) : bool := (0x80 <=? b) && (b <? 0xC0).

(** UTF-8 decoding of the bytes of a literal (shortest forms only). *)
Fixpoint utf8_decode (bs : list Z) : option (list Z) :=
  match bs with
  | [] => Some []
  | b0 :: r =>
    if b0 <? 0x80 then cons b0 <$> utf8_decode r
    else if (0xC2 <=? b0) && (b0 <? 0xE0) then
      match r with
      | b1 :: r1 =>
        if is_cont b1 then cons (Z.lor (Z.shiftl (b0 - 0xC0) 6) (b1 - 0x80)) <$> utf8_decode r1
        else None
      | _ => None
      end
    else if (0xE0 <=? b0) && (b0 <? 0xF0) then
      match r with
      | b1 :: b2 :: r2 =>
        if is_cont b1 && is_cont b2 then
          cons (Z.lor (Z.shiftl (b0 - 0xE0) 12)
                      (Z.lor (Z.shiftl (b1 - 0x80) 6) (b2 - 0x80))) <$> utf8_decode r2
        else None
      | _ => None
      end
    else if (0xF0 <=? b0) && (b0 <? 0xF5) then
      match r with
      | b1 :: b2 :: b3 :: r3 =>
        if is_cont b1 && is_cont b2 && is_cont b3 then
          cons (Z.lor (Z.shiftl (b0 - 0xF0) 18)
                 (Z.lor (Z.shiftl (b1 - 0x80) 12)
                   (Z.lor (Z.shiftl (b2 - 0x80) 6) (b3 - 0x80)))) <$> utf8_decode r3
        else None
      | _ => None
      end
    else None
  end.

Fixpoint bytes_of_string (s : string) : list Z :=
  match s with
  | EmptyString => []
  | String a r => Z.of_N (N_of_ascii a) :: bytes_of_string r
  end.

(** [py "..."] is the Python literal written between the quotes. *)
Definition py (s : string) : list Z := default [] (utf8_decode (bytes_of_string s)).
Arguments py : simpl never.

(** ** Tactics *)

Create HintDb pyrt discriminated.
Create Rewrite HintDb pyrw.

(** Split the boolean tests of the models into propositions. *)
Ltac bool_to_prop :=
  repeat match goal with
  | H : (_ && _)%bool = true |- _ => apply andb_prop in H as [? ?]
  | H : (_ || _)%bool = false |- _ => apply orb_false_elim in H as [? ?]
  | H : (_ && _)%bool = false |- _ => apply andb_false_iff in H as [? | ?]
  | H : (_ || _)%bool = true |- _ => apply orb_true_iff in H as [? | ?]
  | H : (_ <=? _)%Z = true |- _ => apply Z.leb_le in H
  | H : (_ <=? _)%Z = false |- _ => apply Z.leb_gt in H
  | H : (_ <? _)%Z = true |- _ => apply Z.ltb_lt in H
  | H : (_ <? _)%Z = false |- _ => apply Z.ltb_ge in H
  | H : (_ =? _)%Z = true |- _ => apply Z.eqb_eq in H
  | H : (_ =? _)%Z = false |- _ => apply Z.eqb_neq in H
  | H : negb _ = true |- _ => apply negb_true_iff in H
  | H : negb _ = false |- _ => apply negb_false_iff in H
  end.

(** Case on the first [if] or [match] of the goal, keeping the equation. *)
Ltac case_first :=
  match goal with
  | |- context [if ?b then _ else _] => destruct b eqn:?
  | |- context [match ?x with _ => _ end] => destruct x eqn:?
  end.

Ltac invc H := inversion H; subst; clear H.

(** ** Generic lemmas *)

Lemma Forall_rev_iff {A} (P : A -> Prop) (l : list A) : Forall P (rev l) <-> Forall P l.
Proof. rewrite !Forall_forall. setoid_rewrite <- in_rev. done. Qed.

Lemma app_cons_middle {A} (a b : list A) (x : A) : a ++ x :: b = (a ++ [x]) ++ b.
Proof. by rewrite <- app_assoc. Qed.

Lemma fmap_Some_cons {A} (x : A) (o : option (list A)) l :
  cons x <$> o = Some l <-> exists t, o = Some t /\ l = x :: t.
Proof.
  destruct o as [t|]; simpl; split.
  - intros [= <-]; eauto.
  - intros (? & [= ->] & ->); done.
  - done.
  - intros (? & ? & ?); done.
Qed.

(** Induction on the length of a list, for scanners that consume
    several elements per step. *)
Lemma list_length_ind {A} (P : list A -> Prop) :
  (forall l, (forall l', (length l' < length l)%nat -> P l') -> P l) -> forall l, P l.
Proof.
  intros H l. induction l as [l IH] using (well_founded_induction (well_founded_ltof _ (@length A))).
  apply H. exact IH.
Qed.

Lemma forallb_Forall_iff {A} (f : A -> bool) (l : list A) :
  forallb f l = true <-> Forall (fun x => f x = true) l.
Proof. rewrite forallb_forall, Forall_forall. done. Qed.

(** Case on every boolean test of the goal and close what arithmetic can. *)
Ltac zcases := repeat (case_first; bool_to_prop; try subst); simplify_eq; try done; try lia.

(** [a * 2^k] and a number below [2^k] have no common bit. *)
Lemma lor_low (a k x : Z) : (0 <= k)%Z -> (0 <= x < 2 ^ k)%Z -> Z.lor (a * 2 ^ k) x = (a * 2 ^ k + x)%Z.
Proof.
  intros Hk Hx.
  assert (Hl : Z.land (a * 2 ^ k) x = 0%Z).
  { rewrite <- (Z.mod_small x (2 ^ k)) by lia. rewrite <- Z.land_ones by lia.
    rewrite (Z.land_comm x), Z.land_assoc, Z.land_ones by lia.
    rewrite Z.mod_mul by (apply Z.pow_nonzero; lia). apply Z.land_0_l. }
  rewrite <- Z.lxor_lor by done. symmetry. by apply Z.add_nocarry_lxor.
Qed.

Lemma land_low_bits (x k m : Z) : (0 <= k)%Z -> m = (2 ^ k - 1)%Z -> Z.land x m = (x mod 2 ^ k)%Z.
Proof. intros Hk ->. rewrite <- Z.land_ones by lia. f_equal. rewrite Z.ones_equiv. lia. Qed.

#[export] Hint Rewrite @Forall_rev_iff @length_app @length_cons : pyrw.
