(* ===== verification/PyStr.v ===== *)
(** Python [str] values and the [str] operations the script uses:
    [str.isspace], [str.strip] (lines 36 and 41), the [in] operator
    (line 71) and repetition ([print("=" * 50)], lines 14, 123, 125).
    A [str] is its list of code points.  [strip] is the specification;
    CPython's implementation [do_strip], with its two index loops, is
    modelled too and shown to compute it. *)

From S2P Require Import Prelude.
#[local] Open Scope Z_scope.

Module Str.

(** [str.isspace] of one character: CPython's [_PyUnicode_IsWhitespace]
    (U+0009..U+000D, U+001C..U+0020, U+0085, U+00A0, U+1680,
    U+2000..U+200A, U+2028, U+2029, U+202F, U+205F, U+3000). *)
Definition is_space (c : Z) : bool :=
  ((9 <=? c) && (c <=? 13)) || ((28 <=? c) && (c <=? 32)) || (c =? 0x85) ||
  (c =? 0xA0) || (c =? 0x1680) || ((0x2000 <=? c) && (c <=? 0x200A)) ||
  (c =? 0x2028) || (c =? 0x2029) || (c =? 0x202F) || (c =? 0x205F) || (c =? 0x3000).

(** [s.lstrip()] and [s.rstrip()] with no argument. *)
Fixpoint lstrip (s : pystr) : pystr :=
  match s with
  | [] => []
  | c :: r => if is_space c then lstrip r else s
  end.

Definition rstrip (s : pystr) : pystr := reverse (lstrip (reverse s)).

(** [s.strip()]: both ends, as CPython's [do_strip] with [BOTHSTRIP]. *)
Definition strip (s : pystr) : pystr := rstrip (lstrip s).

(** [s.startswith(p)] *)
Fixpoint startswith (s p : pystr) {struct p} : bool :=
  match p, s with
  | [], _ => true
  | x :: p', y :: s' => (x =? y) && startswith s' p'
  | _ :: _, [] => false
  end.

(** [needle in hay] for two strings. *)
Fixpoint str_contains (needle hay : pystr) : bool :=
  startswith hay needle ||
  match hay with
  | [] => false
  | _ :: hay' => str_contains needle hay'
  end.

(** [s * n] *)
Definition str_repeat (s : pystr) (n : Z) : pystr := mjoin (replicate (Z.to_nat n) s).

(** [str(n)] of a Python [int]. *)
Fixpoint digits_of_uint (d : Decimal.uint) : pystr :=
  match d with
  | Decimal.Nil => []
  | Decimal.D0 d => 48 :: digits_of_uint d
  | Decimal.D1 d => 49 :: digits_of_uint d
  | Decimal.D2 d => 50 :: digits_of_uint d
  | Decimal.D3 d => 51 :: digits_of_uint d
  | Decimal.D4 d => 52 :: digits_of_uint d
  | Decimal.D5 d => 53 :: digits_of_uint d
  | Decimal.D6 d => 54 :: digits_of_uint d
  | Decimal.D7 d => 55 :: digits_of_uint d
  | Decimal.D8 d => 56 :: digits_of_uint d
  | Decimal.D9 d => 57 :: digits_of_uint d
  end.

Definition str_of_Z (z : Z) : pystr :=
  if z <? 0 then 45 :: digits_of_uint (N.to_uint (Z.to_N (- z)))
  else digits_of_uint (N.to_uint (Z.to_N z)).

(** ** CPython's implementation of [strip] *)

(** [striptype] of [do_strip] ([Objects/unicodeobject.c]). *)
Inductive striptype := LEFTSTRIP | RIGHTSTRIP | BOTHSTRIP.

(** [while (i < len && Py_UNICODE_ISSPACE(s[i])) i++;] *)
Fixpoint strip_left_index (s : pystr) (fuel i : nat) : nat :=
  match fuel with
  | O => i
  | S f =>
    match s !! i with
    | Some c => if is_space c then strip_left_index s f (S i) else i
    | None => i
    end
  end.

(** [while (j >= i && Py_UNICODE_ISSPACE(s[j])) j--;] on the signed
    index [j] ([Py_ssize_t]), which reaches [-1] on a blank string. *)
Fixpoint strip_right_index (s : pystr) (fuel i : nat) (j : Z) : Z :=
  match fuel with
  | O => j
  | S f =>
    if Z.of_nat i <=? j then
      match s !! Z.to_nat j with
      | Some c => if is_space c then strip_right_index s f i (j - 1) else j
      | None => j
      end
    else j
  end.

(** [PyUnicode_Substring(s, i, j)], that is [s[i:j]]. *)
Definition substring (s : pystr) (i j : nat) : pystr := take (j - i) (drop i s).

(** [do_strip(self, striptype)]: the left loop unless [RIGHTSTRIP], then
    [j = len; j--;] the right loop [j++;] unless [LEFTSTRIP].  Each loop
    moves its index at most [len] times, the fuel given. *)
Definition do_strip (st : striptype) (s : pystr) : pystr :=
  let len := length s in
  let i := match st with RIGHTSTRIP => 0%nat | _ => strip_left_index s len 0 end in
  let j := match st with
           | LEFTSTRIP => Z.of_nat len
           | _ => strip_right_index s len i (Z.of_nat len - 1) + 1
           end in
  substring s i (Z.to_nat j).

(** A string with only whitespace (the empty string included). *)
Definition blank (s : pystr) : Prop := Forall (fun c => is_space c = true) s.

(** A string that neither starts nor ends with whitespace. *)
Definition trimmed (t : pystr) : Prop :=
  (forall c, head t = Some c -> is_space c = false) /\
  (forall c, list.last t = Some c -> is_space c = false).

(** ** Lemmas on [lstrip] *)

Lemma lstrip_decomp s : exists a, s = a ++ lstrip s /\ blank a.
Proof.
  induction s as [|c s IH]; simpl; [exists []; split; [done | constructor]|].
  destruct (is_space c) eqn:Hc.
  - destruct IH as (a & Ha & Hb). exists (c :: a). split; [simpl; by f_equal | by constructor].
  - exists []. split; [done|]. constructor.
Qed.

Lemma lstrip_head s c : head (lstrip s) = Some c -> is_space c = false.
Proof.
  induction s as [|d s IH]; simpl; [done|].
  destruct (is_space d) eqn:Hd; [done|]. by intros [= <-].
Qed.

Lemma lstrip_blank_app a t : blank a -> lstrip (a ++ t) = lstrip t.
Proof. induction 1 as [|c a Hc _ IH]; simpl; [done|]. by rewrite Hc. Qed.

Lemma lstrip_id t : (forall c, head t = Some c -> is_space c = false) -> lstrip t = t.
Proof. destruct t as [|c t]; simpl; [done|]. intros H. by rewrite (H c). Qed.

Lemma lstrip_nil_iff s : lstrip s = [] <-> blank s.
Proof.
  split.
  - induction s as [|c s IH]; simpl; [constructor|].
    destruct (is_space c) eqn:Hc; [|discriminate]. intros H. apply Forall_cons; [exact Hc | exact (IH H)].
  - intros H. rewrite <- (app_nil_r s), lstrip_blank_app by done. done.
Qed.

Lemma blank_reverse s : blank (reverse s) <-> blank s.
Proof. unfold blank. by rewrite Forall_reverse. Qed.

(** ** Lemmas on [rstrip], through [reverse] *)

Lemma rstrip_decomp s : exists b, s = rstrip s ++ b /\ blank b.
Proof.
  destruct (lstrip_decomp (reverse s)) as (b & Hb & Hbl).
  exists (reverse b). split; [|by apply blank_reverse].
  unfold rstrip. rewrite <- reverse_app, <- Hb. by rewrite reverse_involutive.
Qed.

Lemma rstrip_last s c : list.last (rstrip s) = Some c -> is_space c = false.
Proof. unfold rstrip. rewrite last_reverse. apply lstrip_head. Qed.

Lemma rstrip_app_blank t b : blank b -> rstrip (t ++ b) = rstrip t.
Proof.
  intros Hb. unfold rstrip. rewrite reverse_app, lstrip_blank_app; [done|].
  by apply blank_reverse.
Qed.

Lemma rstrip_id t : (forall c, list.last t = Some c -> is_space c = false) -> rstrip t = t.
Proof.
  intros H. unfold rstrip. rewrite lstrip_id; [apply reverse_involutive|].
  intros c. rewrite head_reverse. apply H.
Qed.

#[export] Hint Resolve lstrip_head rstrip_last : pyrt.

Lemma startswith_iff s p : startswith s p = true <-> exists r, s = p ++ r.
Proof.
  revert s. induction p as [|x p IH]; intros [|y s]; simpl.
  - split; [eauto | done].
  - split; [eauto | done].
  - split; [done | intros (r & ?); done].
  - rewrite andb_true_iff, Z.eqb_eq, IH. split.
    + intros [-> (r & ->)]. eauto.
    + intros (r & [= -> ->]). eauto.
Qed.

(** ** Properties *)

(** [strip s] is [s] without the runs of whitespace at its ends. *)
Lemma strip_decomp s :
  exists a b, s = a ++ strip s ++ b /\ blank a /\ blank b /\ trimmed (strip s).
Proof.
  destruct (lstrip_decomp s) as (a & Ha & Hba).
  destruct (rstrip_decomp (lstrip s)) as (b & Hb & Hbb).
  exists a, b. unfold strip. rewrite <- Hb.
  split; [done|]. split; [done|]. split; [done|]. split; [|apply rstrip_last].
  intros c Hc. apply (lstrip_head s). rewrite Hb.
  destruct (rstrip (lstrip s)); [done | exact Hc].
Qed.

(** Stripping a trimmed string between two runs of whitespace gives it back. *)
Lemma strip_of_decomp a t b : blank a -> blank b -> trimmed t -> strip (a ++ t ++ b) = t.
Proof.
  intros Ha Hb [Hh Hl]. unfold strip.
  rewrite lstrip_blank_app by done.
  destruct t as [|c t].
  - simpl. by rewrite (proj2 (lstrip_nil_iff b) Hb).
  - rewrite lstrip_id by done. rewrite rstrip_app_blank by done. by apply rstrip_id.
Qed.

(** C23: [s.strip()] is characterised by its decomposition: [strip s = t]
    exactly when [s] is [t] between two runs of whitespace and [t] neither
    starts nor ends with whitespace. *)
Theorem strip_iff s t :
  strip s = t <-> exists a b, s = a ++ t ++ b /\ blank a /\ blank b /\ trimmed t.
Proof.
  split.
  - intros <-. apply strip_decomp.
  - intros (a & b & -> & Ha & Hb & Ht). by apply strip_of_decomp.
Qed.

(** [strip] is idempotent. *)
Theorem strip_idempotent s : strip (strip s) = strip s.
Proof.
  destruct (strip_decomp s) as (_ & _ & _ & _ & _ & Ht).
  rewrite <- (app_nil_r (strip s)) at 1. rewrite <- (app_nil_l (strip s ++ [])).
  apply strip_of_decomp; [constructor | constructor | done].
Qed.

(** [not s.strip()] holds exactly when every character of [s] is
    whitespace (the empty string included). *)
Theorem strip_nil_iff s : strip s = [] <-> blank s.
Proof.
  split.
  - intros Hs. destruct (strip_decomp s) as (a & b & Hab & Ha & Hb & _).
    rewrite Hs in Hab. rewrite Hab. apply Forall_app; done.
  - intros Hs. pose proof (strip_of_decomp s [] [] Hs) as Hn. rewrite !app_nil_r in Hn.
    apply Hn; [constructor | split; by intros ? ?].
Qed.

(** C24: [needle in hay] on strings is the substring relation. *)
Theorem str_contains_iff needle hay :
  str_contains needle hay = true <-> exists a b, hay = a ++ needle ++ b.
Proof.
  induction hay as [|c hay IH]; cbn [str_contains]; rewrite orb_true_iff, startswith_iff.
  - split.
    + intros [(r & Hr) | ?]; [exists [], r; done | discriminate].
    + intros ([|] & b & Hab); [left; eauto | done].
  - rewrite IH. split.
    + intros [(r & Hr) | (a & b & ->)]; [exists [], r; done | exists (c :: a), b; done].
    + intros ([|x a] & b & Hab); [left; eauto|].
      simpl in Hab. injection Hab as -> ->. right. eauto.
Qed.

(** ** [do_strip] computes [lstrip], [rstrip] and [strip] *)

Lemma strip_left_index_spec s f i :
  (length s - i <= f)%nat ->
  drop (strip_left_index s f i) s = lstrip (drop i s) /\
  (i <= strip_left_index s f i <= Nat.max i (length s))%nat.
Proof.
  revert i. induction f as [|f IH]; intros i Hf; cbn [strip_left_index].
  - rewrite drop_ge by lia. split; [done | lia].
  - destruct (s !! i) as [c|] eqn:Hc.
    + pose proof (lookup_lt_Some _ _ _ Hc).
      rewrite (drop_S _ _ _ Hc). cbn [lstrip]. destruct (is_space c).
      * destruct (IH (S i)) as [-> ?]; [lia|]. split; [done | lia].
      * split; [by rewrite (drop_S _ _ _ Hc) | lia].
    + apply lookup_ge_None in Hc. rewrite drop_ge by lia. split; [done | lia].
Qed.

Lemma take_drop_S_r (s : pystr) (i k : nat) (c : Z) :
  s !! (i + k)%nat = Some c -> take (S k) (drop i s) = take k (drop i s) ++ [c].
Proof. intros Hc. apply take_S_r. by rewrite lookup_drop. Qed.

Lemma strip_right_index_spec s f i j :
  (i <= length s)%nat -> (Z.of_nat i - 1 <= j < Z.of_nat (length s)) ->
  (Z.to_nat (j + 1) - i <= f)%nat ->
  take (Z.to_nat (strip_right_index s f i j + 1) - i) (drop i s) =
  rstrip (take (Z.to_nat (j + 1) - i) (drop i s)).
Proof.
  revert j. induction f as [|f IH]; intros j Hi Hj Hf; cbn [strip_right_index].
  - replace (Z.to_nat (j + 1) - i)%nat with 0%nat by lia. done.
  - destruct (Z.leb_spec (Z.of_nat i) j) as [Hij|Hij].
    + destruct (lookup_lt_is_Some_2 s (Z.to_nat j)) as [c Hc]; [lia|].
      rewrite Hc.
      replace (Z.to_nat (j + 1) - i)%nat with (S (Z.to_nat j - i)) by lia.
      rewrite (take_drop_S_r s i _ c) by (by replace (i + (Z.to_nat j - i))%nat with (Z.to_nat j) by lia).
      destruct (is_space c) eqn:Hs.
      * rewrite rstrip_app_blank by (constructor; [exact Hs | constructor]).
        rewrite IH by lia. do 2 f_equal. lia.
      * rewrite rstrip_id; [|intros c'; rewrite last_snoc; congruence].
        replace (Z.to_nat (j + 1) - i)%nat with (S (Z.to_nat j - i)) by lia.
        rewrite (take_drop_S_r s i _ c) by (by replace (i + (Z.to_nat j - i))%nat with (Z.to_nat j) by lia).
        done.
    + replace (Z.to_nat (j + 1) - i)%nat with 0%nat by lia. done.
Qed.

(** C25: CPython's [do_strip] is the reference definition of stripping:
    [s.lstrip()], [s.rstrip()] and [s.strip()] computed by its two index
    loops are [lstrip], [rstrip] and [strip]. *)
Theorem do_strip_correct s :
  do_strip LEFTSTRIP s = lstrip s /\ do_strip RIGHTSTRIP s = rstrip s /\
  do_strip BOTHSTRIP s = strip s.
Proof.
  destruct (strip_left_index_spec s (length s) 0) as [Hl Hi]; [lia|].
  pose proof (f_equal length Hl) as Hlen. rewrite length_drop in Hlen.
  unfold do_strip, substring. rewrite drop_0 in Hl. split; [|split].
  - rewrite Nat2Z.id, take_ge by (rewrite length_drop; lia). exact Hl.
  - rewrite strip_right_index_spec by lia.
    rewrite drop_0, take_ge by lia. done.
  - rewrite strip_right_index_spec by lia.
    rewrite take_ge by (rewrite length_drop; lia). unfold strip. by rewrite Hl.
Qed.

End Str.
