(* ===== verification/Json.v ===== *)
(** JSON as the script's Python sees it: the values [json.loads] returns,
    CPython's [json.dumps] with its default arguments (used for the two
    request bodies, lines 56-65 and 116-118), CPython's C scanner behind
    [json.loads] (used on the error response, line 72), and the [dict]
    the decoder builds, with its [.get] (lines 73, 75, 78).  The
    dictionary is refined to a stdpp finite map; an object whose members
    repeat a key decodes to one entry per key holding the last value. *)

From S2P Require Import Prelude PyStr.
From stdpp Require Import gmap.
From Stdlib Require Import DecimalN.
#[local] Open Scope Z_scope.

Module Json.
Import Str.

(** A decoded JSON value.  An object is a Python [dict]: its items in
    insertion order. *)
Inductive json : Type :=
| JNull
| JBool (b : bool)
| JInt (z : Z)
| JFloat (lexeme : pystr)
| JStr (s : pystr)
| JList (l : list json)
| JDict (items : list (pystr * json)).

(** Structural induction with hypotheses on the elements of lists and
    the values of objects. *)
Section json_ind.
Context (P : json -> Prop).
Context (hnull : P JNull) (hbool : forall b, P (JBool b)) (hint : forall z, P (JInt z))
        (hfloat : forall f, P (JFloat f)) (hstr : forall s, P (JStr s))
        (hlist : forall l, Forall P l -> P (JList l))
        (hdict : forall d, Forall (fun kv => P kv.2) d -> P (JDict d)).

Fixpoint json_ind' (v : json) : P v :=
  match v with
  | JNull => hnull
  | JBool b => hbool b
  | JInt z => hint z
  | JFloat f => hfloat f
  | JStr s => hstr s
  | JList l =>
    hlist l ((fix go (l : list json) : Forall P l :=
               match l with
               | [] => Forall_nil_2 _
               | x :: l' => Forall_cons_2 _ _ _ (json_ind' x) (go l')
               end) l)
  | JDict d =>
    hdict d ((fix go (d : list (pystr * json)) : Forall (fun kv => P kv.2) d :=
               match d with
               | [] => Forall_nil_2 _
               | kv :: d' => Forall_cons_2 _ _ _ (json_ind' kv.2) (go d')
               end) d)
  end.
End json_ind.

(** ** Python's [dict] *)

(** [d[k] = v] ([PyDict_SetItem]): an existing key keeps its place and
    takes the new value; a new key goes last. *)
Fixpoint dict_set (d : list (pystr * json)) (k : pystr) (v : json) : list (pystr * json) :=
  match d with
  | [] => [(k, v)]
  | (k', v') :: d' => if bool_decide (k = k') then (k', v) :: d' else (k', v') :: dict_set d' k v
  end.

(** [d.get(k)], [None] standing for Python's missing key. *)
Fixpoint dict_get (d : list (pystr * json)) (k : pystr) : option json :=
  match d with
  | [] => None
  | (k', v) :: d' => if bool_decide (k = k') then Some v else dict_get d' k
  end.

(** The finite map a [dict] stands for. *)
Definition dict_view (d : list (pystr * json)) : gmap pystr json := list_to_map d.

(** ** [json.dumps(obj)] *)

Definition lit_null : pystr := [110; 117; 108; 108].
Definition lit_true : pystr := [116; 114; 117; 101].
Definition lit_false : pystr := [102; 97; 108; 115; 101].
Definition lit_nan : pystr := [78; 97; 78].
Definition lit_infinity : pystr := [73; 110; 102; 105; 110; 105; 116; 121].

(** Lower-case hexadecimal digit of [0 <= n < 16]. *)
Definition hexdig (n : Z) : Z := if n <? 10 then 48 + n else 87 + n.

(** ['{0:04x}'.format(n)] for [0 <= n < 0x10000]. *)
Definition hex4 (n : Z) : pystr :=
  map (fun sh => hexdig (Z.land (Z.shiftr n sh) 15)) [12; 8; 4; 0].

(** One character as [py_encode_basestring_ascii] writes it: printable
    ASCII but quote and backslash as is, the short escapes, other BMP
    characters as [\uXXXX], others as a UTF-16 surrogate pair. *)
Definition escape_char (c : Z) : pystr :=
  if (32 <=? c) && (c <=? 126) && negb (c =? 34) && negb (c =? 92) then [c]
  else if c =? 92 then [92; 92]
  else if c =? 34 then [92; 34]
  else if c =? 8 then [92; 98]
  else if c =? 12 then [92; 102]
  else if c =? 10 then [92; 110]
  else if c =? 13 then [92; 114]
  else if c =? 9 then [92; 116]
  else if c <? 0x10000 then 92 :: 117 :: hex4 c
  else
    let n := c - 0x10000 in
    (92 :: 117 :: hex4 (Z.lor 0xD800 (Z.land (Z.shiftr n 10) 0x3FF))) ++
    (92 :: 117 :: hex4 (Z.lor 0xDC00 (Z.land n 0x3FF))).

Definition encode_str (s : pystr) : pystr := 34 :: mjoin (map escape_char s) ++ [34].

(** [sep.join(parts)] *)
Fixpoint join_with (sep : pystr) (parts : list pystr) : pystr :=
  match parts with
  | [] => []
  | [p] => p
  | p :: ps => p ++ sep ++ join_with sep ps
  end.

(** [JSONEncoder.item_separator] and [key_separator] when [indent] is [None]. *)
Definition item_separator : pystr := [44; 32].
Definition key_separator : pystr := [58; 32].

(** [json.dumps] with [ensure_ascii=True] and the default separators
    [", "] and [": "].  A float is written as its literal (the script
    never serialises a float; [float.__repr__] is not modelled). *)
Fixpoint dumps (v : json) : pystr :=
  match v with
  | JNull => lit_null
  | JBool true => lit_true
  | JBool false => lit_false
  | JInt z => str_of_Z z
  | JFloat f => f
  | JStr s => encode_str s
  | JList l => 91 :: join_with item_separator (map dumps l) ++ [93]
  | JDict d =>
    123 :: join_with item_separator (map (fun kv => encode_str kv.1 ++ key_separator ++ dumps kv.2) d)
        ++ [125]
  end.

(** ** [json.loads(s)]: the C scanner of [Modules/_json.c] *)

(** The [WHITESPACE] of the decoder: space, tab, newline, return. *)
Definition is_ws (c : Z) : bool := (c =? 32) || (c =? 9) || (c =? 10) || (c =? 13).

Fixpoint skip_ws (s : pystr) : pystr :=
  match s with
  | c :: r => if is_ws c then skip_ws r else s
  | [] => []
  end.

Definition is_digit (c : Z) : bool := (48 <=? c) && (c <=? 57).

Definition hex_val (c : Z) : option Z :=
  if is_digit c then Some (c - 48)
  else if (97 <=? c) && (c <=? 102) then Some (c - 87)
  else if (65 <=? c) && (c <=? 70) then Some (c - 55)
  else None.

Definition hex4_val (a b c d : Z) : option Z :=
  a' ← hex_val a; b' ← hex_val b; c' ← hex_val c; d' ← hex_val d;
  Some (a' * 4096 + b' * 256 + c' * 16 + d').

Definition is_high (u : Z) : bool := (0xD800 <=? u) && (u <=? 0xDBFF).
Definition is_low (u : Z) : bool := (0xDC00 <=? u) && (u <=? 0xDFFF).

(** [Py_UNICODE_JOIN_SURROGATES] *)
Definition join_surrogates (hi lo : Z) : Z :=
  0x10000 + Z.lor (Z.shiftl (Z.land hi 0x3FF) 10) (Z.land lo 0x3FF).

(** The one-character escapes after a backslash. *)
Definition simple_escape (e : Z) : option Z :=
  if e =? 34 then Some 34 else if e =? 92 then Some 92 else if e =? 47 then Some 47
  else if e =? 98 then Some 8 else if e =? 102 then Some 12 else if e =? 110 then Some 10
  else if e =? 114 then Some 13 else if e =? 116 then Some 9 else None.

Definition cons_fst (c : Z) (o : option (pystr * pystr)) : option (pystr * pystr) :=
  (fun p => (c :: p.1, p.2)) <$> o.

(** [scanstring_unicode] with [strict=True], after the opening quote:
    the decoded string and the text after the closing quote. *)
Fixpoint scan_str (s : pystr) : option (pystr * pystr) :=
  match s with
  | [] => None
  | c :: r =>
    if c =? 34 then Some ([], r)
    else if c =? 92 then
      match r with
      | [] => None
      | e :: r1 =>
        if e =? 117 then
          match r1 with
          | h1 :: h2 :: h3 :: h4 :: r2 =>
            match hex4_val h1 h2 h3 h4 with
            | None => None
            | Some u =>
              if is_high u then
                match r2 with
                | b :: v :: g1 :: g2 :: g3 :: g4 :: r3 =>
                  if (b =? 92) && (v =? 117) then
                    match hex4_val g1 g2 g3 g4 with
                    | None => None
                    | Some lo =>
                      if is_low lo then cons_fst (join_surrogates u lo) (scan_str r3)
                      else cons_fst u (scan_str r2)
                    end
                  else cons_fst u (scan_str r2)
                | _ => cons_fst u (scan_str r2)
                end
              else cons_fst u (scan_str r2)
            end
          | _ => None
          end
        else
          match simple_escape e with
          | Some d => cons_fst d (scan_str r1)
          | None => None
          end
      end
    else if c <=? 0x1F then None
    else cons_fst c (scan_str r)
  end.

(** The longest run of ASCII digits at the front. *)
Fixpoint span_digits (s : pystr) : pystr * pystr :=
  match s with
  | c :: r => if is_digit c then let '(ds, r') := span_digits r in (c :: ds, r') else ([], s)
  | [] => ([], [])
  end.

(** Fraction ['.' digit+], when present. *)
Definition scan_frac (s : pystr) : option (pystr * pystr) :=
  match s with
  | p :: d :: r =>
    if (p =? 46) && is_digit d then let '(ds, r') := span_digits r in Some (p :: d :: ds, r')
    else None
  | _ => None
  end.

(** Exponent [[eE][-+]?digit+], when present (else the scanner backtracks). *)
Definition scan_exp (s : pystr) : option (pystr * pystr) :=
  match s with
  | e :: r =>
    if (e =? 101) || (e =? 69) then
      let '(sg, r1) :=
        match r with
        | x :: r' => if (x =? 45) || (x =? 43) then ([x], r') else ([], r)
        | [] => ([], [])
        end in
      match span_digits r1 with
      | ([], _) => None
      | (ds, r2) => Some (e :: sg ++ ds, r2)
      end
    else None
  | [] => None
  end.

(** Decimal digits to a [Decimal.uint] ([int(numstr)]). *)
Fixpoint uint_of_digits (ds : pystr) : Decimal.uint :=
  match ds with
  | [] => Decimal.Nil
  | d :: ds' =>
    let r := uint_of_digits ds' in
    match d - 48 with
    | 0 => Decimal.D0 r | 1 => Decimal.D1 r | 2 => Decimal.D2 r | 3 => Decimal.D3 r
    | 4 => Decimal.D4 r | 5 => Decimal.D5 r | 6 => Decimal.D6 r | 7 => Decimal.D7 r
    | 8 => Decimal.D8 r | _ => Decimal.D9 r
    end
  end.

Definition int_value (neg : bool) (ds : pystr) : Z :=
  let n := Z.of_N (N.of_uint (uint_of_digits ds)) in if neg then - n else n.

(** After the integer part: an [int] when neither fraction nor exponent
    follows, else a [float] (kept as its literal). *)
Definition number_tail (neg : bool) (ip : pystr) (s : pystr) : option (json * pystr) :=
  let '(fr, s1) := match scan_frac s with Some (f, r) => (f, r) | None => ([], s) end in
  let '(ex, s2) := match scan_exp s1 with Some (e, r) => (e, r) | None => ([], s1) end in
  match fr, ex with
  | [], [] => Some (JInt (int_value neg ip), s2)
  | _, _ => Some (JFloat ((if neg then [45] else []) ++ ip ++ fr ++ ex), s2)
  end.

(** [_match_number_unicode] *)
Definition scan_number (s : pystr) : option (json * pystr) :=
  let '(neg, s1) := match s with
                    | c :: r => if c =? 45 then (true, r) else (false, s)
                    | [] => (false, [])
                    end in
  match s1 with
  | [] => None
  | d :: r1 =>
    if (49 <=? d) && (d <=? 57) then let '(ds, r2) := span_digits r1 in number_tail neg (d :: ds) r2
    else if d =? 48 then number_tail neg [48] r1
    else None
  end.

(** [scan_once_unicode], [_parse_object_unicode] and
    [_parse_array_unicode]; [fuel] bounds the number of nested steps. *)
Fixpoint scan_value (fuel : nat) (s : pystr) : option (json * pystr) :=
  match fuel with
  | O => None
  | S f =>
    match s with
    | [] => None
    | c :: r =>
      if c =? 34 then (fun p => (JStr p.1, p.2)) <$> scan_str r
      else if c =? 123 then
        match skip_ws r with
        | e :: r' => if e =? 125 then Some (JDict [], r') else scan_members f [] (e :: r')
        | [] => None
        end
      else if c =? 91 then
        match skip_ws r with
        | e :: r' => if e =? 93 then Some (JList [], r') else scan_elements f [] (e :: r')
        | [] => None
        end
      else if startswith s lit_null then Some (JNull, drop 4 s)
      else if startswith s lit_true then Some (JBool true, drop 4 s)
      else if startswith s lit_false then Some (JBool false, drop 5 s)
      else if startswith s lit_nan then Some (JFloat lit_nan, drop 3 s)
      else if startswith s lit_infinity then Some (JFloat lit_infinity, drop 8 s)
      else if startswith s (45 :: lit_infinity) then Some (JFloat (45 :: lit_infinity), drop 9 s)
      else scan_number s
    end
  end
with scan_members (fuel : nat) (acc : list (pystr * json)) (s : pystr) : option (json * pystr) :=
  match fuel with
  | O => None
  | S f =>
    match s with
    | c :: r =>
      if c =? 34 then
        match scan_str r with
        | None => None
        | Some (k, r1) =>
          match skip_ws r1 with
          | d :: r2 =>
            if d =? 58 then
              match scan_value f (skip_ws r2) with
              | None => None
              | Some (v, r3) =>
                let acc' := dict_set acc k v in
                match skip_ws r3 with
                | e :: r4 =>
                  if e =? 125 then Some (JDict acc', r4)
                  else if e =? 44 then scan_members f acc' (skip_ws r4)
                  else None
                | [] => None
                end
              end
            else None
          | [] => None
          end
        end
      else None
    | [] => None
    end
  end
with scan_elements (fuel : nat) (acc : list json) (s : pystr) : option (json * pystr) :=
  match fuel with
  | O => None
  | S f =>
    match scan_value f s with
    | None => None
    | Some (v, r) =>
      match skip_ws r with
      | e :: r' =>
        if e =? 93 then Some (JList (acc ++ [v]), r')
        else if e =? 44 then scan_elements f (acc ++ [v]) (skip_ws r')
        else None
      | [] => None
      end
    end
  end.

(** [json.loads(s)]: no byte-order mark, one value between optional
    whitespace, nothing after it; [None] is a [JSONDecodeError]. *)
Definition loads (s : pystr) : option json :=
  if startswith s [0xFEFF] then None
  else
    match scan_value (S (2 * length s)) (skip_ws s) with
    | Some (v, r) => match skip_ws r with [] => Some v | _ => None end
    | None => None
    end.

(** ** Predicates of the properties *)

(** A Unicode scalar value: what a [str] read from UTF-8 text holds. *)
Definition scalarb (c : Z) : bool :=
  (0 <=? c) && (c <=? 0x10FFFF) && negb ((0xD800 <=? c) && (c <=? 0xDFFF)).

(** Values [loads] gives back unchanged after [dumps]: no float (its
    [repr] is not modelled), strings of scalar values, objects without
    duplicate keys (a decoded object never has one). *)
Fixpoint wfb (v : json) : bool :=
  match v with
  | JNull | JBool _ | JInt _ => true
  | JFloat _ => false
  | JStr s => forallb scalarb s
  | JList l => forallb wfb l
  | JDict d =>
    bool_decide (NoDup (map fst d)) && forallb (fun kv => forallb scalarb kv.1 && wfb kv.2) d
  end.

(** What may follow a number without being read as part of it. *)
Definition num_end (rest : pystr) : Prop :=
  forall c r, rest = c :: r -> is_digit c = false /\ c <> 46 /\ c <> 101 /\ c <> 69.

(** What follows a value in the output of [dumps]. *)
Definition json_end (rest : pystr) : Prop :=
  forall c r, rest = c :: r -> c = 44 \/ c = 93 \/ c = 125.

(** The round trip of one value, whatever [dumps] may write after it. *)
Definition roundtrips (v : json) : Prop :=
  forall f rest, json_end rest -> (2 * length (dumps v ++ rest) < f)%nat ->
    scan_value f (dumps v ++ rest) = Some (v, rest).

(** Values without floats (a float is written as its literal). *)
Fixpoint floatless (v : json) : bool :=
  match v with
  | JFloat _ => false
  | JList l => forallb floatless l
  | JDict d => forallb (fun kv => floatless kv.2) d
  | _ => true
  end.

(** A printable ASCII character. *)
Definition printable (c : Z) : Prop := 32 <= c <= 126.

(** The [dict] that [d[k] = v] builds from [acc], one member of [d]
    after the other, as the loop of [_parse_object_unicode] does. *)
Definition dict_build (acc d : list (pystr * json)) : list (pystr * json) :=
  foldl (fun a kv => dict_set a kv.1 kv.2) acc d.

(** Values whose objects, at every depth, have pairwise distinct keys:
    what a Python [dict] built by the decoder can be. *)
Fixpoint keys_unique (v : json) : bool :=
  match v with
  | JList l => forallb keys_unique l
  | JDict d => bool_decide (NoDup d.*1) && forallb (fun kv => keys_unique kv.2) d
  | _ => true
  end.

(** ** The [dict] refines a finite map *)

Lemma dict_get_view d k : dict_get d k = dict_view d !! k.
Proof.
  induction d as [|[k' v'] d IH]; [done|].
  unfold dict_view in *. cbn [dict_get]. rewrite list_to_map_cons, lookup_insert, IH.
  by case_bool_decide; case_decide; subst.
Qed.

Lemma dict_set_view d k v : dict_view (dict_set d k v) = <[k:=v]> (dict_view d).
Proof.
  induction d as [|[k' v'] d IH]; [done|].
  unfold dict_view in *. cbn [dict_set].
  case_bool_decide as Hk.
  - subst. rewrite !list_to_map_cons. by rewrite insert_insert_eq.
  - rewrite !list_to_map_cons, IH. by rewrite insert_insert_ne.
Qed.

Lemma dict_set_keys d k v :
  map fst (dict_set d k v) = if bool_decide (k ∈ map fst d) then map fst d else map fst d ++ [k].
Proof.
  induction d as [|[k' v'] d IH]; cbn [dict_set map].
  { rewrite bool_decide_false by set_solver. done. }
  destruct (decide (k = k')) as [->|Hne].
  - rewrite (bool_decide_true (_ = _)), (bool_decide_true (_ ∈ _)) by set_solver. done.
  - rewrite (bool_decide_false (_ = _)) by done. cbn [map fst]. rewrite IH.
    destruct (decide (k ∈ map fst d)).
    + rewrite !bool_decide_true by set_solver. done.
    + rewrite !bool_decide_false by set_solver. done.
Qed.

(** ** Lengths: every scanner step consumes input *)

Lemma skip_ws_length s : (length (skip_ws s) <= length s)%nat.
Proof. induction s as [|c s IH]; simpl; [lia|]. destruct (is_ws c); simpl; lia. Qed.

Lemma cons_fst_Some c o t r :
  cons_fst c o = Some (t, r) <-> exists t', o = Some (t', r) /\ t = c :: t'.
Proof.
  unfold cons_fst. destruct o as [[t' r']|]; simpl; split.
  - intros [= <- <-]; eauto.
  - by intros (? & [= -> ->] & ->).
  - done.
  - by intros (? & ? & ?).
Qed.

Lemma scan_str_length s t r : scan_str s = Some (t, r) -> (length r < length s)%nat.
Proof.
  revert t r. induction s as [s IH] using list_length_ind. intros t r.
  destruct s as [|c s]; [done|]. cbn [scan_str].
  intros H. repeat (case_match; simplify_eq; try done).
  all: try (apply cons_fst_Some in H as (? & H & ->); apply IH in H; simpl in *; lia).
  all: simpl; lia.
Qed.

Lemma span_digits_app s : (span_digits s).1 ++ (span_digits s).2 = s.
Proof. induction s as [|c s IH]; simpl; [done|]. destruct (is_digit c); [|done]. by destruct (span_digits s); simpl in *; subst. Qed.

Lemma span_digits_length s : (length (span_digits s).2 <= length s)%nat.
Proof. rewrite <- (span_digits_app s) at 2. rewrite length_app. lia. Qed.

Lemma number_tail_length neg ip s v r : number_tail neg ip s = Some (v, r) -> (length r <= length s)%nat.
Proof.
  unfold number_tail, scan_frac, scan_exp. intros H.
  repeat (case_match; simplify_eq; try done);
  repeat match goal with
  | H : span_digits ?x = (_, _) |- _ => pose proof (span_digits_length x); rewrite H in *; clear H
  end; simpl in *; lia.
Qed.

Lemma scan_number_length s v r : scan_number s = Some (v, r) -> (length r < length s)%nat.
Proof.
  unfold scan_number. intros H.
  repeat (case_match; simplify_eq; try done);
  repeat match goal with
  | H : number_tail _ _ _ = Some _ |- _ => apply number_tail_length in H
  | H : span_digits ?x = (_, _) |- _ => pose proof (span_digits_length x); rewrite H in *; clear H
  end; simpl in *; lia.
Qed.

(** Saturate the context with the length facts of the scanner steps. *)
Ltac len_facts :=
  repeat match goal with
  | H : skip_ws ?x = ?y |- _ =>
    let L := fresh "L" in pose proof (skip_ws_length x) as L; rewrite H in L; clear H
  | H : _ <$> _ = Some _ |- _ => apply fmap_Some_1 in H as ([? ?] & ? & ?); simplify_eq
  | H : scan_str ?x = Some (?a, ?b) |- _ => apply scan_str_length in H
  | H : scan_number ?x = Some (?a, ?b) |- _ => apply scan_number_length in H
  | H : startswith ?x ?p = true |- _ => apply startswith_iff in H as (? & ->)
  | H : context [length (skip_ws ?x)] |- _ =>
    lazymatch goal with
    | _ : (length (skip_ws x) <= length x)%nat |- _ => fail
    | _ => pose proof (skip_ws_length x)
    end
  | |- context [length (skip_ws ?x)] =>
    lazymatch goal with
    | _ : (length (skip_ws x) <= length x)%nat |- _ => fail
    | _ => pose proof (skip_ws_length x)
    end
  end; simpl in *; rewrite ?length_drop, ?length_app in *; simpl in *.

Lemma scan_length f :
  (forall s v r, scan_value f s = Some (v, r) -> (length r < length s)%nat) /\
  (forall acc s v r, scan_members f acc s = Some (v, r) -> (length r < length s)%nat) /\
  (forall acc s v r, scan_elements f acc s = Some (v, r) -> (length r < length s)%nat).
Proof.
  induction f as [|f (IHv & IHm & IHe)]; [done|].
  split; [|split].
  - intros [|c s] v r; cbn [scan_value]; [done|]. intros H.
    repeat (case_match; simplify_eq; try done).
    all: try (apply IHm in H || apply IHe in H).
    all: len_facts; lia.
  - intros acc [|c s] v r; cbn [scan_members]; [done|]. intros H.
    repeat (case_match; simplify_eq; try done).
    all: repeat match goal with
         | H : scan_value _ _ = Some _ |- _ => apply IHv in H
         | H : scan_members _ _ _ = Some _ |- _ => apply IHm in H
         end.
    all: len_facts; lia.
  - intros acc s v r; cbn [scan_elements]. intros H.
    repeat (case_match; simplify_eq; try done).
    all: repeat match goal with
         | H : scan_value _ _ = Some _ |- _ => apply IHv in H
         | H : scan_elements _ _ _ = Some _ |- _ => apply IHe in H
         end.
    all: len_facts; lia.
Qed.

(** One more unit of fuel changes nothing once the fuel exceeds twice
    the length of the input (an array element re-enters the value
    scanner on the same text with one unit less). *)
Ltac scan_len_facts :=
  repeat match goal with
  | H : scan_value ?f _ = Some (_, _) |- _ => apply (proj1 (scan_length f)) in H
  | H : scan_members ?f _ _ = Some (_, _) |- _ => apply (proj1 (proj2 (scan_length f))) in H
  | H : scan_elements ?f _ _ = Some (_, _) |- _ => apply (proj2 (proj2 (scan_length f))) in H
  end; len_facts.

Ltac fuel_rw f1 f2 IHv IHm IHe :=
  match goal with
  | |- context [scan_value f1 ?x] => rewrite (IHv x f2) by (scan_len_facts; lia)
  | |- context [scan_members f1 ?a ?x] => rewrite (IHm a x f2) by (scan_len_facts; lia)
  | |- context [scan_elements f1 ?a ?x] => rewrite (IHe a x f2) by (scan_len_facts; lia)
  end.

Lemma scan_fuel_irrel f1 :
  (forall s f2, (2 * length s < f1)%nat -> (2 * length s < f2)%nat ->
     scan_value f1 s = scan_value f2 s) /\
  (forall acc s f2, (2 * length s + 1 < f1)%nat -> (2 * length s + 1 < f2)%nat ->
     scan_members f1 acc s = scan_members f2 acc s) /\
  (forall acc s f2, (2 * length s + 1 < f1)%nat -> (2 * length s + 1 < f2)%nat ->
     scan_elements f1 acc s = scan_elements f2 acc s).
Proof.
  induction f1 as [|f1 (IHv & IHm & IHe)]; [split; [|split]; intros; lia|].
  split; [|split].
  - intros [|c s] [|f2] H1 H2; try lia; [done|]. cbn [scan_value].
    repeat (first [fuel_rw f1 f2 IHv IHm IHe | case_match]); done.
  - intros acc [|c s] [|f2] H1 H2; try lia; [done|]. cbn [scan_members].
    repeat (first [fuel_rw f1 f2 IHv IHm IHe | case_match]); done.
  - intros acc s [|f2] H1 H2; try lia. cbn [scan_elements].
    repeat (first [fuel_rw f1 f2 IHv IHm IHe | case_match]); done.
Qed.

(** ** Round trip of [dumps] and [loads] *)

Lemma scalarb_spec c : scalarb c = true <-> 0 <= c <= 0x10FFFF /\ ~ (0xD800 <= c <= 0xDFFF).
Proof.
  unfold scalarb. rewrite !andb_true_iff, negb_true_iff, andb_false_iff, !Z.leb_le, !Z.leb_gt.
  split; intros; lia.
Qed.

Lemma hex_val_hexdig d : 0 <= d < 16 -> hex_val (hexdig d) = Some d.
Proof.
  intros Hd. unfold hexdig. destruct (Z.ltb_spec d 10); unfold hex_val, is_digit; zcases; f_equal; lia.
Qed.

Lemma nibble n k : 0 <= k -> Z.land (Z.shiftr n k) 15 = (n / 2 ^ k) mod 16.
Proof. intros Hk. rewrite Z.shiftr_div_pow2 by done. apply (land_low_bits _ 4); lia. Qed.

Lemma hex4_val_hex4 n rest : 0 <= n < 65536 ->
  exists a b c d, hex4 n ++ rest = a :: b :: c :: d :: rest /\ hex4_val a b c d = Some n.
Proof.
  intros Hn. do 4 eexists. split; [reflexivity|].
  unfold hex4_val. cbn [map]. rewrite !nibble by lia.
  change (2 ^ 12) with 4096. change (2 ^ 8) with 256. change (2 ^ 4) with 16. change (2 ^ 0) with 1.
  rewrite !hex_val_hexdig by (apply Z.mod_pos_bound; lia). simpl. f_equal.
  rewrite Z.div_1_r, (Z.mod_small (n / 4096)) by (split; [apply Z.div_pos | apply Z.div_lt_upper_bound]; lia).
  pose proof (Z.div_div n 256 16 ltac:(lia) ltac:(lia)) as E1.
  pose proof (Z.div_div n 16 16 ltac:(lia) ltac:(lia)) as E2.
  change (256 * 16) with 4096 in E1. change (16 * 16) with 256 in E2.
  pose proof (Z.div_mod (n / 256) 16 ltac:(lia)). pose proof (Z.div_mod (n / 16) 16 ltac:(lia)).
  pose proof (Z.div_mod n 16 ltac:(lia)). lia.
Qed.

Lemma surrogates_of c : 0x10000 <= c <= 0x10FFFF ->
  Z.lor 0xD800 (Z.land (Z.shiftr (c - 0x10000) 10) 0x3FF) = 0xD800 + (c - 0x10000) / 1024 /\
  Z.lor 0xDC00 (Z.land (c - 0x10000) 0x3FF) = 0xDC00 + (c - 0x10000) mod 1024.
Proof.
  intros Hc. rewrite Z.shiftr_div_pow2, !(land_low_bits _ 10) by lia.
  change (2 ^ 10) with 1024.
  rewrite (Z.mod_small ((c - 0x10000) / 1024)) by (split; [apply Z.div_pos | apply Z.div_lt_upper_bound]; lia).
  change 0xD800 with (54 * 2 ^ 10). change 0xDC00 with (55 * 2 ^ 10).
  rewrite !lor_low by (try apply Z.mod_pos_bound; try split; try apply Z.div_pos; try apply Z.div_lt_upper_bound; lia).
  split; reflexivity.
Qed.

Lemma join_surrogates_split n : 0 <= n < 0x100000 ->
  join_surrogates (0xD800 + n / 1024) (0xDC00 + n mod 1024) = 0x10000 + n.
Proof.
  intros Hn. unfold join_surrogates. rewrite !(land_low_bits _ 10) by lia. change (2 ^ 10) with 1024.
  assert (0 <= n / 1024 < 1024) by (split; [apply Z.div_pos | apply Z.div_lt_upper_bound]; lia).
  pose proof (Z.mod_pos_bound n 1024 ltac:(lia)).
  replace ((0xD800 + n / 1024) mod 1024) with (n / 1024)
    by (rewrite <- Z.add_mod_idemp_l by lia; change (0xD800 mod 1024) with 0; rewrite Z.add_0_l, Z.mod_small; lia).
  replace ((0xDC00 + n mod 1024) mod 1024) with (n mod 1024)
    by (rewrite <- Z.add_mod_idemp_l by lia; change (0xDC00 mod 1024) with 0; rewrite Z.add_0_l, Z.mod_mod; lia).
  rewrite Z.shiftl_mul_pow2, lor_low by lia. change (2 ^ 10) with 1024.
  pose proof (Z.div_mod n 1024 ltac:(lia)). lia.
Qed.

(** One step of the string scanner on each kind of character. *)
Lemma scan_str_plain c r : c <> 34 -> c <> 92 -> 31 < c -> scan_str (c :: r) = cons_fst c (scan_str r).
Proof.
  intros H1 H2 H3. cbn [scan_str].
  destruct (Z.eqb_spec c 34); [lia|]. destruct (Z.eqb_spec c 92); [lia|].
  destruct (Z.leb_spec c 31); [lia|]. reflexivity.
Qed.

Lemma scan_str_short e d r :
  e <> 117 -> simple_escape e = Some d -> scan_str (92 :: e :: r) = cons_fst d (scan_str r).
Proof. intros He Hd. cbn [scan_str]. destruct (Z.eqb_spec e 117); [lia|]. by rewrite Hd. Qed.

Lemma scan_str_bmp h1 h2 h3 h4 u r :
  hex4_val h1 h2 h3 h4 = Some u -> is_high u = false ->
  scan_str (92 :: 117 :: h1 :: h2 :: h3 :: h4 :: r) = cons_fst u (scan_str r).
Proof. intros Hu Hh. cbn [scan_str]. by rewrite Hu, Hh. Qed.

Lemma scan_str_pair h1 h2 h3 h4 g1 g2 g3 g4 hi lo r :
  hex4_val h1 h2 h3 h4 = Some hi -> is_high hi = true ->
  hex4_val g1 g2 g3 g4 = Some lo -> is_low lo = true ->
  scan_str (92 :: 117 :: h1 :: h2 :: h3 :: h4 :: 92 :: 117 :: g1 :: g2 :: g3 :: g4 :: r) =
  cons_fst (join_surrogates hi lo) (scan_str r).
Proof. intros Hu Hh Hl Hlo. cbn [scan_str]. by rewrite Hu, Hh, Hl, Hlo. Qed.

Lemma scan_str_escape c rest : scalarb c = true ->
  scan_str (escape_char c ++ rest) = cons_fst c (scan_str rest).
Proof.
  intros Hc. apply scalarb_spec in Hc.
  unfold escape_char.
  destruct ((32 <=? c) && (c <=? 126) && negb (c =? 34) && negb (c =? 92)) eqn:Hp.
  { bool_to_prop. apply scan_str_plain; lia. }
  destruct (Z.eqb_spec c 92) as [->|?]; [reflexivity|].
  destruct (Z.eqb_spec c 34) as [->|?]; [reflexivity|].
  destruct (Z.eqb_spec c 8) as [->|?]; [reflexivity|].
  destruct (Z.eqb_spec c 12) as [->|?]; [reflexivity|].
  destruct (Z.eqb_spec c 10) as [->|?]; [reflexivity|].
  destruct (Z.eqb_spec c 13) as [->|?]; [reflexivity|].
  destruct (Z.eqb_spec c 9) as [->|?]; [reflexivity|].
  destruct (Z.ltb_spec c 0x10000); cbn -[scan_str hex4].
  - destruct (hex4_val_hex4 c rest) as (a & b & d & e & -> & Hv); [lia|].
    apply scan_str_bmp; [done|]. unfold is_high. destruct (Z.leb_spec 0xD800 c); [lia|done].
  - destruct (surrogates_of c) as [-> ->]; [lia|].
    set (q := c - 0x10000).
    assert (0 <= q / 1024 < 1024) by (split; [apply Z.div_pos | apply Z.div_lt_upper_bound]; lia).
    pose proof (Z.mod_pos_bound q 1024 ltac:(lia)).
    rewrite <- !app_assoc. cbn [app].
    destruct (hex4_val_hex4 (0xDC00 + q mod 1024) rest) as (g1 & g2 & g3 & g4 & -> & Hw); [lia|].
    destruct (hex4_val_hex4 (0xD800 + q / 1024) (92 :: 117 :: g1 :: g2 :: g3 :: g4 :: rest))
      as (a & b & d & e & -> & Hv); [lia|].
    assert (Hh : is_high (0xD800 + q / 1024) = true).
    { unfold is_high. destruct (Z.leb_spec 0xD800 (0xD800 + q / 1024)), (Z.leb_spec (0xD800 + q / 1024) 0xDBFF); simpl; lia. }
    assert (Hl : is_low (0xDC00 + q mod 1024) = true).
    { unfold is_low. destruct (Z.leb_spec 0xDC00 (0xDC00 + q mod 1024)), (Z.leb_spec (0xDC00 + q mod 1024) 0xDFFF); simpl; lia. }
    rewrite (scan_str_pair _ _ _ _ _ _ _ _ _ _ rest Hv Hh Hw Hl), join_surrogates_split by lia.
    f_equal. subst q. lia.
Qed.

Lemma scan_str_encode s rest : forallb scalarb s = true ->
  scan_str (mjoin (map escape_char s) ++ 34 :: rest) = Some (s, rest).
Proof.
  induction s as [|c s IH]; simpl; intros Hs; [reflexivity|].
  apply andb_prop in Hs as [Hc Hs].
  rewrite <- app_assoc, scan_str_escape, IH by done. reflexivity.
Qed.

(** *** Integers *)

Lemma uint_of_digits_of_uint d : uint_of_digits (digits_of_uint d) = d.
Proof. induction d; cbn [digits_of_uint uint_of_digits]; rewrite ?IHd; reflexivity. Qed.

Lemma digits_of_uint_digits d : Forall (fun c => is_digit c = true) (digits_of_uint d).
Proof. induction d; constructor; done. Qed.

Lemma span_digits_app_stop ds rest :
  Forall (fun c => is_digit c = true) ds ->
  (forall c r, rest = c :: r -> is_digit c = false) ->
  span_digits (ds ++ rest) = (ds, rest).
Proof.
  intros Hds Hr. induction Hds as [|c ds Hc _ IH]; cbn [app span_digits].
  - destruct rest as [|c r]; [done|]. cbn [span_digits]. by rewrite (Hr c r).
  - rewrite Hc, IH. done.
Qed.

Lemma nzhead_not_D0 d d' : Decimal.nzhead d <> Decimal.D0 d'.
Proof. induction d; simpl; done. Qed.

(** [N.to_uint] has no leading zero: it is ["0"] or starts with 1-9. *)
Lemma to_uint_lead n :
  N.to_uint n = Decimal.D0 Decimal.Nil \/
  exists c r, digits_of_uint (N.to_uint n) = c :: r /\ 49 <= c <= 57.
Proof.
  assert (E : N.to_uint n = Decimal.unorm (N.to_uint n)).
  { rewrite <- DecimalN.Unsigned.to_of, DecimalN.Unsigned.of_to. reflexivity. }
  rewrite E. unfold Decimal.unorm. pose proof (nzhead_not_D0 (N.to_uint n)) as Hnz.
  destruct (Decimal.nzhead (N.to_uint n)) eqn:Eh;
    try (exfalso; by eapply Hnz); try (left; reflexivity);
    (right; do 2 eexists; split; [reflexivity | lia]).
Qed.

Lemma number_tail_int neg ip rest : num_end rest ->
  number_tail neg ip rest = Some (JInt (int_value neg ip), rest).
Proof.
  intros Hr. unfold number_tail, scan_frac, scan_exp.
  destruct rest as [|c r]; [reflexivity|].
  destruct (Hr c r eq_refl) as (Hd & H46 & H101 & H69).
  apply Z.eqb_neq in H46, H101, H69.
  destruct r as [|d r]; cbn; rewrite ?H46; cbn; rewrite ?H101, ?H69; reflexivity.
Qed.

Lemma int_value_to_uint neg n :
  int_value neg (digits_of_uint (N.to_uint n)) = if neg then - Z.of_N n else Z.of_N n.
Proof. unfold int_value. by rewrite uint_of_digits_of_uint, DecimalN.Unsigned.of_to. Qed.

Lemma scan_number_str_of_Z z rest : num_end rest ->
  scan_number (str_of_Z z ++ rest) = Some (JInt z, rest).
Proof.
  intros Hr. unfold str_of_Z.
  assert (Hstop : forall c r, rest = c :: r -> is_digit c = false) by (intros ?? ->; by apply (Hr _ r)).
  pose proof (digits_of_uint_digits (N.to_uint (Z.to_N (- z)))) as Dn.
  pose proof (digits_of_uint_digits (N.to_uint (Z.to_N z))) as Dp.
  destruct (Z.ltb_spec z 0).
  - destruct (to_uint_lead (Z.to_N (- z))) as [Hz | (c & r & Hcr & Hc)].
    + assert (Z.to_N (- z) = 0%N) by (rewrite <- (DecimalN.Unsigned.of_to (Z.to_N (- z))); rewrite Hz; done). lia.
    + rewrite Hcr in Dn |- *. inversion Dn; subst. unfold scan_number. cbn -[span_digits number_tail].
      rewrite (proj2 (Z.leb_le 49 c)), (proj2 (Z.leb_le c 57)) by lia. cbn -[span_digits number_tail].
      rewrite span_digits_app_stop by done. rewrite number_tail_int by done.
      rewrite <- Hcr, int_value_to_uint. do 3 f_equal. lia.
  - destruct (to_uint_lead (Z.to_N z)) as [Hz | (c & r & Hcr & Hc)].
    + rewrite Hz. unfold scan_number. cbn -[number_tail]. rewrite number_tail_int by done.
      replace [48] with (digits_of_uint (N.to_uint (Z.to_N z))) by (rewrite Hz; reflexivity).
      rewrite int_value_to_uint. do 3 f_equal. lia.
    + rewrite Hcr in Dp |- *. inversion Dp; subst. unfold scan_number. cbn -[span_digits number_tail].
      rewrite (proj2 (Z.eqb_neq c 45)) by lia. cbn -[span_digits number_tail].
      rewrite (proj2 (Z.leb_le 49 c)), (proj2 (Z.leb_le c 57)) by lia. cbn -[span_digits number_tail].
      rewrite span_digits_app_stop by done. rewrite number_tail_int by done.
      rewrite <- Hcr, int_value_to_uint. do 3 f_equal. lia.
Qed.

(** *** Values *)

Lemma json_end_num rest : json_end rest -> num_end rest.
Proof. intros H c r Hr. destruct (H c r Hr) as [-> | [-> | ->]]; (split; [reflexivity | lia]). Qed.

Lemma startswith_cons_ne c r p ps : p <> c -> startswith (c :: r) (p :: ps) = false.
Proof. intros H. cbn [startswith]. by rewrite (proj2 (Z.eqb_neq p c) H). Qed.

Lemma is_digit_iff c : is_digit c = true <-> 48 <= c <= 57.
Proof. unfold is_digit. rewrite andb_true_iff, !Z.leb_le. done. Qed.

Lemma str_of_Z_shape z : exists c r, str_of_Z z = c :: r /\
  (is_digit c = true \/ (c = 45 /\ exists d r', r = d :: r' /\ is_digit d = true)).
Proof.
  unfold str_of_Z. destruct (z <? 0).
  - destruct (to_uint_lead (Z.to_N (- z))) as [-> | (c & r & -> & Hc)]; do 2 eexists;
      (split; [reflexivity|]); right; (split; [done|]); do 2 eexists;
      (split; [reflexivity|]); [done | apply is_digit_iff; lia].
  - destruct (to_uint_lead (Z.to_N z)) as [-> | (c & r & -> & Hc)]; do 2 eexists;
      (split; [reflexivity|]); left; [done | apply is_digit_iff; lia].
Qed.

(** The value scanner hands a number to [scan_number]. *)
Lemma scan_value_number f c r :
  is_digit c = true \/ (c = 45 /\ exists d r', r = d :: r' /\ is_digit d = true) ->
  scan_value (S f) (c :: r) = scan_number (c :: r).
Proof.
  intros Hc. cbn [scan_value].
  assert (48 <= c <= 57 \/ c = 45) as Hc'
    by (destruct Hc as [Hc | [-> _]]; [left; by apply is_digit_iff | by right]).
  rewrite (proj2 (Z.eqb_neq c 34)), (proj2 (Z.eqb_neq c 123)), (proj2 (Z.eqb_neq c 91)) by lia.
  unfold lit_null, lit_true, lit_false, lit_nan, lit_infinity.
  rewrite !(startswith_cons_ne c r) by lia.
  destruct Hc as [Hc | (-> & d & r' & -> & Hd)].
  - rewrite startswith_cons_ne by (apply is_digit_iff in Hc; lia). reflexivity.
  - cbn [startswith]. rewrite Z.eqb_refl. cbn [andb].
    rewrite (proj2 (Z.eqb_neq 73 d)) by (apply is_digit_iff in Hd; lia). reflexivity.
Qed.

Lemma dumps_head v : wfb v = true ->
  exists c r, dumps v = c :: r /\ is_ws c = false /\ c <> 93 /\ c <> 125 /\ c <> 0xFEFF.
Proof.
  destruct v as [| [] | z | | | |]; simpl; intros Hv; try done;
    try (do 2 eexists; split; [reflexivity | repeat split; lia]).
  destruct (str_of_Z_shape z) as (c & r & -> & Hc). do 2 eexists. split; [reflexivity|].
  assert (48 <= c <= 57 \/ c = 45) as Hc'
    by (destruct Hc as [Hc | [-> _]]; [left; by apply is_digit_iff | by right]).
  unfold is_ws. rewrite (proj2 (Z.eqb_neq c 32)), (proj2 (Z.eqb_neq c 9)), (proj2 (Z.eqb_neq c 10)),
    (proj2 (Z.eqb_neq c 13)) by lia. repeat split; lia.
Qed.

Lemma skip_ws_nows s r : (exists c s', s = c :: s' /\ is_ws c = false) -> skip_ws (s ++ r) = s ++ r.
Proof. intros (c & s' & -> & Hc). cbn [app skip_ws]. by rewrite Hc. Qed.

Lemma dict_set_new d k v : k ∉ map fst d -> dict_set d k v = d ++ [(k, v)].
Proof.
  induction d as [|[k' v'] d IH]; cbn [dict_set map fst]; intros Hk; [done|].
  rewrite bool_decide_false by set_solver. rewrite IH by set_solver. done.
Qed.


(** One step of the array and object scanners on the text [dumps] writes. *)
Lemma join_items_cons2 p q ps :
  join_with item_separator (p :: q :: ps) = p ++ 44 :: 32 :: join_with item_separator (q :: ps).
Proof. reflexivity. Qed.

Lemma scan_elements_last f acc s v rest :
  scan_value f s = Some (v, 93 :: rest) -> scan_elements (S f) acc s = Some (JList (acc ++ [v]), rest).
Proof. intros H. cbn [scan_elements]. rewrite H. reflexivity. Qed.

Lemma scan_elements_next f acc s v rest :
  scan_value f s = Some (v, 44 :: 32 :: rest) -> skip_ws rest = rest ->
  scan_elements (S f) acc s = scan_elements f (acc ++ [v]) rest.
Proof.
  intros H Hr. cbn [scan_elements]. rewrite H.
  transitivity (scan_elements f (acc ++ [v]) (skip_ws rest)); [reflexivity | by rewrite Hr].
Qed.

Lemma scan_members_one f acc r k r1 v r3 :
  scan_str r = Some (k, 58 :: 32 :: r1) -> skip_ws r1 = r1 -> scan_value f r1 = Some (v, r3) ->
  scan_members (S f) acc (34 :: r) =
  match skip_ws r3 with
  | e :: r4 =>
    if e =? 125 then Some (JDict (dict_set acc k v), r4)
    else if e =? 44 then scan_members f (dict_set acc k v) (skip_ws r4) else None
  | [] => None
  end.
Proof.
  intros Hk Hr1 Hv. cbn [scan_members]. rewrite Hk.
  transitivity (match scan_value f (skip_ws r1) with
                | None => None
                | Some (v, r3) =>
                  match skip_ws r3 with
                  | e :: r4 =>
                    if e =? 125 then Some (JDict (dict_set acc k v), r4)
                    else if e =? 44 then scan_members f (dict_set acc k v) (skip_ws r4) else None
                  | [] => None
                  end
                end); [reflexivity|].
  by rewrite Hr1, Hv.
Qed.

Lemma scan_value_open f c s e r :
  (c = 91 \/ c = 123) -> skip_ws s = e :: r -> e <> 93 -> e <> 125 ->
  scan_value (S f) (c :: s) =
  if c =? 91 then scan_elements f [] (e :: r) else scan_members f [] (e :: r).
Proof.
  intros [-> | ->] Hs H93 H125; cbn [scan_value]; rewrite Hs.
  - rewrite (proj2 (Z.eqb_neq e 93)) by done. reflexivity.
  - rewrite (proj2 (Z.eqb_neq e 125)) by done. reflexivity.
Qed.

Lemma scan_elements_dumps l :
  Forall (fun x => wfb x = true /\ roundtrips x) l -> l <> [] ->
  forall acc f rest, json_end rest ->
  (2 * (length (join_with item_separator (map dumps l)) + length rest) + 3 < f)%nat ->
  scan_elements f acc (join_with item_separator (map dumps l) ++ 93 :: rest) = Some (JList (acc ++ l), rest).
Proof.
  induction 1 as [|x l [Hwx Hx] Hl IH]; intros Hne acc f rest Hr Hf; [done|].
  destruct f as [|f]; [lia|].
  destruct l as [|y l].
  - apply scan_elements_last. apply Hx; [by intros ?? [= <- _]; auto |].
    cbn [map join_with] in Hf. autorewrite with pyrw in Hf |- *. lia.
  - cbn [map] in *. rewrite join_items_cons2 in *. rewrite <- !app_assoc in *. cbn [app] in *.
    inversion Hl as [|? ? [Hwy _] _]; subst.
    destruct (dumps_head y Hwy) as (c & r & Hy & Hc & _).
    rewrite (scan_elements_next _ _ _ x (join_with item_separator (dumps y :: map dumps l) ++ 93 :: rest)).
    + rewrite IH; [by rewrite <- app_assoc | done | done | autorewrite with pyrw in Hf; lia].
    + apply Hx; [by intros ?? [= <- _]; auto | autorewrite with pyrw in Hf |- *; lia].
    + destruct l; cbn [map]; rewrite ?join_items_cons2, <- ?app_assoc; cbn [join_with];
        rewrite Hy; cbn [app skip_ws]; by rewrite Hc.
Qed.

Lemma encode_item k v tail :
  encode_str k ++ key_separator ++ dumps v ++ tail =
  34 :: mjoin (map escape_char k) ++ 34 :: 58 :: 32 :: dumps v ++ tail.
Proof. unfold encode_str, key_separator. cbn [app]. rewrite <- !app_assoc. reflexivity. Qed.

Lemma NoDup_fst_middle (acc d : list (pystr * json)) k v :
  NoDup (map fst (acc ++ (k, v) :: d)) -> k ∉ map fst acc.
Proof. rewrite map_app, NoDup_app. intros (_ & Hd & _) Hk. apply (Hd k Hk). set_solver. Qed.

Lemma scan_members_dumps d :
  Forall (fun kv => forallb scalarb kv.1 = true /\ wfb kv.2 = true /\ roundtrips kv.2) d -> d <> [] ->
  forall acc f rest, json_end rest ->
  (2 * (length (join_with item_separator
          (map (fun kv => encode_str kv.1 ++ key_separator ++ dumps kv.2) d)) + length rest) + 3 < f)%nat ->
  scan_members f acc
    (join_with item_separator (map (fun kv => encode_str kv.1 ++ key_separator ++ dumps kv.2) d)
       ++ 125 :: rest) = Some (JDict (dict_build acc d), rest).
Proof.
  induction 1 as [|[k v] d (Hk & Hwv & Hv) Hd IH]; intros Hne acc f rest Hr Hf; [done|].
  destruct f as [|f]; [lia|]. cbn [fst snd] in *.
  destruct (dumps_head v Hwv) as (c & r & Hdv & Hc & _).
  destruct d as [|[k2 v2] d].
  - cbn [map join_with fst snd] in *. rewrite <- !app_assoc, encode_item.
    rewrite (scan_members_one _ _ _ k (dumps v ++ 125 :: rest) v (125 :: rest)).
    + reflexivity.
    + by rewrite scan_str_encode.
    + by rewrite Hdv; cbn [app skip_ws]; rewrite Hc.
    + apply Hv; [by intros ?? [= <- _]; auto |].
      autorewrite with pyrw in Hf |- *. lia.
  - cbn [map fst snd] in *. rewrite join_items_cons2 in *. rewrite <- !app_assoc. cbn [app]. rewrite encode_item.
    inversion Hd as [|? ? (Hk2 & Hwv2 & _) _]; subst. cbn [fst snd] in Hk2, Hwv2.
    set (J := join_with item_separator (_ :: _)) in *.
    rewrite (scan_members_one f acc _ k (dumps v ++ 44 :: 32 :: J ++ 125 :: rest) v (44 :: 32 :: J ++ 125 :: rest)).
    + transitivity (scan_members f (dict_set acc k v) (skip_ws (J ++ 125 :: rest))); [reflexivity|].
      rewrite skip_ws_nows.
      * subst J. rewrite IH; [done | done | done |].
        autorewrite with pyrw in Hf |- *. lia.
      * subst J. destruct d; cbn [map join_with fst snd]; rewrite ?join_items_cons2;
          unfold encode_str; do 2 eexists; (split; [reflexivity | done]).
    + by rewrite scan_str_encode.
    + rewrite Hdv. cbn [app skip_ws]. by rewrite Hc.
    + apply Hv; [by intros ?? [= <- _]; auto |].
      autorewrite with pyrw in Hf |- *. lia.
Qed.

(** [d[k] = v] on new keys appends: without repeated keys the object
    read back is the one written. *)
Lemma dict_build_nodup acc d : NoDup (map fst (acc ++ d)) -> dict_build acc d = acc ++ d.
Proof.
  revert acc. induction d as [|[k v] d IH]; intros acc Hnd; cbn; [by rewrite app_nil_r|].
  rewrite dict_set_new by (eapply NoDup_fst_middle; eassumption).
  rewrite IH; rewrite <- app_assoc; done.
Qed.

(** The object scanner on the text [dumps] writes for an object, repeated
    keys included. *)
Lemma scan_dumps_dict d f rest :
  Forall (fun kv => forallb scalarb kv.1 = true /\ wfb kv.2 = true /\ roundtrips kv.2) d ->
  json_end rest -> (2 * length (dumps (JDict d) ++ rest) < S f)%nat ->
  scan_value (S f) (dumps (JDict d) ++ rest) = Some (JDict (dict_build [] d), rest).
Proof.
  intros Hv Hr Hf. cbn [dumps] in *. cbn [app]. rewrite <- app_assoc. cbn [app].
  destruct d as [|[k x] d]; [reflexivity|].
  assert (Hj : exists t, join_with item_separator
      (map (fun kv => encode_str kv.1 ++ key_separator ++ dumps kv.2) ((k, x) :: d)) = 34 :: t).
  { destruct d; cbn [map]; [cbn [join_with] | rewrite join_items_cons2]; unfold encode_str; eauto. }
  destruct Hj as (t & Ht). rewrite Ht.
  rewrite (scan_value_open _ _ _ 34 (t ++ 125 :: rest)); [| by right | done | done | done].
  cbn [Z.eqb]. rewrite app_comm_cons, <- Ht.
  apply scan_members_dumps; [done | done | done | rewrite Ht in Hf |- *; autorewrite with pyrw in Hf |- *; lia].
Qed.

Lemma Forall_wf_roundtrips {A} (g : A -> json) (l : list A) :
  Forall (fun x => wfb (g x) = true -> roundtrips (g x)) l -> Forall (fun x => wfb (g x) = true) l ->
  Forall (fun x => wfb (g x) = true /\ roundtrips (g x)) l.
Proof. rewrite !Forall_forall. intros H1 H2 x Hx. split; auto. Qed.

Lemma dumps_roundtrips v : wfb v = true -> roundtrips v.
Proof.
  induction v as [| b | z | fl | s | l IH | d IH] using json_ind'; intros Hv f rest Hr Hf;
    destruct f as [|f]; try lia.
  - reflexivity.
  - destruct b; reflexivity.
  - cbn [dumps] in *. destruct (str_of_Z_shape z) as (c & r & Hz & Hc).
    rewrite Hz. cbn [app]. rewrite scan_value_number.
    + rewrite app_comm_cons, <- Hz. apply scan_number_str_of_Z, json_end_num, Hr.
    + destruct Hc as [Hc | (-> & d & r' & -> & Hd)]; [by left | right].
      split; [done|]. by exists d, (r' ++ rest).
  - done.
  - cbn [dumps wfb] in *. unfold encode_str. cbn [app]. rewrite <- app_assoc. cbn [app].
    transitivity ((fun p => (JStr p.1, p.2)) <$> scan_str (mjoin (map escape_char s) ++ 34 :: rest));
      [reflexivity|].
    by rewrite scan_str_encode.
  - cbn [dumps wfb] in *. cbn [app]. rewrite <- app_assoc. cbn [app].
    apply forallb_Forall_iff in Hv.
    destruct l as [|x l]; [reflexivity|].
    inversion Hv as [|? ? Hwx _]; subst.
    destruct (dumps_head x Hwx) as (c & r & Hx & Hc & H93 & H125 & _).
    assert (Hj : exists t, join_with item_separator (map dumps (x :: l)) = c :: t).
    { destruct l; cbn [map]; [cbn [join_with]; rewrite Hx; eauto|]. rewrite join_items_cons2, Hx. eauto. }
    destruct Hj as (t & Ht). rewrite Ht.
    rewrite (scan_value_open _ _ _ c (t ++ 93 :: rest)); [| by left | by cbn [app skip_ws]; rewrite Hc | done | done].
    rewrite Z.eqb_refl, app_comm_cons, <- Ht.
    apply scan_elements_dumps; [| done | done | rewrite Ht in Hf |- *; autorewrite with pyrw in Hf |- *; lia].
    by apply (Forall_wf_roundtrips id).
  - cbn [wfb] in Hv. apply andb_prop in Hv as [Hnd Hv]. apply bool_decide_eq_true in Hnd.
    apply forallb_Forall_iff in Hv.
    rewrite scan_dumps_dict; [by rewrite dict_build_nodup | | done | done].
    rewrite !Forall_forall in Hv, IH |- *. intros kv Hkv. specialize (Hv kv Hkv). specialize (IH kv Hkv).
    apply andb_prop in Hv as [Hk Hw]. auto.
Qed.


(** ** Properties *)

(** The decoder inverts the encoder on well-formed values. *)
Lemma loads_of_dumps v : wfb v = true -> loads (dumps v) = Some v.
Proof.
  intros Hv. destruct (dumps_head v Hv) as (c & r & Hd & Hc & _ & _ & Hfe).
  pose proof (dumps_roundtrips v Hv (S (2 * length (dumps v))) []) as Hrt.
  rewrite app_nil_r in Hrt. unfold loads. rewrite Hd in Hrt |- *.
  rewrite startswith_cons_ne by done. cbn [skip_ws]. rewrite Hc.
  rewrite Hrt; [reflexivity | by intros ?? | lia].
Qed.

(** C18: [json.loads(json.dumps(v)) == v] for every value without floats
    whose strings hold Unicode scalar values and whose objects have no
    duplicate key: the decoder inverts the encoder, escapes and surrogate
    pairs included. *)
Theorem loads_dumps v : wfb v = true -> loads (dumps v) = Some v.
Proof. exact (loads_of_dumps v). Qed.

(** [loads] gives the scanner enough fuel: with any larger fuel the
    scanner returns the same result, so [loads] is the decoder itself and
    not a truncation of it. *)
Lemma loads_fuel_enough s f :
  (2 * length s < f)%nat ->
  scan_value f (skip_ws s) = scan_value (S (2 * length s)) (skip_ws s).
Proof.
  intros Hf. pose proof (skip_ws_length s).
  apply (proj1 (scan_fuel_irrel f)); lia.
Qed.

(** ** Output alphabet of [dumps] *)

Lemma hexdig_printable d : 0 <= d < 16 -> printable (hexdig d).
Proof. unfold printable, hexdig. intros Hd. destruct (Z.ltb_spec d 10); lia. Qed.

Lemma hex4_printable n : Forall printable (hex4 n).
Proof.
  unfold hex4. apply Forall_forall. intros c Hc. apply list_elem_of_In, in_map_iff in Hc as (k & <- & Hk).
  apply hexdig_printable. rewrite nibble; [apply Z.mod_pos_bound; lia|].
  simpl in Hk. intuition lia.
Qed.

Lemma escape_char_printable c : Forall printable (escape_char c).
Proof.
  unfold escape_char.
  repeat (case_first; bool_to_prop);
    repeat first [ apply hex4_printable | apply Forall_nil_2 | apply Forall_app_2
                 | apply Forall_cons_2; [unfold printable; lia|] ].
Qed.

Lemma join_with_Forall (P : Z -> Prop) sep parts :
  Forall P sep -> Forall (Forall P) parts -> Forall P (join_with sep parts).
Proof.
  intros Hs Hp. induction Hp as [|p ps Hp Hps IH]; [constructor|].
  destruct ps; [done|]. cbn [join_with]. rewrite !Forall_app. auto.
Qed.

Lemma str_of_Z_printable z : Forall printable (str_of_Z z).
Proof.
  assert (Hd : forall d, Forall printable (digits_of_uint d)).
  { intros d. eapply Forall_impl; [apply digits_of_uint_digits|].
    intros c Hc. apply is_digit_iff in Hc. unfold printable. lia. }
  unfold str_of_Z. destruct (z <? 0); [constructor; [unfold printable; lia|]|]; apply Hd.
Qed.

Lemma encode_str_printable s : Forall printable (encode_str s).
Proof.
  unfold encode_str. apply Forall_cons_2; [unfold printable; lia|].
  apply Forall_app_2; [|repeat constructor; unfold printable; lia].
  induction s as [|c s IHs]; [constructor|]. simpl. apply Forall_app_2; [apply escape_char_printable | exact IHs].
Qed.

(** C20: the text [json.dumps] produces is printable ASCII (U+0020 to
    U+007E) for every value without floats, whatever characters its
    strings hold: [ensure_ascii] escapes everything else. *)
Theorem dumps_printable_ascii v : floatless v = true -> Forall printable (dumps v).
Proof.
  induction v as [| [] | z | fl | s | l IH | d IH] using json_ind'; cbn [floatless dumps]; intros Hv;
    try done; try (repeat constructor; unfold printable; lia).
  - apply str_of_Z_printable.
  - apply encode_str_printable.
  - apply forallb_Forall_iff in Hv.
    apply Forall_cons_2; [unfold printable; lia|]. apply Forall_app_2; [|repeat constructor; unfold printable; lia].
    apply join_with_Forall; [repeat constructor; unfold printable; lia|].
    apply Forall_fmap. rewrite Forall_forall in IH, Hv |- *. auto.
  - apply forallb_Forall_iff in Hv.
    apply Forall_cons_2; [unfold printable; lia|]. apply Forall_app_2; [|repeat constructor; unfold printable; lia].
    apply join_with_Forall; [repeat constructor; unfold printable; lia|].
    apply Forall_fmap. rewrite Forall_forall in IH, Hv |- *. intros [k x] Hkx.
    unfold compose. cbn [fst snd]. apply Forall_app_2; [|apply Forall_app_2].
    + apply encode_str_printable.
    + repeat constructor; unfold printable; lia.
    + apply (IH (k, x) Hkx), (Hv (k, x) Hkx).
Qed.

(** ** The dictionary as a finite map *)

(** [d[k] = v] keeps the keys of a dictionary pairwise distinct. *)
Lemma dict_set_keys_nodup d k v : NoDup (map fst d) -> NoDup (map fst (dict_set d k v)).
Proof.
  intros Hd. rewrite dict_set_keys. case_bool_decide as Hk; [done|].
  apply NoDup_app. split; [done|]. split; [set_solver | apply NoDup_singleton].
Qed.

(** ** Objects with repeated keys *)

(** [d.get(k')] after [d[k] = v]. *)
Lemma dict_get_set d k v k' :
  dict_get (dict_set d k v) k' = if decide (k = k') then Some v else dict_get d k'.
Proof. by rewrite !dict_get_view, dict_set_view, lookup_insert. Qed.

(** [d.get(k)] on the object built from the members [kvs]: the value of
    the last member with key [k], or what [acc] had. *)
Lemma dict_get_build acc kvs k :
  dict_get (dict_build acc kvs) k =
  match list.last (map snd (filter (fun kv => kv.1 = k) kvs)) with
  | Some v => Some v
  | None => dict_get acc k
  end.
Proof.
  revert acc. induction kvs as [|[k1 v1] kvs IH]; intros acc; [done|].
  cbn [dict_build foldl fst snd]. fold (dict_build (dict_set acc k1 v1) kvs). rewrite IH, filter_cons.
  cbn [fst snd]. rewrite dict_get_set.
  case_decide; cbn [map]; rewrite ?last_cons; by destruct (list.last _).
Qed.

Lemma dict_build_keys_nodup acc kvs : NoDup (map fst acc) -> NoDup (map fst (dict_build acc kvs)).
Proof.
  revert acc. induction kvs as [|[k v] kvs IH]; intros acc Hacc; [done|].
  apply IH, dict_set_keys_nodup, Hacc.
Qed.

(** [json.loads] on the text of an object, repeated keys included. *)
Lemma loads_dumps_dict kvs :
  Forall (fun kv => forallb scalarb kv.1 = true /\ wfb kv.2 = true) kvs ->
  loads (dumps (JDict kvs)) = Some (JDict (dict_build [] kvs)).
Proof.
  intros Hkvs.
  assert (Hs : scan_value (S (2 * length (dumps (JDict kvs)))) (dumps (JDict kvs) ++ []) =
               Some (JDict (dict_build [] kvs), [])).
  { apply scan_dumps_dict; [| by intros ?? | rewrite app_nil_r; lia].
    eapply Forall_impl; [exact Hkvs|]. intros kv [Hk Hw]. split_and!; [done | done | by apply dumps_roundtrips]. }
  rewrite app_nil_r in Hs. unfold loads.
  assert (Hh : exists r, dumps (JDict kvs) = 123 :: r) by (eexists; reflexivity).
  destruct Hh as [r Hr]. rewrite Hr in Hs |- *. rewrite startswith_cons_ne by done.
  change (skip_ws (123 :: r)) with (123 :: r). by rewrite Hs.
Qed.

(** [d[k] = v] on the dictionary [json.loads] builds is insertion into
    the finite map the dictionary stands for ([d.get(k')] afterwards is
    lookup after insertion), and it keeps the keys of the dictionary
    pairwise distinct. *)
Lemma dict_set_spec d k v :
  (forall k', dict_get (dict_set d k v) k' = (<[k:=v]> (dict_view d)) !! k') /\
  (NoDup (map fst d) -> NoDup (map fst (dict_set d k v))).
Proof. split; [intros k'; by rewrite dict_get_view, dict_set_view | apply dict_set_keys_nodup]. Qed.

(** ** The decoder builds well-formed dictionaries *)

Lemma dict_set_values (P : json -> Prop) d k v :
  Forall (fun kv => P kv.2) d -> P v -> Forall (fun kv => P kv.2) (dict_set d k v).
Proof.
  induction 1 as [|[k' v'] d Hv Hd IH]; intros Hp; cbn [dict_set]; [by repeat constructor|].
  case_bool_decide; constructor; auto.
Qed.

Lemma scan_number_keys s v r : scan_number s = Some (v, r) -> keys_unique v = true.
Proof. unfold scan_number, number_tail. intros H. repeat (case_match; simplify_eq; try done). Qed.

Lemma keys_unique_dict d :
  NoDup d.*1 -> Forall (fun kv => keys_unique kv.2 = true) d -> keys_unique (JDict d) = true.
Proof.
  intros Hn Hf. cbn [keys_unique]. apply andb_true_intro. split.
  - by apply bool_decide_eq_true_2.
  - by apply forallb_Forall_iff.
Qed.

Lemma scan_keys_unique f :
  (forall s v r, scan_value f s = Some (v, r) -> keys_unique v = true) /\
  (forall acc s v r, NoDup acc.*1 -> Forall (fun kv => keys_unique kv.2 = true) acc ->
     scan_members f acc s = Some (v, r) -> keys_unique v = true) /\
  (forall acc s v r, Forall (fun x => keys_unique x = true) acc ->
     scan_elements f acc s = Some (v, r) -> keys_unique v = true).
Proof.
  induction f as [|f (IHv & IHm & IHe)]; [done|]. split; [|split].
  - intros [|c s] v r; cbn [scan_value]; [done|]. intros H.
    repeat (case_match; simplify_eq; try done).
    all: first [apply fmap_Some in H as (? & _ & ?); simplify_eq; done
               | eapply (IHm []); [apply NoDup_nil_2 | constructor | eassumption]
               | eapply (IHe []); [constructor | eassumption]
               | eapply scan_number_keys; eassumption].
  - intros acc [|c s] v r Hn Hf; cbn [scan_members]; [done|]. intros H.
    repeat (case_match; simplify_eq; try done).
    all: match goal with Hs : scan_value _ _ = Some (_, _) |- _ => apply IHv in Hs end.
    + apply keys_unique_dict; [by apply dict_set_keys_nodup | by apply (dict_set_values (fun x => keys_unique x = true))].
    + eapply IHm; [by apply dict_set_keys_nodup | by apply (dict_set_values (fun x => keys_unique x = true)) | eassumption].
  - intros acc s v r Hf; cbn [scan_elements]. intros H.
    repeat (case_match; simplify_eq; try done).
    all: match goal with Hs : scan_value _ _ = Some (_, _) |- _ => apply IHv in Hs end.
    + cbn [keys_unique]. apply forallb_Forall_iff, Forall_app. split; [done | by apply Forall_singleton].
    + eapply IHe; [apply Forall_app; split; [done | by apply Forall_singleton] | eassumption].
Qed.

(** Every value [json.loads] returns is a well-formed Python value:
    the objects it decodes, at every depth, have pairwise distinct keys
    (a repeated key keeps its first place and takes the last value). *)
Lemma loads_keys_unique s v : loads s = Some v -> keys_unique v = true.
Proof.
  unfold loads. intros H. repeat (case_match; simplify_eq; try done).
  eapply (proj1 (scan_keys_unique _)). eassumption.
Qed.

(** C21: [json.loads] of an object whose members repeat a key keeps one
    entry per key, and [d.get(k)] gives the value of the last member
    with key [k]: [response.get('message')] reads the last ["message"]
    member of a response.  This holds for every list of members whose
    keys hold Unicode scalar values and whose values [loads] reads back. *)
Theorem loads_duplicate_keys kvs :
  Forall (fun kv => forallb scalarb kv.1 = true /\ wfb kv.2 = true) kvs ->
  exists d, loads (dumps (JDict kvs)) = Some (JDict d) /\ NoDup (map fst d) /\
    forall k, dict_get d k = list.last (map snd (filter (fun kv => kv.1 = k) kvs)).
Proof.
  intros Hkvs. exists (dict_build [] kvs). split_and!.
  - by apply loads_dumps_dict.
  - apply dict_build_keys_nodup, NoDup_nil_2.
  - intros k. rewrite dict_get_build. by destruct (list.last _).
Qed.

(** ** Witnesses *)

Lemma loads_dumps_witness :
  let v := JDict [(py "name", JStr (py "Zoë 😀")); (py "n", JList [JInt (-12); JNull; JBool true])] in
  wfb v = true /\ loads (dumps v) = Some v.
Proof. intros v. assert (H : wfb v = true) by reflexivity. split; [exact H | exact (loads_dumps v H)]. Defined.

Lemma dumps_printable_ascii_witness :
  let v := JList [JStr (py "é😀"); JInt (-7); JDict [(py "k", JNull)]] in
  floatless v = true /\ Forall printable (dumps v).
Proof. intros v. assert (H : floatless v = true) by reflexivity. split; [exact H | exact (dumps_printable_ascii v H)]. Defined.

Lemma loads_duplicate_keys_witness :
  let kvs := [(py "message", JStr (py "Bad credentials")); (py "errors", JList []);
              (py "message", JStr (py "Repository creation failed."))] in
  Forall (fun kv => forallb scalarb kv.1 = true /\ wfb kv.2 = true) kvs /\
  exists d, loads (dumps (JDict kvs)) = Some (JDict d) /\ NoDup (map fst d) /\
    dict_get d (py "message") = Some (JStr (py "Repository creation failed.")).
Proof.
  intros kvs. assert (H : Forall (fun kv => forallb scalarb kv.1 = true /\ wfb kv.2 = true) kvs).
  { repeat constructor. }
  split; [exact H|].
  destruct (loads_duplicate_keys kvs H) as (d & Hl & Hn & Hg).
  exists d. split_and!; [exact Hl | exact Hn | rewrite Hg; reflexivity].
Defined.

End Json.
