(* ===== verification/JsonDepth.v ===== *)
(** [json.loads] with CPython's recursion limit.  The C scanner
    ([scan_once_unicode] in [Modules/_json.c]) calls
    [Py_EnterRecursiveCall] before it parses an object or an array and
    raises [RecursionError] when the interpreter's recursion headroom is
    used up.  [scan_once] is the scanner of [Json] with that headroom:
    it ends with a value and the rest of the text, a decode error, or
    the recursion error; [decode] is [json.loads] on top of it.  The
    theorems relate it to the reference decoder [Json.loads], which has
    no limit, and show that a value nesting deeper than the headroom
    ([json_depth]) always ends with the recursion error. *)

From S2P Require Import Prelude PyStr Json.
#[local] Open Scope Z_scope.

Module JsonDepth.
Import Str Json.

(** What [json.loads] ends with. *)
Inductive decoded := Decoded (v : json) | DecodeError | RecursionLimit.

(** What one step of the scanner ends with. *)
Inductive scanned := Scanned (v : json) (rest : pystr) | ScanFail | ScanDeep.

(** [scan_once_unicode], [_parse_object_unicode] and
    [_parse_array_unicode] with [d] nested calls left before
    [Py_EnterRecursiveCall] fails; [fuel] bounds the steps as in
    [Json.scan_value]. *)
Fixpoint scan_once (d fuel : nat) (s : pystr) : scanned :=
  match fuel with
  | O => ScanFail
  | S f =>
    match s with
    | [] => ScanFail
    | c :: r =>
      if c =? 34 then
        match scan_str r with Some (t, r') => Scanned (JStr t) r' | None => ScanFail end
      else if c =? 123 then
        match d with
        | O => ScanDeep
        | S d' =>
          match skip_ws r with
          | e :: r' => if e =? 125 then Scanned (JDict []) r' else parse_object d' f [] (e :: r')
          | [] => ScanFail
          end
        end
      else if c =? 91 then
        match d with
        | O => ScanDeep
        | S d' =>
          match skip_ws r with
          | e :: r' => if e =? 93 then Scanned (JList []) r' else parse_array d' f [] (e :: r')
          | [] => ScanFail
          end
        end
      else if startswith s lit_null then Scanned JNull (drop 4 s)
      else if startswith s lit_true then Scanned (JBool true) (drop 4 s)
      else if startswith s lit_false then Scanned (JBool false) (drop 5 s)
      else if startswith s lit_nan then Scanned (JFloat lit_nan) (drop 3 s)
      else if startswith s lit_infinity then Scanned (JFloat lit_infinity) (drop 8 s)
      else if startswith s (45 :: lit_infinity) then Scanned (JFloat (45 :: lit_infinity)) (drop 9 s)
      else match scan_number s with Some (v, r') => Scanned v r' | None => ScanFail end
    end
  end
with parse_object (d fuel : nat) (acc : list (pystr * json)) (s : pystr) : scanned :=
  match fuel with
  | O => ScanFail
  | S f =>
    match s with
    | c :: r =>
      if c =? 34 then
        match scan_str r with
        | None => ScanFail
        | Some (k, r1) =>
          match skip_ws r1 with
          | e :: r2 =>
            if e =? 58 then
              match scan_once d f (skip_ws r2) with
              | ScanFail => ScanFail
              | ScanDeep => ScanDeep
              | Scanned v r3 =>
                let acc' := dict_set acc k v in
                match skip_ws r3 with
                | e' :: r4 =>
                  if e' =? 125 then Scanned (JDict acc') r4
                  else if e' =? 44 then parse_object d f acc' (skip_ws r4)
                  else ScanFail
                | [] => ScanFail
                end
              end
            else ScanFail
          | [] => ScanFail
          end
        end
      else ScanFail
    | [] => ScanFail
    end
  end
with parse_array (d fuel : nat) (acc : list json) (s : pystr) : scanned :=
  match fuel with
  | O => ScanFail
  | S f =>
    match scan_once d f s with
    | ScanFail => ScanFail
    | ScanDeep => ScanDeep
    | Scanned v r =>
      match skip_ws r with
      | e :: r' =>
        if e =? 93 then Scanned (JList (acc ++ [v])) r'
        else if e =? 44 then parse_array d f (acc ++ [v]) (skip_ws r')
        else ScanFail
      | [] => ScanFail
      end
    end
  end.

(** [json.loads(s)] with [d] nested calls left: a byte-order mark and
    trailing text are decode errors, as in [Json.loads]. *)
Definition decode (d : nat) (s : pystr) : decoded :=
  if startswith s [0xFEFF] then DecodeError
  else
    match scan_once d (S (2 * length s)) (skip_ws s) with
    | Scanned v r => match skip_ws r with [] => Decoded v | _ => DecodeError end
    | ScanFail => DecodeError
    | ScanDeep => RecursionLimit
    end.

(** The reference results seen as results of the limited decoder. *)
Definition of_scan (o : option (json * pystr)) : scanned :=
  match o with Some (v, r) => Scanned v r | None => ScanFail end.
Definition of_loads (o : option json) : decoded :=
  match o with Some v => Decoded v | None => DecodeError end.

(** The largest [depth] of the elements of a list. *)
Definition list_depth {A} (depth : A -> nat) :=
  fix go (l : list A) : nat := match l with [] => O | a :: l' => Nat.max (depth a) (go l') end.

(** The nesting of a value: the number of objects and arrays on its
    deepest path, that is the number of [Py_EnterRecursiveCall] the
    scanner makes, one inside the other, to read it. *)
Fixpoint json_depth (v : json) : nat :=
  match v with
  | JList l => S (list_depth json_depth l)
  | JDict d => S (list_depth (fun kv => json_depth kv.2) d)
  | _ => O
  end.

(** ** The limited scanner against the reference scanner *)

(** Case on a test of the scanners that is not a nested scan. *)
Ltac case_plain :=
  match goal with
  | |- context [if ?b then _ else _] => destruct b eqn:?
  | |- context [match ?x with _ => _ end] =>
    lazymatch x with
    | scan_once _ _ _ => fail
    | scan_value _ _ => fail
    | _ => destruct x eqn:?
    end
  end.

(** Replace a nested call of the limited scanner by the reference one,
    or end on the recursion error. *)
Ltac nested_scan IHv f :=
  match goal with
  | |- context [scan_once ?d f ?x] =>
    destruct (IHv d x) as [-> | ->]; [by left|];
    destruct (scan_value f x) as [[? ?]|]; cbn [of_scan]; [|by right]
  end.

Lemma scan_once_agree f :
  (forall d s, scan_once d f s = ScanDeep \/ scan_once d f s = of_scan (scan_value f s)) /\
  (forall d acc s, parse_object d f acc s = ScanDeep \/ parse_object d f acc s = of_scan (scan_members f acc s)) /\
  (forall d acc s, parse_array d f acc s = ScanDeep \/ parse_array d f acc s = of_scan (scan_elements f acc s)).
Proof.
  induction f as [|f (IHv & IHo & IHa)]; [split_and!; by right|]. split_and!.
  - intros d [|c s]; cbn [scan_once scan_value]; [by right|].
    repeat case_first; try by left; try by right.
    all: try (destruct (scan_str s) as [[??]|]; by right).
    all: try (destruct (scan_number _) as [[??]|]; by right).
    all: try apply IHo; try apply IHa.
  - intros d acc [|c s]; cbn [parse_object scan_members]; [by right|].
    repeat case_plain; try by right. nested_scan IHv f.
    repeat case_plain; try by right. apply IHo.
  - intros d acc s; cbn [parse_array scan_elements]. nested_scan IHv f.
    repeat case_plain; try by right. apply IHa.
Qed.

(** Close a length side condition from the scanners' facts. *)
Ltac len_close :=
  repeat match goal with
  | H : scan_value _ _ = Some _ |- _ => apply (proj1 (scan_length _)) in H
  end;
  len_facts; cbn [length] in *; lia.

Lemma scan_once_complete f :
  (forall d s, (length s <= d)%nat -> scan_once d f s = of_scan (scan_value f s)) /\
  (forall d acc s, (length s <= d)%nat -> parse_object d f acc s = of_scan (scan_members f acc s)) /\
  (forall d acc s, (length s <= d)%nat -> parse_array d f acc s = of_scan (scan_elements f acc s)).
Proof.
  induction f as [|f (IHv & IHo & IHa)]; [done|]. split_and!.
  - intros d [|c s] Hd; cbn [scan_once scan_value]; [done|].
    repeat case_plain; try done; try (destruct (scan_str s) as [[??]|]; done).
    all: try (destruct (scan_number _) as [[??]|]; done).
    all: try (cbn [length] in Hd; lia).
    all: first [apply IHo | apply IHa]; len_close.
  - intros d acc [|c s] Hd; cbn [parse_object scan_members]; [done|].
    repeat case_plain; try done.
    match goal with |- context [scan_once ?d f ?x] =>
      rewrite (IHv d x) by len_close; destruct (scan_value f x) as [[? ?]|] eqn:?; cbn [of_scan]; [|done] end.
    repeat case_plain; try done. apply IHo. len_close.
  - intros d acc s Hd; cbn [parse_array scan_elements].
    rewrite (IHv d s) by done. destruct (scan_value f s) as [[? ?]|] eqn:?; cbn [of_scan]; [|done].
    repeat case_plain; try done. apply IHa. len_close.
Qed.

(** ** Values nested deeper than the headroom *)

Lemma list_depth_le {A} (f : A -> nat) l n :
  (list_depth f l <= n)%nat <-> Forall (fun x => (f x <= n)%nat) l.
Proof.
  induction l as [|x l IH]; cbn; [split; [constructor | lia]|].
  split; [intros H; constructor; [lia | apply IH; lia] | intros [Hx Hl]%Forall_cons_1; apply IH in Hl; lia].
Qed.

(** An object or array whose values stay within [d] nests at most [S d]. *)
Lemma depth_dict_set_le d acc k v :
  Forall (fun kv => (json_depth kv.2 <= d)%nat) acc -> ~ (d < json_depth v)%nat ->
  (json_depth (JDict (dict_set acc k v)) <= S d)%nat.
Proof.
  intros H Hv. cbn [json_depth]. apply le_n_S, list_depth_le.
  apply (dict_set_values (fun x => (json_depth x <= d)%nat)); [done | lia].
Qed.

Lemma depth_snoc_le d acc v :
  Forall (fun x => (json_depth x <= d)%nat) acc -> ~ (d < json_depth v)%nat ->
  (json_depth (JList (acc ++ [v])) <= S d)%nat.
Proof.
  intros H Hv. cbn [json_depth]. apply le_n_S, list_depth_le.
  apply Forall_app. split; [done | constructor; [lia | constructor]].
Qed.

Lemma scan_number_depth s v r : scan_number s = Some (v, r) -> json_depth v = O.
Proof. unfold scan_number, number_tail. intros H. repeat (case_match; simplify_eq; try done). Qed.

(** A nested scan of a value [v] in the reference scanner: the limited
    scanner stops on the recursion error when [v] nests deeper than the
    headroom, and otherwise reads [v] too (or stops earlier on it). *)
Ltac deep_step IHv f :=
  match goal with
  | Hs : scan_value f ?x = Some (?v, ?r) |- context [scan_once ?d f ?x] =>
    destruct (decide (d < json_depth v)%nat) as [Hlt|Hge];
    [rewrite (IHv d x v r Hs Hlt); reflexivity
    | destruct (proj1 (scan_once_agree f) d x) as [-> | ->]; [reflexivity | rewrite Hs; cbn [of_scan]]]
  end.

Lemma scan_once_deep f :
  (forall d s v r, scan_value f s = Some (v, r) -> (d < json_depth v)%nat -> scan_once d f s = ScanDeep) /\
  (forall d acc s v r, scan_members f acc s = Some (v, r) -> Forall (fun kv => (json_depth kv.2 <= d)%nat) acc ->
     (S d < json_depth v)%nat -> parse_object d f acc s = ScanDeep) /\
  (forall d acc s v r, scan_elements f acc s = Some (v, r) -> Forall (fun x => (json_depth x <= d)%nat) acc ->
     (S d < json_depth v)%nat -> parse_array d f acc s = ScanDeep).
Proof.
  induction f as [|f (IHv & IHo & IHa)]; [done|]. split_and!.
  - intros d [|c s] v r H Hd; cbn [scan_value scan_once] in *; [done|].
    repeat (case_match; simplify_eq; try done; try (cbn in Hd; lia)).
    all: try (apply fmap_Some in H as (? & _ & ?); simplify_eq; cbn in Hd; lia).
    all: try (match goal with Hn : scan_number _ = Some _ |- _ => apply scan_number_depth in Hn; lia end).
    all: first [eapply IHo | eapply IHa]; [eassumption | constructor | lia].
  - intros d acc [|c s] v r H Hacc Hd; cbn [scan_members parse_object] in *; [done|].
    repeat (first [deep_step IHv f | case_match]; simplify_eq; try done).
    + match goal with Hd : (S d < json_depth (JDict (dict_set acc ?k ?v)))%nat |- _ =>
        pose proof (depth_dict_set_le d acc k v Hacc Hge); lia end.
    + eapply IHo; [eassumption | apply (dict_set_values (fun x => (json_depth x <= d)%nat)); [done | lia] | done].
  - intros d acc s v r H Hacc Hd; cbn [scan_elements parse_array] in *.
    repeat (first [deep_step IHv f | case_match]; simplify_eq; try done).
    + match goal with Hd : (S d < json_depth (JList (acc ++ [?v])))%nat |- _ =>
        pose proof (depth_snoc_le d acc v Hacc Hge); lia end.
    + eapply IHa; [eassumption | apply Forall_app; split; [done | constructor; [lia | constructor]] | done].
Qed.

Lemma decode_deep d s v : loads s = Some v -> (d < json_depth v)%nat -> decode d s = RecursionLimit.
Proof.
  unfold decode, loads. intros H Hd. destruct (startswith s [0xFEFF]); [done|].
  destruct (scan_value _ _) as [[v' r]|] eqn:Hs; [|done]. destruct (skip_ws r); simplify_eq.
  by rewrite (proj1 (scan_once_deep _) d _ _ _ Hs Hd).
Qed.

(** C19: [json.loads] with the recursion limit refines the reference
    decoder [Json.loads]: it ends with [RecursionError] or with what the
    reference decoder gives; when the headroom is at least the length of
    the text the limit never triggers and the two agree; and a text that
    decodes to a value nesting deeper than the headroom always ends with
    [RecursionError]. *)
Theorem decode_refines_loads d s :
  (decode d s = RecursionLimit \/ decode d s = of_loads (loads s)) /\
  ((length s <= d)%nat -> decode d s = of_loads (loads s)) /\
  (forall v, loads s = Some v -> (d < json_depth v)%nat -> decode d s = RecursionLimit).
Proof.
  split_and!; [| | apply decode_deep]; unfold decode, loads; (case_first; [by auto|]).
  - destruct (proj1 (scan_once_agree (S (2 * length s))) d (skip_ws s)) as [-> | ->]; [by left|]. right.
    destruct (scan_value _ _) as [[v r]|]; cbn; [|done]. by destruct (skip_ws r).
  - intros Hd. rewrite (proj1 (scan_once_complete (S (2 * length s)))) by (pose proof (skip_ws_length s); lia).
    destruct (scan_value _ _) as [[v r]|]; cbn; [|done]. by destruct (skip_ws r).
Qed.

(** ** Witnesses *)

Lemma decode_refines_loads_witness :
  loads (py "[[1]]") = Some (JList [JList [JInt 1]]) /\ (1 < json_depth (JList [JList [JInt 1]]))%nat /\
  decode 1 (py "[[1]]") = RecursionLimit.
Proof.
  split; [reflexivity|]. split; [vm_compute; lia|].
  apply (proj2 (proj2 (decode_refines_loads 1 (py "[[1]]"))) (JList [JList [JInt 1]])); [reflexivity | vm_compute; lia].
Defined.

End JsonDepth.
