(* ===== verification/Proc.v ===== *)
(** The process the script runs in: Python's exceptions, the effects the
    script performs ([print], [input], [subprocess.run], [os.chdir]) as a
    free monad, [try]/[except], [sys.exit], the interface of the
    operating system ([World]), the interpreter of a program against a
    world, and the exit status of the interpreter's outcome. *)

From S2P Require Import Prelude PyStr Json.
#[local] Open Scope Z_scope.

Module Proc.
Import Str Json.

(** The exceptions the script can raise. *)
Inductive exc :=
| SystemExit (code : Z)          (** [sys.exit(code)] *)
| FileNotFoundError              (** [subprocess.run] of a missing program, [os.chdir] of a missing directory *)
| CalledProcessError (rc : Z)    (** [subprocess.run(..., check=True)] with a non-zero status *)
| EOFError                       (** [input()] at the end of standard input *)
| JSONDecodeError                (** [json.loads] of a text that is not JSON *)
| AttributeError                 (** [.get] on a value that is not a [dict] *)
| TypeError                      (** [in] on a value that is neither [str], [list] nor [dict] *)
| KeyboardInterrupt              (** [SIGINT] (Ctrl-C) delivered to the interpreter *)
| RecursionError.                (** [Py_EnterRecursiveCall] past the recursion limit *)

(** The interpreter's recursion headroom when [json.loads] runs: the
    number of nested objects and arrays its C scanner may still enter
    ([sys.getrecursionlimit()] less the frames in use up to CPython
    3.11, the C recursion limit from 3.12 on). *)
Class Interpreter := { recursion_headroom : nat }.

(** A printed line: the pieces of the f-string.  [PText] is text;
    [PValue v] is [str(v)] of a JSON value that is not a string. *)
Inductive piece := PText (s : pystr) | PValue (v : json).
Abbreviation line := (list piece) (only parsing).

(** What [subprocess.run] finds: no such program, the completed process
    with its return code and captured output, or a [SIGINT] (Ctrl-C at
    the terminal) while the command runs: the child receives it too,
    [subprocess.run] kills it and re-raises [KeyboardInterrupt]. *)
Inductive run_result := NotFound | Completed (rc : Z) (stdout stderr : pystr) | Interrupted.

(** The answers of a command that are not an interruption. *)
Definition not_interrupted (r : run_result) : Prop :=
  match r with Interrupted => False | _ => True end.

(** What [input] reads from the terminal: a line (without its newline),
    the end of input (Ctrl-D, or a closed standard input), or a [SIGINT]
    (Ctrl-C) while it waits, which the interpreter turns into
    [KeyboardInterrupt]. *)
Inductive input_result := Line (s : pystr) | EndOfInput | InputInterrupted.

(** The answers at a prompt that are not an interruption. *)
Definition typed (x : input_result) : Prop :=
  match x with InputInterrupted => False | _ => True end.

(** [subprocess.CompletedProcess] *)
Record completed := { returncode : Z; out : pystr; err : pystr }.

(** A Python computation: it returns, raises, or performs an effect and
    continues with the answer. *)
Inductive prog (A : Type) : Type :=
| Ret (a : A)
| Raise (e : exc)
| Print (l : line) (k : prog A)
| Input (prompt : pystr) (k : input_result -> prog A)
| Run (argv : list pystr) (k : run_result -> prog A)
| Chdir (path : pystr) (k : bool -> prog A).
Arguments Ret {A} a.
Arguments Raise {A} e.
Arguments Print {A} l k.
Arguments Input {A} prompt k.
Arguments Run {A} argv k.
Arguments Chdir {A} path k.

Fixpoint prog_bind {A B} (f : A -> prog B) (p : prog A) : prog B :=
  match p with
  | Ret a => f a
  | Raise e => Raise e
  | Print l k => Print l (prog_bind f k)
  | Input pr k => Input pr (fun x => prog_bind f (k x))
  | Run argv k => Run argv (fun r => prog_bind f (k r))
  | Chdir d k => Chdir d (fun b => prog_bind f (k b))
  end.

#[export] Instance prog_ret : MRet prog := @Ret.
#[export] Instance prog_mbind : MBind prog := @prog_bind.

Notation "'pass'" := (Ret tt) : py_scope.
Notation "'raise' e" := (Raise e) (at level 10) : py_scope.
#[local] Open Scope py_scope.

(** [try: p except: h] with a bare [except], which catches every
    exception, [SystemExit] included. *)
Fixpoint try_except {A} (p : prog A) (h : exc -> prog A) : prog A :=
  match p with
  | Ret a => Ret a
  | Raise e => h e
  | Print l k => Print l (try_except k h)
  | Input pr k => Input pr (fun x => try_except (k x) h)
  | Run argv k => Run argv (fun r => try_except (k r) h)
  | Chdir d k => Chdir d (fun b => try_except (k b) h)
  end.

(** [print(...)] *)
Definition print (l : line) : prog unit := Print l pass.

(** [input(prompt)]: the line read, [EOFError] at the end of input, or
    [KeyboardInterrupt] for a Ctrl-C at the prompt. *)
Definition input (prompt : pystr) : prog pystr :=
  Input prompt (fun x =>
    match x with
    | Line s => Ret s
    | EndOfInput => raise EOFError
    | InputInterrupted => raise KeyboardInterrupt
    end).

(** [subprocess.run(argv, capture_output=True, check=check)] *)
Definition subprocess_run (argv : list pystr) (check : bool) : prog completed :=
  Run argv (fun r =>
    match r with
    | NotFound => raise FileNotFoundError
    | Completed rc o e =>
      if check && negb (rc =? 0) then raise (CalledProcessError rc)
      else Ret {| returncode := rc; out := o; err := e |}
    | Interrupted => raise KeyboardInterrupt
    end).

(** [sys.exit(code)] *)
Definition sys_exit {A} (code : Z) : prog A := raise (SystemExit code).

(** [os.chdir(path)] *)
Definition os_chdir (path : pystr) : prog unit :=
  Chdir path (fun ok => if ok then pass else raise FileNotFoundError).

(** ** The operating system *)

(** What the world answers to each effect. *)
Class World (W : Type) := {
  w_input : W -> input_result * W;
  w_run : W -> list pystr -> run_result * W;
  w_chdir : W -> pystr -> bool * W
}.

(** What an observer of the process sees, in order. *)
Inductive event :=
| EvOut (l : line)               (** a line on standard output *)
| EvPrompt (prompt : pystr)      (** [input] writes its prompt and reads a line *)
| EvRun (argv : list pystr)      (** a command is started *)
| EvChdir (path : pystr).        (** the working directory is changed *)

Inductive outcome (A : Type) := Normal (a : A) | Uncaught (e : exc).
Arguments Normal {A} a.
Arguments Uncaught {A} e.

Section Exec.
Context `{World W}.

(** Run a program against a world: the trace, the outcome and the final
    world. *)
Fixpoint exec {A} (p : prog A) (w : W) : list event * outcome A * W :=
  match p with
  | Ret a => ([], Normal a, w)
  | Raise e => ([], Uncaught e, w)
  | Print l k => let '(t, o, w') := exec k w in (EvOut l :: t, o, w')
  | Input pr k =>
    let '(x, w1) := w_input w in
    let '(t, o, w') := exec (k x) w1 in (EvPrompt pr :: t, o, w')
  | Run argv k =>
    let '(r, w1) := w_run w argv in
    let '(t, o, w') := exec (k r) w1 in (EvRun argv :: t, o, w')
  | Chdir d k =>
    let '(b, w1) := w_chdir w d in
    let '(t, o, w') := exec (k b) w1 in (EvChdir d :: t, o, w')
  end.

End Exec.

(** The exit status of the interpreter: 0 when the module body returns,
    the code of [sys.exit], 130 for an uncaught [KeyboardInterrupt] (the
    interpreter prints the traceback and kills itself with [SIGINT], which
    a shell reports as 128 + 2), and 1 for any other uncaught exception
    (the interpreter prints the traceback and exits with 1). *)
Definition exc_status (e : exc) : Z :=
  match e with SystemExit c => c | KeyboardInterrupt => 130 | _ => 1 end.

Definition exit_status {A} (o : outcome A) : Z :=
  match o with Normal _ => 0 | Uncaught e => exc_status e end.

(** ** Scripted worlds *)

(** A world given by the answers it will give, in order: the lines of
    standard input (with the end of input and Ctrl-C), the results of the commands
    and the results of [os.chdir].  An exhausted queue answers end of
    input, a missing program and a missing directory. *)
Record sworld := { stdin : list input_result; runs : list run_result; dirs : list bool }.

#[export] Instance sworld_world : World sworld := {
  w_input w := match stdin w with
               | [] => (EndOfInput, w)
               | x :: r => (x, {| stdin := r; runs := runs w; dirs := dirs w |})
               end;
  w_run w _ := match runs w with
               | [] => (NotFound, w)
               | x :: r => (x, {| stdin := stdin w; runs := r; dirs := dirs w |})
               end;
  w_chdir w _ := match dirs w with
                 | [] => (false, w)
                 | x :: r => (x, {| stdin := stdin w; runs := runs w; dirs := r |})
                 end
}.

(** [silent p]: [p] with its output dropped. *)
Fixpoint silent {A} (p : prog A) : prog A :=
  match p with
  | Ret a => Ret a
  | Raise e => Raise e
  | Print _ k => silent k
  | Input pr k => Input pr (fun x => silent (k x))
  | Run argv k => Run argv (fun r => silent (k r))
  | Chdir d k => Chdir d (fun b => silent (k b))
  end.

(** The events of a trace that are not output. *)
Definition unprinted (t : list event) : list event :=
  omap (fun ev => match ev with EvOut _ => None | _ => Some ev end) t.

(** ** Programs classified by what they may do *)

(** [quiet p]: [p] only prints before it returns or raises. *)
Inductive quiet {A} : prog A -> Prop :=
| quiet_ret a : quiet (Ret a)
| quiet_raise e : quiet (Raise e)
| quiet_print l k : quiet k -> quiet (Print l k).

(** [aborts p]: [p] only prints, then raises. *)
Inductive aborts {A} : prog A -> Prop :=
| aborts_raise e : aborts (Raise e)
| aborts_print l k : aborts k -> aborts (Print l k).

(** [exits_in S I R p]: every exception [p] may raise, when the prompts
    answer in [I] and the commands in [R], ends the process with a status
    in [S]. *)
Inductive exits_in (S : Z -> Prop) (I : input_result -> Prop) (R : run_result -> Prop) {A} : prog A -> Prop :=
| exits_ret a : exits_in S I R (Ret a)
| exits_raise e : S (exc_status e) -> exits_in S I R (Raise e)
| exits_print l k : exits_in S I R k -> exits_in S I R (Print l k)
| exits_input pr k : (forall x, I x -> exits_in S I R (k x)) -> exits_in S I R (Input pr k)
| exits_run argv k : (forall r, R r -> exits_in S I R (k r)) -> exits_in S I R (Run argv k)
| exits_chdir d k : (forall b, exits_in S I R (k b)) -> exits_in S I R (Chdir d k).

(** The events that are output lines. *)
Definition is_out (ev : event) : Prop := match ev with EvOut _ => True | _ => False end.

(** [eventually P p]: on every path of [p], whatever the world answers,
    an event satisfying [P] happens before [p] returns or raises: the
    program cannot finish without it. *)
Inductive eventually (P : event -> Prop) {A} : prog A -> Prop :=
| ev_print_now l k : P (EvOut l) -> eventually P (Print l k)
| ev_print_later l k : eventually P k -> eventually P (Print l k)
| ev_input_now pr k : P (EvPrompt pr) -> eventually P (Input pr k)
| ev_input_later pr k : (forall x, eventually P (k x)) -> eventually P (Input pr k)
| ev_run_now argv k : P (EvRun argv) -> eventually P (Run argv k)
| ev_run_later argv k : (forall r, eventually P (k r)) -> eventually P (Run argv k)
| ev_chdir_now d k : P (EvChdir d) -> eventually P (Chdir d k)
| ev_chdir_later d k : (forall b, eventually P (k b)) -> eventually P (Chdir d k).

(** ** The interpreter on composed programs *)

Section ExecLemmas.
Context `{World W}.

Lemma exec_bind {A B} (p : prog A) (f : A -> prog B) w :
  exec (p ≫= f) w =
  let '(t, o, w1) := exec p w in
  match o with
  | Normal a => let '(t2, o2, w2) := exec (f a) w1 in (t ++ t2, o2, w2)
  | Uncaught e => (t, Uncaught e, w1)
  end.
Proof.
  unfold mbind, prog_mbind. revert w.
  induction p as [a|e|l k IH|pr k IH|argv k IH|d k IH]; intros w; cbn [prog_bind exec].
  - by destruct (exec (f a) w) as [[??]?].
  - done.
  - rewrite IH. destruct (exec k w) as [[t [a|e]] w1]; [destruct (exec (f a) w1) as [[??]?]|]; done.
  - destruct (w_input w) as [x w0]. rewrite IH.
    destruct (exec (k x) w0) as [[t [a|e]] w1]; [destruct (exec (f a) w1) as [[??]?]|]; done.
  - destruct (w_run w argv) as [x w0]. rewrite IH.
    destruct (exec (k x) w0) as [[t [a|e]] w1]; [destruct (exec (f a) w1) as [[??]?]|]; done.
  - destruct (w_chdir w d) as [x w0]. rewrite IH.
    destruct (exec (k x) w0) as [[t [a|e]] w1]; [destruct (exec (f a) w1) as [[??]?]|]; done.
Qed.

Lemma exec_bind_normal {A B} (p : prog A) (f : A -> prog B) w t a w1 :
  exec p w = (t, Normal a, w1) ->
  exec (p ≫= f) w = let '(t2, o2, w2) := exec (f a) w1 in (t ++ t2, o2, w2).
Proof. intros Hp. by rewrite exec_bind, Hp. Qed.

Lemma exec_bind_uncaught {A B} (p : prog A) (f : A -> prog B) w t e w1 :
  exec p w = (t, Uncaught e, w1) -> exec (p ≫= f) w = (t, Uncaught e, w1).
Proof. intros Hp. by rewrite exec_bind, Hp. Qed.

Lemma exec_try_except {A} (p : prog A) h w :
  exec (try_except p h) w =
  let '(t, o, w1) := exec p w in
  match o with
  | Normal a => (t, Normal a, w1)
  | Uncaught e => let '(t2, o2, w2) := exec (h e) w1 in (t ++ t2, o2, w2)
  end.
Proof.
  revert w. induction p as [a|e|l k IH|pr k IH|argv k IH|d k IH]; intros w; cbn [try_except exec].
  - done.
  - by destruct (exec (h e) w) as [[??]?].
  - rewrite IH. destruct (exec k w) as [[t [a|e]] w1]; [|destruct (exec (h e) w1) as [[??]?]]; done.
  - destruct (w_input w) as [x w0]. rewrite IH.
    destruct (exec (k x) w0) as [[t [a|e]] w1]; [|destruct (exec (h e) w1) as [[??]?]]; done.
  - destruct (w_run w argv) as [x w0]. rewrite IH.
    destruct (exec (k x) w0) as [[t [a|e]] w1]; [|destruct (exec (h e) w1) as [[??]?]]; done.
  - destruct (w_chdir w d) as [x w0]. rewrite IH.
    destruct (exec (k x) w0) as [[t [a|e]] w1]; [|destruct (exec (h e) w1) as [[??]?]]; done.
Qed.

End ExecLemmas.

Section Classes.
Context {A B : Type}.

Lemma quiet_bind (p : prog A) (f : A -> prog B) : quiet p -> (forall a, quiet (f a)) -> quiet (p ≫= f).
Proof. intros Hp Hf. induction Hp; cbn; [apply Hf | constructor | by constructor]. Qed.

Lemma aborts_bind (p : prog A) (f : A -> prog B) : quiet p -> (forall a, aborts (f a)) -> aborts (p ≫= f).
Proof. intros Hp Hf. induction Hp; cbn; [apply Hf | constructor | by constructor]. Qed.

Lemma exits_bind S I R (p : prog A) (f : A -> prog B) :
  exits_in S I R p -> (forall a, exits_in S I R (f a)) -> exits_in S I R (p ≫= f).
Proof. intros Hp Hf. induction Hp; cbn; [apply Hf | by constructor ..]. Qed.

Lemma exits_try S I R (p : prog A) h :
  exits_in S I R p -> (forall e, exits_in S I R (h e)) -> exits_in S I R (try_except p h).
Proof. intros Hp Hh. induction Hp; cbn; [by constructor | apply Hh | by constructor ..]. Qed.

Lemma eventually_bind P (p : prog A) (f : A -> prog B) : eventually P p -> eventually P (p ≫= f).
Proof. induction 1; cbn; eauto using eventually. Qed.

End Classes.

#[export] Hint Constructors quiet aborts : pyrt.
#[export] Hint Resolve quiet_bind aborts_bind : pyrt.

Lemma aborts_bind_l {A B} (p : prog A) (f : A -> prog B) : aborts p -> aborts (p ≫= f).
Proof. induction 1; cbn; by constructor. Qed.

Lemma aborts_silent {A} (p : prog A) : aborts p -> aborts (silent p).
Proof. induction 1; cbn; [constructor | done]. Qed.

#[export] Hint Resolve aborts_bind_l aborts_silent : pyrt.

Section ClassExec.
Context `{World W} {A : Type}.

Lemma exec_quiet (p : prog A) w : quiet p -> exists t o, exec p w = (t, o, w) /\ Forall is_out t.
Proof.
  induction 1 as [a|e|l k _ (t & o & IH & Ht)]; cbn [exec]; eauto.
  rewrite IH. exists (EvOut l :: t), o. split; [done|]. by constructor.
Qed.

Lemma exec_aborts (p : prog A) w : aborts p -> exists t e, exec p w = (t, Uncaught e, w) /\ Forall is_out t.
Proof.
  induction 1 as [e|l k _ (t & e & IH & Ht)]; cbn [exec]; eauto.
  rewrite IH. exists (EvOut l :: t), e. split; [done|]. by constructor.
Qed.


(** Dropping the output of a program changes nothing else of its run. *)
Lemma exec_silent (p : prog A) w :
  exec (silent p) w = let '(t, o, w') := exec p w in (unprinted t, o, w').
Proof.
  revert w. induction p as [a|e|l k IH|pr k IH|argv k IH|d k IH]; intros w; cbn [silent exec].
  - done.
  - done.
  - rewrite IH. by destruct (exec k w) as [[??]?].
  - destruct (w_input w) as [x w1]. rewrite IH. by destruct (exec (k x) w1) as [[??]?].
  - destruct (w_run w argv) as [x w1]. rewrite IH. by destruct (exec (k x) w1) as [[??]?].
  - destruct (w_chdir w d) as [x w1]. rewrite IH. by destruct (exec (k x) w1) as [[??]?].
Qed.

(** A program that must perform an event performs it in every world. *)
Lemma exec_eventually P (p : prog A) w : eventually P p -> Exists P (exec p w).1.1.
Proof.
  intros Hp. revert w.
  induction Hp as [l k HP|l k _ IH|pr k HP|pr k _ IH|argv k HP|argv k _ IH|d k HP|d k _ IH];
    intros w; cbn [exec].
  - destruct (exec k w) as [[??]?]. by constructor.
  - specialize (IH w). destruct (exec k w) as [[??]?]. by constructor.
  - destruct (w_input w) as [x w1]. destruct (exec (k x) w1) as [[??]?]. by constructor.
  - destruct (w_input w) as [x w1]. specialize (IH x w1). destruct (exec (k x) w1) as [[??]?]. by constructor.
  - destruct (w_run w argv) as [x w1]. destruct (exec (k x) w1) as [[??]?]. by constructor.
  - destruct (w_run w argv) as [x w1]. specialize (IH x w1). destruct (exec (k x) w1) as [[??]?]. by constructor.
  - destruct (w_chdir w d) as [x w1]. destruct (exec (k x) w1) as [[??]?]. by constructor.
  - destruct (w_chdir w d) as [x w1]. specialize (IH x w1). destruct (exec (k x) w1) as [[??]?]. by constructor.
Qed.

End ClassExec.

(** The exit status of a run, for a world whose answers at the prompts
    stay in [I] and whose command answers stay in [R] as long as an
    invariant [Inv] of the world holds. *)
Section ExitsIn.
Context `{World W} (Inv : W -> Prop) (I : input_result -> Prop) (R : run_result -> Prop) (S : Z -> Prop).
Hypothesis inv_run : forall w a, Inv w -> R (w_run w a).1 /\ Inv (w_run w a).2.
Hypothesis inv_input : forall w, Inv w -> I (w_input w).1 /\ Inv (w_input w).2.
Hypothesis inv_chdir : forall w d, Inv w -> Inv (w_chdir w d).2.
Hypothesis S_0 : S 0.

Lemma exec_exits_in {A} (p : prog A) w : Inv w -> exits_in S I R p -> S (exit_status (exec p w).1.2).
Proof.
  intros Hw Hp. revert w Hw.
  induction Hp as [a|e He|l k _ IH|pr k _ IH|argv k _ IH|d k _ IH]; intros w Hw; cbn [exec].
  - done.
  - done.
  - specialize (IH w Hw). destruct (exec k w) as [[??]?]. done.
  - pose proof (inv_input w Hw) as [Hx Hw1]. destruct (w_input w) as [x w1].
    specialize (IH x Hx w1 Hw1). destruct (exec (k x) w1) as [[??]?]. done.
  - pose proof (inv_run w argv Hw) as [Hr Hw1]. destruct (w_run w argv) as [x w1].
    specialize (IH x Hr w1 Hw1). destruct (exec (k x) w1) as [[??]?]. done.
  - pose proof (inv_chdir w d Hw). destruct (w_chdir w d) as [x w1].
    specialize (IH x w1 ltac:(done)). destruct (exec (k x) w1) as [[??]?]. done.
Qed.

End ExitsIn.

(** A scripted world whose command results are never an interruption
    answers no command with one. *)
Lemma sworld_not_interrupted (s : sworld) a :
  Forall not_interrupted (runs s) ->
  not_interrupted (w_run s a).1 /\ Forall not_interrupted (runs (w_run s a).2).
Proof. destruct s as [i [|r rs] d]; cbn; intros Hr; [done|]. by inversion Hr. Qed.

(** Likewise for the prompts. *)
Lemma sworld_typed (s : sworld) :
  Forall typed (stdin s) -> typed (w_input s).1 /\ Forall typed (stdin (w_input s).2).
Proof. destruct s as [[|x i] r d]; cbn; intros Hi; [done|]. by inversion Hi. Qed.

(** Scripted worlds are complete: whatever a world answers, some script
    of answers makes a program produce the same trace and the same
    outcome. *)
Lemma exec_scripted `{World W} {A} (p : prog A) (w : W) :
  exists s : sworld, (exec p s).1 = (exec p w).1.
Proof.
  revert w. induction p as [a|e|l k IH|pr k IH|argv k IH|d k IH]; intros w.
  - by exists {| stdin := []; runs := []; dirs := [] |}.
  - by exists {| stdin := []; runs := []; dirs := [] |}.
  - destruct (IH w) as [s Hs]. exists s. cbn [exec].
    destruct (exec k s) as [[??]?], (exec k w) as [[??]?]. simpl in *. by simplify_eq.
  - cbn [exec]. destruct (w_input w) as [x w0]. destruct (IH x w0) as [[i r d'] Hs].
    exists {| stdin := x :: i; runs := r; dirs := d' |}. cbn [exec w_input sworld_world stdin runs dirs].
    destruct (exec (k x) _) as [[??]?], (exec (k x) w0) as [[??]?]. simpl in *. by simplify_eq.
  - cbn [exec]. destruct (w_run w argv) as [x w0]. destruct (IH x w0) as [[i r d'] Hs].
    exists {| stdin := i; runs := x :: r; dirs := d' |}. cbn [exec w_run sworld_world stdin runs dirs].
    destruct (exec (k x) _) as [[??]?], (exec (k x) w0) as [[??]?]. simpl in *. by simplify_eq.
  - cbn [exec]. destruct (w_chdir w d) as [x w0]. destruct (IH x w0) as [[i r d'] Hs].
    exists {| stdin := i; runs := r; dirs := x :: d' |}. cbn [exec w_chdir sworld_world stdin runs dirs].
    destruct (exec (k x) _) as [[??]?], (exec (k x) w0) as [[??]?]. simpl in *. by simplify_eq.
Qed.

End Proc.
