(* ===== verification/Provisioner.v ===== *)
(** The script [src/github-create-api.py]: [main] (lines 12-140) as a
    program of [Proc.prog], statement by statement, cut into the blocks
    the source's comments delimit, and the module body [entry] (lines
    142-144).  The Python operations the script applies to the decoded
    response ([json.loads], [.get], [==], [in], f-string formatting) are
    defined first, with the exceptions they raise. *)

From S2P Require Import Prelude PyStr Json JsonDepth Proc.
#[local] Open Scope Z_scope.

Module Provisioner.
Import Str Json JsonDepth Proc.
#[local] Open Scope py_scope.

Section Script.
Context `{Interpreter}.

(** ** Python operations on decoded values *)

(** [json.loads(s)]: the decoded value, [JSONDecodeError], or the
    [RecursionError] of a text nested past the interpreter's headroom. *)
Definition json_loads (s : pystr) : prog json :=
  match decode recursion_headroom s with
  | Decoded v => Ret v
  | DecodeError => raise JSONDecodeError
  | RecursionLimit => raise RecursionError
  end.

(** [v.get(k, default)] ([default] is [None] when omitted): a [dict]
    answers, any other value has no attribute [get]. *)
Definition py_get (v : json) (k : pystr) (default : json) : prog json :=
  match v with
  | JDict d => Ret (stdpp.option.default default (dict_get d k))
  | _ => raise AttributeError
  end.

(** [v == s] for a string [s]: only a [str] can be equal to it. *)
Definition py_eq_str (v : json) (s : pystr) : bool :=
  match v with JStr t => bool_decide (t = s) | _ => false end.

(** [s in v] for a string [s]: substring of a [str], element of a
    [list], key of a [dict]; other values are not containers. *)
Definition py_in (s : pystr) (v : json) : prog bool :=
  match v with
  | JStr t => Ret (str_contains s t)
  | JList l => Ret (existsb (fun e => py_eq_str e s) l)
  | JDict d => Ret (bool_decide (s ∈ d.*1))
  | _ => raise TypeError
  end.

(** [{v}] in an f-string: the text of [str(v)]; lists, dicts and floats
    are kept as the value. *)
Definition fmt (v : json) : piece :=
  match v with
  | JStr s => PText s
  | JInt z => PText (str_of_Z z)
  | JNull => PText (py "None")
  | JBool true => PText (py "True")
  | JBool false => PText (py "False")
  | _ => PValue v
  end.

(** A line of plain text; the newline and the double quote characters. *)
Definition txt (s : pystr) : line := [PText s].
Definition nl : pystr := [10].
Definition dq : pystr := [34].

(** ** The constants and request bodies *)

(** [repo_name] (line 46) *)
Definition repo_name : pystr := py "review-insights-platform".

(** The body of the [POST /user/repos] request (lines 56-65). *)
Definition create_payload (username : pystr) : json :=
  JDict [(py "name", JStr repo_name);
         (py "description", JStr (py "AI-powered review management platform with zero-config setup"));
         (py "homepage", JStr (py "https://" ++ username ++ py ".github.io/" ++ repo_name ++ py "/"));
         (py "private", JBool false);
         (py "has_issues", JBool true);
         (py "has_projects", JBool true);
         (py "has_wiki", JBool false);
         (py "auto_init", JBool false)].

(** [create_repo_cmd] (lines 51-66) *)
Definition create_repo_cmd (username token : pystr) : list pystr :=
  [py "curl"; py "-X"; py "POST";
   py "-H"; py "Authorization: token " ++ token;
   py "-H"; py "Accept: application/vnd.github.v3+json";
   py "https://api.github.com/user/repos";
   py "-d"; dumps (create_payload username)].

(** [repo_url] (line 84) *)
Definition repo_url (username : pystr) : pystr :=
  py "https://github.com/" ++ username ++ py "/" ++ repo_name ++ py ".git".

(** The body of the [PUT .../topics] request (lines 116-118). *)
Definition topics_payload : json :=
  JDict [(py "names", JList [JStr (py "ai"); JStr (py "review-management"); JStr (py "saas");
                             JStr (py "typescript"); JStr (py "nextjs");
                             JStr (py "sentiment-analysis"); JStr (py "zero-config")])].

(** [topics_cmd] (lines 111-119) *)
Definition topics_cmd (username token : pystr) : list pystr :=
  [py "curl"; py "-X"; py "PUT";
   py "-H"; py "Authorization: token " ++ token;
   py "-H"; py "Accept: application/vnd.github.mercy-preview+json";
   py "https://api.github.com/repos/" ++ username ++ py "/" ++ repo_name ++ py "/topics";
   py "-d"; dumps topics_payload].

(** The argument vectors of the other commands (lines 19, 87, 91, 106). *)
Definition curl_version_cmd : list pystr := [py "curl"; py "--version"].
Definition remote_add_cmd (username : pystr) : list pystr :=
  [py "git"; py "remote"; py "add"; py "origin"; repo_url username].
Definition push_main_cmd : list pystr := [py "git"; py "push"; py "-u"; py "origin"; py "main"].
Definition push_pages_cmd : list pystr := [py "git"; py "push"; py "origin"; py "gh-pages"].

(** ** [main], block by block *)

(** The title (lines 13-15). *)
Definition banner : prog unit :=
  print (txt (py "🚀 Review Insights - GitHub Repository Creator")) ;;
  print (txt (str_repeat (py "=") 50)) ;;
  print [].

(** [# Check if we have curl] (lines 18-22): the bare [except] catches
    the missing program and the non-zero status alike. *)
Definition check_curl : prog unit :=
  try_except (_ ← subprocess_run curl_version_cmd true; pass)
    (fun _ => print (txt (py "❌ Error: curl is required but not installed")) ;; sys_exit 1).

(** The instructions (lines 24-33). *)
Definition instructions : prog unit :=
  print (txt (py "This script will create a GitHub repository using the GitHub API.")) ;;
  print (txt (py "You'll need a GitHub Personal Access Token with 'repo' scope.")) ;;
  print [] ;;
  print (txt (py "📝 How to get a token:")) ;;
  print (txt (py "1. Go to: https://github.com/settings/tokens/new")) ;;
  print (txt (py "2. Give it a name (e.g., 'Review Insights Setup')")) ;;
  print (txt (py "3. Select scopes: ✓ repo (Full control of private repositories)")) ;;
  print (txt (py "4. Click 'Generate token'")) ;;
  print (txt (py "5. Copy the token (you won't see it again!)")) ;;
  print [].

(** [# Get user input] (lines 36-44): both answers stripped, an empty
    one is fatal. *)
Definition read_credentials : prog (pystr * pystr) :=
  u ← input (py "GitHub username: ");
  let username := strip u in
  (if bool_decide (username = []) then
     print (txt (py "❌ Username is required!")) ;; sys_exit 1
   else pass) ;;
  t ← input (py "GitHub Personal Access Token: ");
  let token := strip t in
  (if bool_decide (token = []) then
     print (txt (py "❌ Token is required!")) ;; sys_exit 1
   else pass) ;;
  Ret (username, token).

(** The error report of a failed creation (lines 72-79). *)
Definition report_error (username : pystr) (stdout : pystr) : prog unit :=
  response ← json_loads stdout;
  m ← py_get response (py "message") JNull;
  (if py_eq_str m (py "Bad credentials") then
     print (txt (py "❌ Invalid token! Please check your Personal Access Token."))
   else
     m ← py_get response (py "message") (JStr []);
     b ← py_in (py "already exists") m;
     if (b : bool) then
       print (txt (py "❌ Repository " ++ username ++ py "/" ++ repo_name ++ py " already exists!"))
     else
       m ← py_get response (py "message") (JStr (py "Unknown error"));
       print [PText (py "❌ Error: "); fmt m]) ;;
  sys_exit 1.

(** The test of a failed creation (line 71). *)
Definition create_failed (result : completed) : bool :=
  negb (returncode result =? 0) || str_contains (dq ++ py "message" ++ dq) (out result).

(** [# Create repository using GitHub API] (lines 48-81). *)
Definition create_repo (username token : pystr) : prog unit :=
  print (txt (nl ++ py "✅ Creating repository: " ++ username ++ py "/" ++ repo_name)) ;;
  print (txt (nl ++ py "📡 Creating repository...")) ;;
  result ← subprocess_run (create_repo_cmd username token) false;
  (if create_failed result then report_error username (out result)
   else pass) ;;
  print (txt (py "✅ Repository created successfully!")).

(** [# Add remote and push] (lines 84-107). *)
Definition push (username token : pystr) : prog unit :=
  print (txt (nl ++ py "📤 Adding remote: " ++ repo_url username)) ;;
  _ ← subprocess_run (remote_add_cmd username) false;
  print (txt (py "📤 Pushing main branch...")) ;;
  push_result ← subprocess_run push_main_cmd false;
  (if negb (returncode push_result =? 0) then
     print (txt (py "❌ Push failed: " ++ err push_result)) ;;
     print (txt (nl ++ py "Try running manually:")) ;;
     print (txt (py "git remote set-url origin https://" ++ username ++ py ":" ++ token ++
                 py "@github.com/" ++ username ++ py "/" ++ repo_name ++ py ".git")) ;;
     print (txt (py "git push -u origin main")) ;;
     sys_exit 1
   else pass) ;;
  print (txt (py "✅ Main branch pushed!")) ;;
  print (txt (py "📤 Pushing gh-pages branch...")) ;;
  _ ← subprocess_run push_pages_cmd false;
  print (txt (py "✅ GitHub Pages branch pushed!")).

(** [# Add topics] (lines 110-121). *)
Definition add_topics (username token : pystr) : prog unit :=
  print (txt (nl ++ py "🏷️  Adding repository topics...")) ;;
  _ ← subprocess_run (topics_cmd username token) false;
  print (txt (py "✅ Topics added!")).

(** The summary (lines 123-140). *)
Definition summary (username : pystr) : prog unit :=
  print (txt (nl ++ str_repeat (py "=") 50)) ;;
  print (txt (py "🎉 SUCCESS! Your repository is now live!")) ;;
  print (txt (str_repeat (py "=") 50)) ;;
  print [] ;;
  print (txt (py "📁 Repository: https://github.com/" ++ username ++ py "/" ++ repo_name)) ;;
  print (txt (py "📄 Deploy Page: https://" ++ username ++ py ".github.io/" ++ repo_name ++ py "/")) ;;
  print [] ;;
  print (txt (py "📋 Next steps:")) ;;
  print (txt (py "1. Enable GitHub Pages: https://github.com/" ++ username ++ py "/" ++ repo_name ++
              py "/settings/pages")) ;;
  print (txt (py "   - Source: Deploy from branch")) ;;
  print (txt (py "   - Branch: gh-pages → /docs")) ;;
  print [] ;;
  print (txt (py "🚀 Deploy buttons:")) ;;
  print (txt (py "Railway: https://railway.app/new/template?template=https://github.com/" ++
              username ++ py "/" ++ repo_name)) ;;
  print (txt (py "Render: https://render.com/deploy?repo=https://github.com/" ++
              username ++ py "/" ++ repo_name)) ;;
  print (txt (py "Vercel: https://vercel.com/new/clone?repository-url=https://github.com/" ++
              username ++ py "/" ++ repo_name)) ;;
  print [] ;;
  print (txt (py "✨ Your Review Insights platform is ready to share!")).

(** [main()] (lines 12-140). *)
Definition main : prog unit :=
  banner ;;
  check_curl ;;
  instructions ;;
  '(username, token) ← read_credentials;
  create_repo username token ;;
  push username token ;;
  add_topics username token ;;
  summary username.

(** The module body under [if __name__ == "__main__":] (lines 142-144). *)
Definition entry : prog unit :=
  os_chdir (py "/home/david/review-analysis-saas") ;;
  main.

End Script.

End Provisioner.
