(* ===== verification/Repr.v ===== *)
(** [str()] of the values an f-string field receives, as CPython computes
    it, and the text [print] writes for a line.  [repr] of a [str] is
    [unicode_repr]: the quote is chosen from the quotes inside; the
    quote, the backslash, tab, newline and carriage return are escaped
    with a backslash; other control characters are written [\xhh]; the
    non-ASCII characters the Unicode database calls non-printable are
    written [\xhh], [\uhhhh] or [\Uhhhhhhhh].  [repr] of a [list] and of
    a [dict] are [list_repr] and [dict_repr].  Two facts of the runtime
    are parameters, in the class [ReprData]: the printability of non-ASCII
    code points, and [repr] of the float a JSON literal denotes.  The
    reference syntax of Python string literals ([unrepr]) is the
    specification [repr] is proved against. *)

From S2P Require Import Prelude PyStr Json Proc Provisioner.
#[local] Open Scope Z_scope.

Module Repr.
Import Str Json Proc Provisioner.

(** [Py_UNICODE_ISPRINTABLE] (only asked of code points above 127), and
    [repr(float(t))] of a JSON number literal [t] with a fraction or an
    exponent. *)
Class ReprData := {
  isprintable : Z -> bool;
  float_literal_repr : pystr -> pystr
}.

Section ReprDefs.
Context `{ReprData}.

(** The [n] lowercase hexadecimal digits of [c], most significant first
    ([Py_hexdigits[(ch >> 4k) & 0xf]]). *)
Fixpoint hex_digits (n : nat) (c : Z) : pystr :=
  match n with
  | O => []
  | S k => hexdig (Z.land (Z.shiftr c (4 * Z.of_nat k)) 15) :: hex_digits k c
  end.

(** The quote [unicode_repr] writes: the double quote (34) when the
    string holds a single quote (39) and no double quote, the single
    quote otherwise. *)
Definition repr_quote (s : pystr) : Z :=
  if bool_decide (39 ∈ s) && negb (bool_decide (34 ∈ s)) then 34 else 39.

(** One character of [repr] inside the quotes [q]. *)
Definition repr_char (q c : Z) : pystr :=
  if (c =? q) || (c =? 92) then [92; c]
  else if c =? 9 then [92; 116]
  else if c =? 10 then [92; 110]
  else if c =? 13 then [92; 114]
  else if (c <? 32) || (c =? 127) then 92 :: 120 :: hex_digits 2 c
  else if c <? 127 then [c]
  else if isprintable c then [c]
  else if c <=? 255 then 92 :: 120 :: hex_digits 2 c
  else if c <=? 65535 then 92 :: 117 :: hex_digits 4 c
  else 92 :: 85 :: hex_digits 8 c.

(** [repr(s)] of a [str]. *)
Definition repr_str (s : pystr) : pystr :=
  let q := repr_quote s in q :: mjoin (map (repr_char q) s) ++ [q].

(** [repr] of the float a JSON literal denotes: [float_repr] writes the
    special values [nan], [inf] and [-inf]. *)
Definition float_repr (t : pystr) : pystr :=
  if bool_decide (t = lit_nan) then py "nan"
  else if bool_decide (t = lit_infinity) then py "inf"
  else if bool_decide (t = 45 :: lit_infinity) then py "-inf"
  else float_literal_repr t.

(** [repr(v)]: [list_repr] joins the items' [repr] with [", "],
    [dict_repr] the pairs [repr(k): repr(v)]. *)
Fixpoint py_repr (v : json) : pystr :=
  match v with
  | JNull => py "None"
  | JBool true => py "True"
  | JBool false => py "False"
  | JInt z => str_of_Z z
  | JFloat t => float_repr t
  | JStr s => repr_str s
  | JList l => 91 :: join_with item_separator (map py_repr l) ++ [93]
  | JDict d =>
    123 :: join_with item_separator (map (fun kv => repr_str kv.1 ++ key_separator ++ py_repr kv.2) d)
        ++ [125]
  end.

(** [str(v)]: a [str] is itself, any other value its [repr]. *)
Definition py_str (v : json) : pystr := match v with JStr s => s | _ => py_repr v end.

(** The text [print] writes for a line, without its newline. *)
Definition piece_text (p : piece) : pystr := match p with PText s => s | PValue v => py_str v end.
Definition line_text (l : line) : pystr := mjoin (map piece_text l).

End ReprDefs.

(** ** Python string literals

    The syntax of a single-line string literal, for the escapes [repr]
    writes: the backslash, the two quotes, [\t], [\n], [\r], [\xhh],
    [\uhhhh] and [\Uhhhhhhhh] (at most [0x10ffff]).  An unescaped line
    break and any other escape are refused. *)

Fixpoint hex_value (acc : Z) (ds : pystr) : option Z :=
  match ds with
  | [] => Some acc
  | d :: r => v ← hex_val d; hex_value (acc * 16 + v) r
  end.

Definition hex_cons (ds : pystr) (bound : Z) (o : option pystr) : option pystr :=
  c ← hex_value 0 ds; if c <=? bound then cons c <$> o else None.

(** The characters after the opening quote [q], up to the closing one,
    which must end the literal. *)
Fixpoint unrepr_body (q : Z) (s : pystr) : option pystr :=
  match s with
  | [] => None
  | c :: r =>
    if c =? q then match r with [] => Some [] | _ => None end
    else if (c =? 10) || (c =? 13) then None
    else if c =? 92 then
      match r with
      | [] => None
      | e :: r1 =>
        if (e =? 92) || (e =? 39) || (e =? 34) then cons e <$> unrepr_body q r1
        else if e =? 116 then cons 9 <$> unrepr_body q r1
        else if e =? 110 then cons 10 <$> unrepr_body q r1
        else if e =? 114 then cons 13 <$> unrepr_body q r1
        else if e =? 120 then
          match r1 with
          | h1 :: h2 :: r2 => hex_cons [h1; h2] 0x10FFFF (unrepr_body q r2)
          | _ => None
          end
        else if e =? 117 then
          match r1 with
          | h1 :: h2 :: h3 :: h4 :: r2 => hex_cons [h1; h2; h3; h4] 0x10FFFF (unrepr_body q r2)
          | _ => None
          end
        else if e =? 85 then
          match r1 with
          | h1 :: h2 :: h3 :: h4 :: h5 :: h6 :: h7 :: h8 :: r2 =>
            hex_cons [h1; h2; h3; h4; h5; h6; h7; h8] 0x10FFFF (unrepr_body q r2)
          | _ => None
          end
        else None
      end
    else cons c <$> unrepr_body q r
  end.

(** The value of a string literal quoted with a single or a double
    quote. *)
Definition unrepr (s : pystr) : option pystr :=
  match s with
  | q :: r => if (q =? 39) || (q =? 34) then unrepr_body q r else None
  | [] => None
  end.

(** The code points [repr] may write: printable ASCII, or a non-ASCII
    character the Unicode database calls printable. *)
Definition repr_printable `{ReprData} (c : Z) : Prop := printable c \/ (127 < c /\ isprintable c = true).

(** A runtime whose database calls no non-ASCII character printable and
    whose finite floats print as [0.0]. *)
Definition ascii_runtime : ReprData :=
  {| isprintable := fun _ => false; float_literal_repr := fun _ => py "0.0" |}.

(** ** Properties *)

Section ReprProps.
Context `{ReprData}.

Lemma hex_value_digits n c acc : 0 <= c ->
  hex_value acc (hex_digits n c) = Some (acc * 16 ^ Z.of_nat n + c mod 16 ^ Z.of_nat n).
Proof.
  intros Hc. revert acc. induction n as [|k IH]; intros acc; cbn [hex_digits hex_value].
  - rewrite Z.mod_1_r. f_equal. lia.
  - rewrite nibble by lia. rewrite Z.pow_mul_r by lia. change (2 ^ 4) with 16.
    rewrite hex_val_hexdig by (apply Z.mod_pos_bound; lia). cbn [mbind option_bind]. rewrite IH.
    f_equal. rewrite Nat2Z.inj_succ, Z.pow_succ_r by lia.
    rewrite (Z.mul_comm 16 (16 ^ Z.of_nat k)), Z.rem_mul_r by (try apply Z.pow_nonzero; lia).
    ring.
Qed.

Lemma hex_digits_length n c : length (hex_digits n c) = n.
Proof. induction n; cbn; auto. Qed.

Lemma hex_cons_digits n c bound o :
  0 <= c < 16 ^ Z.of_nat n -> c <= bound -> hex_cons (hex_digits n c) bound o = cons c <$> o.
Proof.
  intros Hc Hb. unfold hex_cons. rewrite hex_value_digits by lia.
  rewrite Z.mod_small by lia. cbn. rewrite Z.mul_0_l, Z.add_0_l.
  by rewrite (proj2 (Z.leb_le _ _) Hb).
Qed.

(** Read the [n] digits of a hexadecimal escape as the pattern of the parser. *)
Ltac open_hex n c :=
  let ds := fresh "ds" in let Hds := fresh "Hds" in let Hl := fresh "Hl" in
  remember (hex_digits n c) as ds eqn:Hds;
  pose proof (hex_digits_length n c) as Hl; rewrite <- Hds in Hl;
  repeat (destruct ds as [|? ds]; [discriminate Hl|]); destruct ds; [|discriminate Hl];
  cbn -[hex_cons]; rewrite Hds.

(** Rewrite the equality tests of the goal that [lia] decides. *)
Ltac rewrite_tests :=
  repeat match goal with
  | |- context [?a =? ?b] =>
    first [rewrite (proj2 (Z.eqb_neq a b)) by lia | rewrite (proj2 (Z.eqb_eq a b)) by lia]
  end.

Lemma unrepr_body_char q c r :
  (q = 39 \/ q = 34) -> 0 <= c <= 0x10FFFF ->
  unrepr_body q (repr_char q c ++ r) = cons c <$> unrepr_body q r.
Proof.
  intros Hq Hc. unfold repr_char.
  repeat (case_first; bool_to_prop); try subst c.
  all: destruct Hq as [-> | ->]; cbn -[hex_digits hex_cons]; rewrite_tests; cbn -[hex_digits hex_cons];
    first [reflexivity | open_hex 2%nat c | open_hex 4%nat c | open_hex 8%nat c];
    rewrite hex_cons_digits by (cbn; lia); reflexivity.
Qed.

Lemma unrepr_body_chars q s :
  (q = 39 \/ q = 34) -> Forall (fun c => 0 <= c <= 0x10FFFF) s ->
  unrepr_body q (mjoin (map (repr_char q) s) ++ [q]) = Some s.
Proof.
  intros Hq. induction 1 as [|c s Hc _ IH].
  - destruct Hq as [-> | ->]; reflexivity.
  - change (mjoin (map (repr_char q) (c :: s))) with (repr_char q c ++ mjoin (map (repr_char q) s)).
    rewrite <- app_assoc, unrepr_body_char, IH by done. reflexivity.
Qed.

(** C27: [repr] of a [str] is a Python string literal of it: reading the
    literal back ([unrepr], the syntax of Python's string literals) gives
    the string, for every string of code points, whatever the Unicode
    database calls printable. *)
Theorem repr_str_roundtrip s :
  Forall (fun c => 0 <= c <= 0x10FFFF) s -> unrepr (repr_str s) = Some s.
Proof.
  intros Hs. unfold repr_str, repr_quote, unrepr.
  destruct (_ && _); cbn -[unrepr_body]; apply unrepr_body_chars; auto.
Qed.

Lemma hex_digits_printable n c : Forall printable (hex_digits n c).
Proof.
  induction n as [|k IH]; constructor; [|done].
  apply hexdig_printable. change 15 with (Z.ones 4). rewrite Z.land_ones by lia.
  apply Z.mod_pos_bound. lia.
Qed.

Lemma printable_repr_printable s : Forall printable s -> Forall repr_printable s.
Proof. apply Forall_impl. by left. Qed.

Lemma repr_char_printable q c : printable q -> Forall repr_printable (repr_char q c).
Proof.
  intros Hq. unfold repr_char. repeat (case_first; bool_to_prop); try subst c.
  all: repeat match goal with
    | |- Forall _ (hex_digits _ _) => apply printable_repr_printable, hex_digits_printable
    | |- Forall _ (_ :: _) => apply Forall_cons_2
    | |- Forall _ [] => apply Forall_nil_2
    end.
  all: try (left; unfold printable in *; lia); try (right; split; [lia | done]).
Qed.


Lemma repr_chars_printable q s : printable q -> Forall repr_printable (mjoin (map (repr_char q) s)).
Proof.
  intros Hq. induction s as [|c s IH]; [constructor|].
  change (mjoin (map (repr_char q) (c :: s))) with (repr_char q c ++ mjoin (map (repr_char q) s)).
  apply Forall_app_2; [by apply repr_char_printable | done].
Qed.

Lemma repr_str_printable s : Forall repr_printable (repr_str s).
Proof.
  unfold repr_str. assert (Hq : printable (repr_quote s)) by (unfold repr_quote, printable; case_first; lia).
  constructor; [by left|]. apply Forall_app_2; [by apply repr_chars_printable|]. constructor; [by left | done].
Qed.

Lemma py_printable (s : String.string) :
  forallb (fun c => (32 <=? c) && (c <=? 126)) (py s) = true -> Forall printable (py s).
Proof.
  intros Hs. apply forallb_Forall_iff in Hs. revert Hs. apply Forall_impl.
  intros c Hc. bool_to_prop. unfold printable. lia.
Qed.

Lemma enclosed_printable o c x :
  printable o -> printable c -> Forall repr_printable x -> Forall repr_printable (o :: x ++ [c]).
Proof. intros Ho Hc Hx. constructor; [by left|]. apply Forall_app_2; [done|]. constructor; [by left | done]. Qed.

Lemma separator_printable : Forall repr_printable item_separator /\ Forall repr_printable key_separator.
Proof. split; apply printable_repr_printable; repeat constructor; unfold printable; lia. Qed.

(** An f-string field prints [str()] of its value: the pieces [fmt]
    builds agree with [py_str]. *)
Lemma fmt_text v : piece_text (fmt v) = py_str v.
Proof. by destruct v as [| [] | | | | |]. Qed.

(** C26: [str()] of a list or a dict, as the generic error message
    prints it, holds no control character and no line break: every code
    point is printable ASCII or a non-ASCII character the Unicode
    database calls printable (given that [repr] of a finite float is
    printable ASCII). *)
Theorem py_repr_printable v :
  (forall t, Forall printable (float_literal_repr t)) -> Forall repr_printable (py_repr v).
Proof.
  intros Hf. induction v as [| [] | z | fl | s | l IH | d IH] using json_ind'; cbn [py_repr];
    try (apply printable_repr_printable, py_printable; reflexivity).
  - apply printable_repr_printable, str_of_Z_printable.
  - apply printable_repr_printable. unfold float_repr.
    repeat case_first; auto; apply py_printable; reflexivity.
  - apply repr_str_printable.
  - apply enclosed_printable; [unfold printable; lia ..|].
    apply join_with_Forall; [apply separator_printable|].
    apply Forall_fmap. by rewrite Forall_forall in IH |- *.
  - apply enclosed_printable; [unfold printable; lia ..|].
    apply join_with_Forall; [apply separator_printable|].
    apply Forall_fmap. rewrite Forall_forall in IH |- *. intros [k x] Hkx. unfold compose. cbn [fst snd].
    apply Forall_app_2; [apply repr_str_printable | apply Forall_app_2; [apply separator_printable | apply (IH (k, x) Hkx)]].
Qed.

End ReprProps.

(** ** Witnesses *)

Lemma py_repr_printable_witness :
  (forall t, Forall printable (@float_literal_repr ascii_runtime t)) /\
  Forall (@repr_printable ascii_runtime)
    (@py_repr ascii_runtime (JList [JStr [97; 39; 98]; JStr [10; 233]; JDict [([107], JFloat lit_nan)]])).
Proof.
  assert (Hf : forall t, Forall printable (@float_literal_repr ascii_runtime t))
    by (intros t; apply py_printable; reflexivity).
  split; [exact Hf | exact (@py_repr_printable ascii_runtime _ Hf)].
Defined.

Lemma repr_str_roundtrip_witness :
  Forall (fun c => 0 <= c <= 0x10FFFF) [39; 34; 92; 10; 7; 233; 128512] /\
  unrepr (@repr_str ascii_runtime [39; 34; 92; 10; 7; 233; 128512]) = Some [39; 34; 92; 10; 7; 233; 128512].
Proof.
  assert (Hs : Forall (fun c => 0 <= c <= 0x10FFFF) [39; 34; 92; 10; 7; 233; 128512])
    by (repeat constructor; lia).
  split; [exact Hs | exact (@repr_str_roundtrip ascii_runtime _ Hs)].
Defined.

End Repr.
