(* ===== verification/ProvisionerProps.v ===== *)
(** Properties of the script: what a run of [entry] prints, which
    commands it starts, in which order, and with which exit status, for
    every answer of the operating system; the request bodies as the
    server decodes them; the abstract workflow of the specification and
    the refinement of it by the script; and the behaviours the
    specification does not cover. *)

From S2P Require Import Prelude PyStr Json JsonDepth Proc Provisioner Repr.
#[local] Open Scope Z_scope.

Module ProvisionerProps.
Import Str Json JsonDepth Proc Provisioner Repr.

(** ** The workflow of the specification *)

(** Section 4 of the specification, abstractly: the steps that call an
    external tool, the error taxonomy of section 7, the answers of the
    environment at that level, and what the workflow does with them. *)
Module Workflow.

Inductive step := CapabilityCheck | RepositoryCreation | RemoteLinkage | PrimaryPush
                | SecondaryPush | TopicTagging.

Inductive failure := ToolMissing | MissingInput | InvalidCredentials | RepositoryExists
                   | ApiError (message : pystr) | PushFailure.

(** [user] and [secret] are the credentials after trimming; [api_message]
    is the message of a refused creation. *)
Record answers := {
  tool_present : bool; user : pystr; secret : pystr;
  created : bool; api_message : pystr; pushed : bool }.

(** Classification of a refused creation by its message (step 3). *)
Definition classify (m : pystr) : failure :=
  if bool_decide (m = py "Bad credentials") then InvalidCredentials
  else if str_contains (py "already exists") m then RepositoryExists
  else ApiError m.

Definition workflow (a : answers) : list step * option failure :=
  if negb (tool_present a) then ([CapabilityCheck], Some ToolMissing)
  else if bool_decide (user a = []) || bool_decide (secret a = []) then
    ([CapabilityCheck], Some MissingInput)
  else if negb (created a) then
    ([CapabilityCheck; RepositoryCreation], Some (classify (api_message a)))
  else if negb (pushed a) then
    ([CapabilityCheck; RepositoryCreation; RemoteLinkage; PrimaryPush], Some PushFailure)
  else
    ([CapabilityCheck; RepositoryCreation; RemoteLinkage; PrimaryPush; SecondaryPush; TopicTagging],
     None).

(** Section 6: 0 on full success, 1 on a fatal failure. *)
Definition exit_code (f : option failure) : Z := match f with Some _ => 1 | None => 0 end.

End Workflow.
Import Workflow.

(** An interpreter with 100 nested calls left, for the witnesses. *)
Definition witness_interpreter : Interpreter := {| recursion_headroom := 100 |}.

Section Props.
Context `{Interpreter}.

(** ** Observations of a run *)

(** The lines printed and the commands started, in order. *)
Definition outputs (t : list event) : list line :=
  omap (fun ev => match ev with EvOut l => Some l | _ => None end) t.
Definition commands (t : list event) : list (list pystr) :=
  omap (fun ev => match ev with EvRun argv => Some argv | _ => None end) t.

(** A run of the script: the working directory exists, [ins] are the
    lines of standard input and [rs] the results of the commands. *)
Definition script (ins : list input_result) (rs : list run_result) : sworld :=
  {| stdin := ins; runs := rs; dirs := [true] |}.
Definition run (s : sworld) : list event * outcome unit := (exec entry s).1.

(** The exit status of the process in a world. *)
Definition status `{World W} (w : W) : Z := exit_status (exec entry w).1.2.

(** The body of a [curl] request: the argument after [-d], the last one. *)
Definition request_body (argv : list pystr) : option pystr := list.last argv.

(** The commands of a complete run, in the order of the source. *)
Definition canonical (username token : pystr) : list (list pystr) :=
  [curl_version_cmd; create_repo_cmd username token; remote_add_cmd username;
   push_main_cmd; push_pages_cmd; topics_cmd username token].

(** The part of [main] after the instructions. *)
Definition after_instructions : prog unit :=
  '(username, token) ← read_credentials;
  create_repo username token ;;
  push username token ;;
  add_topics username token ;;
  summary username.

(** The events of a program that only prints. *)
Definition printed (p : prog unit) : list event :=
  (exec p {| stdin := []; runs := []; dirs := [] |}).1.1.

(** What a run shows before the first prompt when [curl] is present. *)
Definition prefix_events : list event :=
  [EvChdir (py "/home/david/review-analysis-saas")] ++ printed banner ++
  [EvRun curl_version_cmd] ++ printed instructions.

(** The run up to the creation request, with the answers that let it
    get there; [cr] is the result of the [POST]. *)
Definition until_create (u t : pystr) (ins : list input_result) (vo ve : pystr)
    (cr : run_result) (rs : list run_result) : sworld :=
  script (Line u :: Line t :: ins) (Completed 0 vo ve :: cr :: rs).



(** The command the script starts for a step. *)
Definition command_of (username token : pystr) (s : step) : list pystr :=
  match s with
  | CapabilityCheck => curl_version_cmd
  | RepositoryCreation => create_repo_cmd username token
  | RemoteLinkage => remote_add_cmd username
  | PrimaryPush => push_main_cmd
  | SecondaryPush => push_pages_cmd
  | TopicTagging => topics_cmd username token
  end.

(** The last line the script prints for the outcome of the workflow:
    the diagnostic of each failure, the recovery command of a failed
    push, and the closing line of the summary. *)
Definition diagnostic (a : answers) : line :=
  match (workflow a).2 with
  | Some ToolMissing => txt (py "❌ Error: curl is required but not installed")
  | Some MissingInput =>
    if bool_decide (user a = []) then txt (py "❌ Username is required!")
    else txt (py "❌ Token is required!")
  | Some InvalidCredentials => txt (py "❌ Invalid token! Please check your Personal Access Token.")
  | Some RepositoryExists =>
    txt (py "❌ Repository " ++ user a ++ py "/" ++ repo_name ++ py " already exists!")
  | Some (ApiError m) => [PText (py "❌ Error: "); PText m]
  | Some PushFailure => txt (py "git push -u origin main")
  | None => txt (py "✨ Your Review Insights platform is ready to share!")
  end.

(** A command that ran to completion, whatever its status. *)
Definition ran (r : run_result) : Prop := exists rc o e, r = Completed rc o e.

(** A scripted world that gives the abstract answers [a]: the tool runs
    exactly when it is present; a creation is refused with a JSON object
    carrying a string message; [git] and [curl] are found for the later
    steps; the push of [main] succeeds exactly when [pushed]. *)
Definition realizes (a : answers) (s : sworld) : Prop :=
  dirs s = [true] /\
  exists u t ins c cr ra pm g tp rs,
    stdin s = Line u :: Line t :: ins /\ strip u = user a /\ strip t = secret a /\
    runs s = c :: cr :: ra :: pm :: g :: tp :: rs /\
    (tool_present a = true <-> exists vo ve, c = Completed 0 vo ve) /\
    (exists rc o e, cr = Completed rc o e /\ create_failed {| returncode := rc; out := o; err := e |} = negb (created a) /\
       (created a = false -> exists d, decode recursion_headroom o = Decoded (JDict d) /\
          dict_get d (py "message") = Some (JStr (api_message a)))) /\
    ran ra /\ ran g /\ ran tp /\
    (exists rc o e, pm = Completed rc o e /\ (pushed a = true <-> rc = 0)).

(** ** The error report only prints, then raises *)

Lemma json_loads_quiet s : quiet (json_loads s).
Proof. unfold json_loads. destruct (decode _ s); constructor. Qed.

Lemma py_get_quiet v k d : quiet (py_get v k d).
Proof. destruct v; constructor. Qed.

Lemma py_in_quiet s v : quiet (py_in s v).
Proof. destruct v; constructor. Qed.

Lemma print_quiet l : quiet (print l).
Proof. repeat constructor. Qed.

#[local] Hint Resolve json_loads_quiet py_get_quiet py_in_quiet print_quiet : pyrt.

Lemma report_error_aborts username stdout : aborts (report_error username stdout).
Proof.
  unfold report_error. apply aborts_bind; [auto with pyrt | intros r].
  apply aborts_bind; [auto with pyrt | intros m].
  apply aborts_bind; [| intros _; constructor].
  destruct (py_eq_str m _); [auto with pyrt|].
  apply quiet_bind; [auto with pyrt | intros m'].
  apply quiet_bind; [auto with pyrt | intros []]; eauto with pyrt.
Qed.

Lemma commands_out t : Forall is_out t -> commands t = [].
Proof. induction 1 as [|[] t Hx _ IH]; done. Qed.

Lemma blank_decide u : blank u -> bool_decide (strip u = []) = true.
Proof. intros Hu. apply bool_decide_eq_true_2, strip_nil_iff, Hu. Qed.

Lemma not_blank_decide u : ~ blank u -> bool_decide (strip u = []) = false.
Proof. intros Hu. apply bool_decide_eq_false_2. by rewrite strip_nil_iff. Qed.

(** ** The beginning of a run *)

Lemma main_unfold : main = (banner ;; check_curl ;; instructions ;; after_instructions).
Proof. reflexivity. Qed.

Lemma exec_banner (w : sworld) : exec banner w = (printed banner, Normal tt, w).
Proof. reflexivity. Qed.

Lemma exec_instructions (w : sworld) : exec instructions w = (printed instructions, Normal tt, w).
Proof. reflexivity. Qed.

Lemma exec_check_curl_ok ins vo ve rs ds :
  exec check_curl {| stdin := ins; runs := Completed 0 vo ve :: rs; dirs := ds |} =
  ([EvRun curl_version_cmd], Normal tt, {| stdin := ins; runs := rs; dirs := ds |}).
Proof. reflexivity. Qed.

(** A run where [curl] is present continues with [after_instructions]
    behind a fixed prefix. *)
Lemma run_prefix ins vo ve rs :
  run (script ins (Completed 0 vo ve :: rs)) =
  let '(t, o, _) := exec after_instructions {| stdin := ins; runs := rs; dirs := [] |} in
  (prefix_events ++ t, o).
Proof.
  unfold run, entry. rewrite main_unfold.
  rewrite (exec_bind_normal _ _ _ [EvChdir (py "/home/david/review-analysis-saas")] tt
             {| stdin := ins; runs := Completed 0 vo ve :: rs; dirs := [] |}) by reflexivity.
  rewrite (exec_bind_normal _ _ _ _ _ _ (exec_banner _)).
  rewrite (exec_bind_normal _ _ _ _ _ _ (exec_check_curl_ok _ _ _ _ _)).
  rewrite (exec_bind_normal _ _ _ _ _ _ (exec_instructions _)).
  destruct (exec after_instructions _) as [[t o] w]. reflexivity.
Qed.

(** ** Symbolic execution *)

(** Rewrite with the facts of the context that fix a test of the script. *)
(** Two non-blank answers pass both checks of [read_credentials]. *)
Lemma exec_read_credentials u t ins rs ds :
  ~ blank u -> ~ blank t ->
  exec read_credentials {| stdin := Line u :: Line t :: ins; runs := rs; dirs := ds |} =
  ([EvPrompt (py "GitHub username: "); EvPrompt (py "GitHub Personal Access Token: ")],
   Normal (strip u, strip t), {| stdin := ins; runs := rs; dirs := ds |}).
Proof.
  intros Hu%not_blank_decide Ht%not_blank_decide.
  unfold read_credentials, input, print. cbn -[strip py]. rewrite Hu. cbn -[strip py]. by rewrite ?Ht.
Qed.

(** A command the rest of the run must start is among the commands of
    the run, behind the prefix. *)
Lemma commands_eventually c t : Exists (fun ev => ev = EvRun c) t -> c ∈ commands t.
Proof.
  induction 1 as [ev t ->|ev t _ IH]; cbn; [by left|].
  destruct ev; by try right.
Qed.

Ltac use_facts :=
  repeat match goal with
  | H : _ = true |- _ => rewrite H
  | H : _ = false |- _ => rewrite H
  | H : _ = None |- _ => rewrite H
  | H : _ = Some _ |- _ => rewrite H
  | H : _ = Decoded _ |- _ => rewrite H
  | H : _ = DecodeError |- _ => rewrite H
  | H : _ = RecursionLimit |- _ => rewrite H
  end.

(** One pass of the interpreter; the literals, the string functions and
    the request bodies stay folded. *)
Ltac sym_step :=
  cbn -[py strip str_repeat dumps str_contains loads decode bool_decide
        create_repo_cmd topics_cmd remote_add_cmd repo_url report_error create_failed].

(** Run the interpreter as far as the facts of the context decide the
    script's tests. *)
Ltac sym := sym_step; repeat (progress use_facts; sym_step).

(** ** The properties of the specification (section 8) *)

(** C3: a blank user name or token (empty after [strip]) ends the run
    with status 1 before any network call: the only command started is
    [curl --version]. *)
Theorem missing_input_no_network u t ins vo ve rs :
  blank u \/ blank t ->
  let r := run (script (Line u :: Line t :: ins) (Completed 0 vo ve :: rs)) in
  commands r.1 = [curl_version_cmd] /\ exit_status r.2 = 1.
Proof.
  intros Hb. destruct (bool_decide (strip u = [])) eqn:Hu.
  - rewrite run_prefix. unfold after_instructions. sym. done.
  - destruct Hb as [Hb|Hb]; [apply blank_decide in Hb; congruence|].
    apply blank_decide in Hb. rewrite run_prefix. unfold after_instructions. sym. done.
Qed.

(** C4: a creation response whose [message] is ["Bad credentials"] ends
    the run with the invalid-token message and status 1, after the
    creation request and no other network call. *)
Theorem bad_credentials u t ins vo ve rc out err rs d :
  ~ blank u -> ~ blank t ->
  create_failed {| returncode := rc; out := out; err := err |} = true ->
  decode recursion_headroom out = Decoded (JDict d) ->
  dict_get d (py "message") = Some (JStr (py "Bad credentials")) ->
  let r := run (until_create u t ins vo ve (Completed rc out err) rs) in
  list.last (outputs r.1) = Some (txt (py "❌ Invalid token! Please check your Personal Access Token.")) /\
  commands r.1 = [curl_version_cmd; create_repo_cmd (strip u) (strip t)] /\ exit_status r.2 = 1.
Proof.
  intros Hu%not_blank_decide Ht%not_blank_decide Hc Hl Hm.
  unfold until_create. rewrite run_prefix. unfold after_instructions. sym. unfold report_error, json_loads. sym.
  rewrite bool_decide_eq_true_2 by done. sym. done.
Qed.

(** C5: a creation response whose [message] contains ["already exists"]
    (and is not ["Bad credentials"]) ends the run with the
    already-exists message naming the repository, and status 1. *)
Theorem already_exists u t ins vo ve rc out err rs d m :
  ~ blank u -> ~ blank t ->
  create_failed {| returncode := rc; out := out; err := err |} = true ->
  decode recursion_headroom out = Decoded (JDict d) -> dict_get d (py "message") = Some (JStr m) ->
  str_contains (py "already exists") m = true ->
  let r := run (until_create u t ins vo ve (Completed rc out err) rs) in
  list.last (outputs r.1) =
    Some (txt (py "❌ Repository " ++ strip u ++ py "/" ++ repo_name ++ py " already exists!")) /\
  commands r.1 = [curl_version_cmd; create_repo_cmd (strip u) (strip t)] /\ exit_status r.2 = 1.
Proof.
  intros Hu%not_blank_decide Ht%not_blank_decide Hc Hl Hm Ha.
  assert (Hb : bool_decide (m = py "Bad credentials") = false).
  { apply bool_decide_eq_false_2. intros ->. vm_compute in Ha. discriminate. }
  unfold until_create. rewrite run_prefix. unfold after_instructions. sym. unfold report_error, json_loads. sym. done.
Qed.

(** C13: a failed creation whose response carries any other string
    [message] ends the run with ["❌ Error: "] and the message, and
    status 1. *)
Theorem api_error_message u t ins vo ve rc out err rs d m :
  ~ blank u -> ~ blank t ->
  create_failed {| returncode := rc; out := out; err := err |} = true ->
  decode recursion_headroom out = Decoded (JDict d) -> dict_get d (py "message") = Some (JStr m) ->
  m <> py "Bad credentials" -> str_contains (py "already exists") m = false ->
  let r := run (until_create u t ins vo ve (Completed rc out err) rs) in
  list.last (outputs r.1) = Some [PText (py "❌ Error: "); PText m] /\
  commands r.1 = [curl_version_cmd; create_repo_cmd (strip u) (strip t)] /\ exit_status r.2 = 1.
Proof.
  intros Hu%not_blank_decide Ht%not_blank_decide Hc Hl Hm Hb Ha.
  apply (bool_decide_eq_false_2 (m = _)) in Hb.
  unfold until_create. rewrite run_prefix. unfold after_instructions. sym. unfold report_error, json_loads. sym. done.
Qed.

(** C14: a failed creation whose response is a JSON object without
    [message] ends the run with ["❌ Error: Unknown error"] and status 1. *)
Theorem api_error_unknown u t ins vo ve rc out err rs d :
  ~ blank u -> ~ blank t ->
  create_failed {| returncode := rc; out := out; err := err |} = true ->
  decode recursion_headroom out = Decoded (JDict d) -> dict_get d (py "message") = None ->
  let r := run (until_create u t ins vo ve (Completed rc out err) rs) in
  list.last (outputs r.1) = Some [PText (py "❌ Error: "); PText (py "Unknown error")] /\
  commands r.1 = [curl_version_cmd; create_repo_cmd (strip u) (strip t)] /\ exit_status r.2 = 1.
Proof.
  intros Hu%not_blank_decide Ht%not_blank_decide Hc Hl Hm.
  unfold until_create. rewrite run_prefix. unfold after_instructions. sym. unfold report_error, json_loads. sym. done.
Qed.

(** C6: a successful creation and a successful push of [main] end the
    run with status 0, after the six commands of the workflow in the
    order of the source, whatever the remote add, the push of
    [gh-pages] and the topics request return; the summary shows the
    repository and the pages URLs of the user name, and ends the output. *)
Theorem success_summary u t ins vo ve rc out err rr ro re po pe gc go ge tc to te rs :
  ~ blank u -> ~ blank t ->
  create_failed {| returncode := rc; out := out; err := err |} = false ->
  let r := run (script (Line u :: Line t :: ins)
                  (Completed 0 vo ve :: Completed rc out err :: Completed rr ro re ::
                   Completed 0 po pe :: Completed gc go ge :: Completed tc to te :: rs)) in
  exit_status r.2 = 0 /\ commands r.1 = canonical (strip u) (strip t) /\
  txt (py "📁 Repository: https://github.com/" ++ strip u ++ py "/" ++ repo_name) ∈ outputs r.1 /\
  txt (py "📄 Deploy Page: https://" ++ strip u ++ py ".github.io/" ++ repo_name ++ py "/") ∈ outputs r.1 /\
  list.last (outputs r.1) = Some (txt (py "✨ Your Review Insights platform is ready to share!")).
Proof.
  intros Hu%not_blank_decide Ht%not_blank_decide Hc.
  rewrite run_prefix. unfold after_instructions. sym.
  split; [done|]. split; [done|].
  split; [apply (list_elem_of_lookup_2 _ 27) | split; [apply (list_elem_of_lookup_2 _ 28)|]]; reflexivity.
Qed.

(** C7: a failed push of [main] prints the error output of [git] and
    the recovery command with the user name, the token and the
    repository name in the URL, and ends the run with status 1; the
    topics request is never sent. *)
Theorem push_failure_recovery u t ins vo ve rc out err rr ro re pc po pe rs :
  ~ blank u -> ~ blank t ->
  create_failed {| returncode := rc; out := out; err := err |} = false -> pc <> 0 ->
  let r := run (script (Line u :: Line t :: ins)
                  (Completed 0 vo ve :: Completed rc out err :: Completed rr ro re ::
                   Completed pc po pe :: rs)) in
  txt (py "❌ Push failed: " ++ pe) ∈ outputs r.1 /\
  txt (py "git remote set-url origin https://" ++ strip u ++ py ":" ++ strip t ++
       py "@github.com/" ++ strip u ++ py "/" ++ repo_name ++ py ".git") ∈ outputs r.1 /\
  commands r.1 = [curl_version_cmd; create_repo_cmd (strip u) (strip t);
                  remote_add_cmd (strip u); push_main_cmd] /\
  exit_status r.2 = 1.
Proof.
  intros Hu%not_blank_decide Ht%not_blank_decide Hc Hp%Z.eqb_neq.
  rewrite run_prefix. unfold after_instructions. sym.
  split; [apply (list_elem_of_lookup_2 _ 18); reflexivity|].
  split; [apply (list_elem_of_lookup_2 _ 20); reflexivity|]. done.
Qed.

(** ** Runs observed through their commands and outcome *)

Lemma commands_unprinted t : commands (unprinted t) = commands t.
Proof. unfold commands, unprinted. induction t as [|[] t IH]; cbn; congruence. Qed.

Lemma run_silent s :
  commands (run s).1 = commands (exec (silent entry) s).1.1 /\ (run s).2 = (exec (silent entry) s).1.2.
Proof. unfold run. rewrite exec_silent. destruct (exec entry s) as [[t o] w]. cbn. by rewrite commands_unprinted. Qed.

(** Close the error report of a failed creation: it prints and raises. *)
Ltac aborts_chain := first [apply report_error_aborts | apply aborts_bind_l; aborts_chain].

Ltac report_aborts :=
  match goal with
  | |- context [exec (silent ?p) ?w] =>
    let t := fresh "t" in let Ht := fresh "Ht" in
    destruct (exec_aborts (silent p) w) as (t & ? & -> & Ht);
      [apply aborts_silent; aborts_chain|];
    apply commands_out in Ht; unfold commands in Ht; sym_step; rewrite ?Ht
  end.

(** Case on a test of the script the interpreter is stuck on. *)
Ltac case_stuck :=
  match goal with
  | |- context [if ?b then _ else _] => destruct b eqn:?
  | |- context [match ?x with [] => _ | _ :: _ => _ end] => destruct x eqn:?
  | |- context [match ?x with NotFound => _ | Completed _ _ _ => _ | Interrupted => _ end] =>
    destruct x eqn:?
  | |- context [match ?x with None => _ | Some _ => _ end] => destruct x eqn:?
  | |- context [match ?x with Decoded _ => _ | DecodeError => _ | RecursionLimit => _ end] =>
    destruct x eqn:?
  | |- context [match ?x with Line _ => _ | EndOfInput => _ | InputInterrupted => _ end] =>
    destruct x eqn:?
  | |- context [match ?x with JNull => _ | JBool _ => _ | JInt _ => _ | JFloat _ => _
                 | JStr _ => _ | JList _ => _ | JDict _ => _ end] => destruct x eqn:?
  end.

(** Explore every branch of a run. *)
Ltac explore := repeat (sym_step; first [report_aborts | case_stuck]); sym_step.

Ltac solve_prefix := repeat apply prefix_cons; apply prefix_nil.

(** C8: the commands of any run are a prefix of the six commands of the
    workflow, in the order of the source, for the stripped user name and
    token: no command is repeated or reordered, whatever the operating
    system answers. *)
Theorem commands_in_order u t ins rs :
  commands (run (script (Line u :: Line t :: ins) rs)).1 `prefix_of` canonical (strip u) (strip t).
Proof.
  rewrite (proj1 (run_silent _)). unfold entry, main, script. explore.
  all: solve_prefix.
Qed.

(** ** Scripted worlds *)

(** Every run of the script is the run of a scripted world: whatever
    the operating system answers, the trace and the outcome of [entry]
    are those of some script of input lines, command results and
    directory checks.  The theorems over [script] worlds therefore speak
    of every run. *)
Theorem entry_scripted `{World W} (w : W) : exists s : sworld, run s = (exec entry w).1.
Proof. apply exec_scripted. Qed.

(** ** Exit statuses *)

(** Show [exits_in] of a program built from the script's statements. *)
Ltac solve_exits :=
  repeat match goal with
  | H : not_interrupted Interrupted |- _ => destruct H
  | H : typed InputInterrupted |- _ => destruct H
  | |- exits_in _ _ _ (_ ≫= _) => apply exits_bind; [|intros ?]
  | |- exits_in _ _ _ (try_except _ _) => apply exits_try; [|intros ?]
  | |- exits_in _ _ _ (Raise _) => apply exits_raise; cbn; lia
  | |- exits_in _ _ _ (Ret _) => apply exits_ret
  | |- exits_in _ _ _ (Print _ _) => apply exits_print
  | |- exits_in _ _ _ (Input _ _) => apply exits_input; intros ? ?
  | |- exits_in _ _ _ (Run _ _) => apply exits_run; intros ? ?
  | |- exits_in _ _ _ (Chdir _ _) => apply exits_chdir; intros ?
  | |- exits_in _ _ _ (match ?x with _ => _ end) => destruct x
  | |- exits_in _ _ _ (if ?b then _ else _) => destruct b
  end.

Ltac unfold_script :=
  unfold entry, main, banner, check_curl, instructions, read_credentials, create_repo,
    report_error, push, add_topics, summary, print, input, subprocess_run, sys_exit,
    os_chdir, json_loads, py_get, py_in.

Lemma entry_exits_any : exits_in (fun z => z = 0 \/ z = 1 \/ z = 130) (fun _ => True) (fun _ => True) entry.
Proof. unfold_script. solve_exits. Qed.

Lemma entry_exits_uninterrupted : exits_in (fun z => z = 0 \/ z = 1) typed not_interrupted entry.
Proof. unfold_script. solve_exits. Qed.

(** C11: when no prompt and no command is interrupted, the process ends
    with status 0 or 1: every [sys.exit] of the script uses 1 and every
    other uncaught exception gives 1. *)
Theorem exit_status_01 (s : sworld) :
  Forall typed (stdin s) -> Forall not_interrupted (runs s) -> status s = 0 \/ status s = 1.
Proof.
  intros Hi Hr. unfold status.
  apply (exec_exits_in (fun w => Forall typed (stdin w) /\ Forall not_interrupted (runs w))
           typed not_interrupted (fun z => z = 0 \/ z = 1)); try done.
  - intros w a [Hi' Hr']. destruct (sworld_not_interrupted w a Hr') as [H1 H2].
    split_and!; [done|by destruct w as [? [|??] ?]|done].
  - intros w [Hi' Hr']. destruct (sworld_typed w Hi') as [H1 H2].
    split_and!; [done|done|by destruct w as [[|??] ??]].
  - intros [?? [|??]] ??; done.
  - by left.
  - apply entry_exits_uninterrupted.
Qed.

(** C12: in every world the process ends with status 0, 1, or 130 when a
    Ctrl-C interrupts a prompt or a command outside the [curl] check. *)
Theorem exit_status_cases `{World W} (w : W) : status w = 0 \/ status w = 1 \/ status w = 130.
Proof.
  apply (exec_exits_in (fun _ => True) (fun _ => True) (fun _ => True) (fun z => z = 0 \/ z = 1 \/ z = 130)); try done.
  - by left.
  - apply entry_exits_any.
Qed.

(** ** Refinement of the workflow of the specification *)

(** Explore the branches the facts of the context leave open, the error
    report included. *)
Ltac explore_facts :=
  repeat (sym; first [progress unfold report_error, json_loads, py_get, py_in | case_stuck]); sym.

Ltac close_refinement := explore_facts; split; reflexivity.

(** Take [realizes a s] apart into the answers of each command, run
    [prep], then split the cases of the workflow (the tool, the two
    answers, the creation and the push of [main]) and run [close] on
    each. *)
Ltac realizes_cases a s prep close :=
  destruct s as [i r d];
  intros (Hd & u & t & ins & c & cr & ra & pm & g & tp & rs & Hi & Hu & Ht & Hr & Hc & Hcr & Hra & Hg & Htp & Hpm);
  cbn in Hd, Hi, Hr; subst i r d;
  destruct a as [tool user0 secret0 created0 msg pushed0]; cbn in *; subst user0 secret0;
  prep;
  destruct tool;
  [ destruct (proj1 Hc eq_refl) as (vo & ve & ->);
    destruct (bool_decide (strip u = [])) eqn:Hbu; [close|];
    destruct (bool_decide (strip t = [])) eqn:Hbt; [close|];
    destruct Hcr as (rc & o & e & -> & Hf & Hm);
    destruct created0; cbn in Hf;
    [ destruct Hpm as (prc & po & pe & -> & Hp);
      destruct Hra as (? & ? & ? & ->), Hg as (? & ? & ? & ->), Htp as (? & ? & ? & ->);
      destruct pushed0;
      [ rewrite (proj1 Hp eq_refl)
      | assert (Hn : (prc =? 0) = false) by (apply Z.eqb_neq; intros Hz; by apply Hp in Hz) ];
      close
    | destruct (Hm eq_refl) as (dd & Hl & Hmsg); close ]
  | destruct c as [|rc vo ve|]; [close| |close];
    destruct (rc =? 0) eqn:Hrc;
    [ apply Z.eqb_eq in Hrc as ->; exfalso; assert (Hf : false = true) by (apply Hc; eauto); done
    | close ] ].

(** C1: the script refines the workflow of the specification: in a world
    that gives the abstract answers [a], the script starts the commands
    of the workflow's steps, in order, and exits with the workflow's
    exit code. *)
Theorem script_refines_workflow a s :
  realizes a s ->
  commands (run s).1 = map (command_of (user a) (secret a)) (workflow a).1 /\
  exit_status (run s).2 = exit_code (workflow a).2.
Proof.
  realizes_cases a s
    ltac:(rewrite (proj1 (run_silent _)), (proj2 (run_silent _)); unfold workflow; cbn)
    close_refinement.
Qed.

(** C2: the script refines the workflow down to what the operator reads:
    in every world that gives the abstract answers [a], the last line the
    script prints is the [diagnostic] of the workflow's outcome, piece by
    piece. *)
Theorem script_refines_diagnostics a s :
  realizes a s -> list.last (outputs (run s).1) = Some (diagnostic a).
Proof.
  realizes_cases a s ltac:(unfold diagnostic, workflow, run, entry, main; cbn -[exec py strip])
    ltac:(try unfold classify; explore_facts; reflexivity).
Qed.

(** C10: the token reaches standard output only through the recovery
    line of a failed push: two runs that differ only in the (non-blank)
    token print the same lines, for every other answer of the operating
    system, unless the push of [main] (the fourth command) fails. *)
Theorem token_not_printed u t1 t2 ins rs :
  ~ blank t1 -> ~ blank t2 ->
  (forall rc o e, rs !! 3%nat = Some (Completed rc o e) -> rc = 0) ->
  outputs (run (script (Line u :: Line t1 :: ins) rs)).1 =
  outputs (run (script (Line u :: Line t2 :: ins) rs)).1.
Proof.
  intros H1%not_blank_decide H2%not_blank_decide Hp.
  unfold run, script, entry, main. explore_facts.
  all: first [reflexivity | specialize (Hp _ _ _ eq_refl); subst; rewrite Z.eqb_refl in *; discriminate].
Qed.

(** ** The request bodies *)

Lemma forallb_scalarb_app a b :
  forallb scalarb (a ++ b) = forallb scalarb a && forallb scalarb b.
Proof. apply forallb_app. Qed.

Lemma create_payload_roundtrip u :
  forallb scalarb u = true -> loads (dumps (create_payload u)) = Some (create_payload u).
Proof.
  intros Hu. apply loads_of_dumps.
  cbn [wfb create_payload forallb fst snd andb]. rewrite !forallb_scalarb_app, Hu. reflexivity.
Qed.

(** C16: the bodies of the two requests, as the server decodes them,
    are the descriptors of the specification: the creation request
    carries the repository name, the description, the pages URL of the
    user name as homepage, a public repository with issues and projects
    and without wiki or initial commit; the topics request the seven
    topics, in order.  This holds for every user name made of Unicode
    scalar values (what [input] returns for a UTF-8 terminal). *)
Theorem request_bodies_decode u t :
  forallb scalarb u = true ->
  (exists body, request_body (create_repo_cmd u t) = Some body /\
     loads body = Some (JDict [
       (py "name", JStr (py "review-insights-platform"));
       (py "description", JStr (py "AI-powered review management platform with zero-config setup"));
       (py "homepage", JStr (py "https://" ++ u ++ py ".github.io/review-insights-platform/"));
       (py "private", JBool false); (py "has_issues", JBool true); (py "has_projects", JBool true);
       (py "has_wiki", JBool false); (py "auto_init", JBool false)])) /\
  (exists body, request_body (topics_cmd u t) = Some body /\
     loads body = Some (JDict [(py "names", JList (map (fun s => JStr (py s))
       ["ai"; "review-management"; "saas"; "typescript"; "nextjs"; "sentiment-analysis"; "zero-config"]%string))])).
Proof.
  intros Hu. split; eexists; (split; [reflexivity|]).
  - rewrite create_payload_roundtrip by done. reflexivity.
  - rewrite loads_of_dumps; reflexivity.
Qed.

(** C17: the pages URL the summary announces is the homepage the
    repository is created with: the body of the creation request decodes
    to an object whose [homepage], after ["📄 Deploy Page: "], is a line
    the summary prints. *)
Theorem homepage_is_deploy_page u t :
  forallb scalarb u = true ->
  exists body d url,
    request_body (create_repo_cmd u t) = Some body /\ loads body = Some (JDict d) /\
    dict_get d (py "homepage") = Some (JStr url) /\
    txt (py "📄 Deploy Page: " ++ url) ∈ outputs (printed (summary u)).
Proof.
  intros Hu. do 3 eexists. split; [reflexivity|]. split; [by apply create_payload_roundtrip|].
  split; [reflexivity|]. apply (list_elem_of_lookup_2 _ 5). reflexivity.
Qed.

(** ** Failures of the environment and behaviours outside the specification *)

(** C15: when [curl --version] cannot run, fails, or is interrupted by a
    Ctrl-C, the run prints that [curl] is required and exits with status
    1, before reading any input: the bare [except] of the check also
    catches [KeyboardInterrupt]. *)
Theorem tool_missing ins c rs :
  c = NotFound \/ c = Interrupted \/ (exists rc vo ve, c = Completed rc vo ve /\ rc <> 0) ->
  let r := run (script ins (c :: rs)) in
  list.last (outputs r.1) = Some (txt (py "❌ Error: curl is required but not installed")) /\
  commands r.1 = [curl_version_cmd] /\ exit_status r.2 = 1.
Proof.
  intros [-> | [-> | (rc & vo & ve & -> & Hrc%Z.eqb_neq)]]; unfold run, script, entry, main; sym; done.
Qed.

(** C35: a Ctrl-C while the creation request runs ends the process on the
    uncaught [KeyboardInterrupt] (status 130) with no diagnostic: the
    operator is not told whether the repository was created. *)
Theorem interrupt_during_create u t ins vo ve rs :
  ~ blank u -> ~ blank t ->
  let r := run (until_create u t ins vo ve Interrupted rs) in
  r.2 = Uncaught KeyboardInterrupt /\ exit_status r.2 = 130 /\
  list.last (outputs r.1) = Some (txt (nl ++ py "📡 Creating repository...")).
Proof.
  intros Hu%not_blank_decide Ht%not_blank_decide.
  unfold until_create. rewrite run_prefix. unfold after_instructions. sym. done.
Qed.

(** C28: a failed creation whose output is not JSON (the empty output of
    [curl] when the host cannot be reached, an HTML error page) is not
    classified: [json.loads] raises, no diagnostic of the script is
    printed, and the process exits with the status of the uncaught
    exception. *)
Theorem malformed_response_uncaught u t ins vo ve rc out err rs :
  ~ blank u -> ~ blank t ->
  create_failed {| returncode := rc; out := out; err := err |} = true -> decode recursion_headroom out = DecodeError ->
  let r := run (until_create u t ins vo ve (Completed rc out err) rs) in
  r.2 = Uncaught JSONDecodeError /\
  list.last (outputs r.1) = Some (txt (nl ++ py "📡 Creating repository...")).
Proof.
  intros Hu%not_blank_decide Ht%not_blank_decide Hc Hl.
  unfold until_create. rewrite run_prefix. unfold after_instructions. sym.
  unfold report_error, json_loads. sym. done.
Qed.

(** C29: a failed creation whose output nests objects or arrays deeper
    than the interpreter's headroom makes [json.loads] raise
    [RecursionError] before the message is read: no diagnostic of the
    script is printed, and the process exits with status 1. *)
Theorem deep_response_uncaught u t ins vo ve rc out err rs :
  ~ blank u -> ~ blank t ->
  create_failed {| returncode := rc; out := out; err := err |} = true ->
  decode recursion_headroom out = RecursionLimit ->
  let r := run (until_create u t ins vo ve (Completed rc out err) rs) in
  r.2 = Uncaught RecursionError /\ exit_status r.2 = 1 /\
  list.last (outputs r.1) = Some (txt (nl ++ py "📡 Creating repository...")).
Proof.
  intros Hu%not_blank_decide Ht%not_blank_decide Hc Hl.
  unfold until_create. rewrite run_prefix. unfold after_instructions. sym.
  unfold report_error, json_loads. sym. done.
Qed.

(** C30: a failed creation whose [message] is [null], a boolean or a
    number makes ['already exists' in ...] raise [TypeError]: no
    diagnostic is printed. *)
Theorem scalar_message_uncaught u t ins vo ve rc out err rs d m :
  ~ blank u -> ~ blank t ->
  create_failed {| returncode := rc; out := out; err := err |} = true ->
  decode recursion_headroom out = Decoded (JDict d) -> dict_get d (py "message") = Some m ->
  match m with JNull | JBool _ | JInt _ | JFloat _ => True | _ => False end ->
  let r := run (until_create u t ins vo ve (Completed rc out err) rs) in
  r.2 = Uncaught TypeError /\
  list.last (outputs r.1) = Some (txt (nl ++ py "📡 Creating repository...")).
Proof.
  intros Hu%not_blank_decide Ht%not_blank_decide Hc Hl Hm Hs.
  unfold until_create. rewrite run_prefix. unfold after_instructions. sym.
  unfold report_error, json_loads. sym. destruct m; try contradiction; sym; done.
Qed.

(** [s in l] of a list is a test of equality with its elements. *)
Lemma existsb_py_eq_str s l : existsb (fun e => py_eq_str e s) l = true <-> JStr s ∈ l.
Proof.
  rewrite existsb_exists, list_elem_of_In. split.
  - intros (e & He & Hs). destruct e; try discriminate. apply bool_decide_eq_true in Hs. by subst.
  - intros Hs. exists (JStr s). split; [done|]. by apply bool_decide_eq_true.
Qed.

(** Close the two cases of the message text once the membership test of
    the message is decided. *)
Ltac close_message_text :=
  split_and!; try done; intros Hf; cbn; rewrite ?app_nil_r; try done; exfalso; auto.

(** C22: a failed creation whose [message] is a list or a dict ends the
    run with status 1, and the last line is the already-exists message
    when ['already exists'] is an element of the list or a key of the
    dict, and otherwise ["❌ Error: "] followed by the [repr] of the
    message: [in] tests elements and keys, not substrings of them. *)
Theorem container_message_text `{ReprData} u t ins vo ve rc out err rs d m :
  ~ blank u -> ~ blank t ->
  create_failed {| returncode := rc; out := out; err := err |} = true ->
  decode recursion_headroom out = Decoded (JDict d) -> dict_get d (py "message") = Some m ->
  match m with JList _ | JDict _ => True | _ => False end ->
  let found := match m with
               | JList l => JStr (py "already exists") ∈ l
               | JDict kv => py "already exists" ∈ kv.*1
               | _ => False end in
  let r := run (until_create u t ins vo ve (Completed rc out err) rs) in
  (found -> option_map line_text (list.last (outputs r.1)) =
              Some (py "❌ Repository " ++ strip u ++ py "/" ++ repo_name ++ py " already exists!")) /\
  (~ found -> option_map line_text (list.last (outputs r.1)) = Some (py "❌ Error: " ++ py_repr m)) /\
  exit_status r.2 = 1.
Proof.
  intros Hu%not_blank_decide Ht%not_blank_decide Hc Hl Hm Hk found.
  unfold until_create. rewrite run_prefix. unfold after_instructions. sym. unfold report_error, json_loads. sym.
  destruct m as [| | | | |l|kv]; try contradiction; subst found; sym.
  - destruct (existsb _ l) eqn:E; [apply existsb_py_eq_str in E | rewrite <- not_true_iff_false, existsb_py_eq_str in E];
      sym; close_message_text.
  - destruct (bool_decide (_ ∈ kv.*1)) eqn:E; [apply bool_decide_eq_true in E | apply bool_decide_eq_false in E];
      sym; close_message_text.
Qed.

(** C31: a failed creation whose output is JSON but not an object makes
    [response.get] raise [AttributeError]: no diagnostic is printed. *)
Theorem non_object_response_uncaught u t ins vo ve rc out err rs v :
  ~ blank u -> ~ blank t ->
  create_failed {| returncode := rc; out := out; err := err |} = true ->
  decode recursion_headroom out = Decoded v -> (forall d, v <> JDict d) ->
  let r := run (until_create u t ins vo ve (Completed rc out err) rs) in
  r.2 = Uncaught AttributeError /\
  list.last (outputs r.1) = Some (txt (nl ++ py "📡 Creating repository...")).
Proof.
  intros Hu%not_blank_decide Ht%not_blank_decide Hc Hl Hv.
  unfold until_create. rewrite run_prefix. unfold after_instructions. sym.
  unfold report_error, json_loads. sym.
  destruct v; try (exfalso; by eapply Hv); sym; done.
Qed.

(** C32: the remote add is not best-effort when [git] is missing:
    [subprocess.run] raises [FileNotFoundError], the push is never
    attempted, and the process exits with status 1. *)
Theorem remote_add_missing_git u t ins vo ve rc out err rs :
  ~ blank u -> ~ blank t ->
  create_failed {| returncode := rc; out := out; err := err |} = false ->
  let r := run (script (Line u :: Line t :: ins)
                  (Completed 0 vo ve :: Completed rc out err :: NotFound :: rs)) in
  r.2 = Uncaught FileNotFoundError /\
  commands r.1 = [curl_version_cmd; create_repo_cmd (strip u) (strip t); remote_add_cmd (strip u)].
Proof.
  intros Hu%not_blank_decide Ht%not_blank_decide Hc.
  rewrite run_prefix. unfold after_instructions. sym. done.
Qed.

(** C33: end of input at either prompt (standard input closed or
    exhausted) raises [EOFError] out of [input]: nothing catches it, so
    the process ends with status 1 on a traceback, no diagnostic of the
    script is printed and no network call is made. *)
Theorem eof_at_prompt u ins vo ve rs :
  ~ blank u ->
  let r1 := run (script (EndOfInput :: ins) (Completed 0 vo ve :: rs)) in
  let r2 := run (script (Line u :: EndOfInput :: ins) (Completed 0 vo ve :: rs)) in
  r1.2 = Uncaught EOFError /\ commands r1.1 = [curl_version_cmd] /\
  list.last r1.1 = Some (EvPrompt (py "GitHub username: ")) /\
  r2.2 = Uncaught EOFError /\ commands r2.1 = [curl_version_cmd] /\
  list.last r2.1 = Some (EvPrompt (py "GitHub Personal Access Token: ")) /\
  exit_status r2.2 = 1.
Proof.
  intros Hu%not_blank_decide. cbv zeta. rewrite !run_prefix. unfold after_instructions. sym. done.
Qed.

(** C36: a Ctrl-C at either prompt raises [KeyboardInterrupt] out of
    [input]: nothing catches it, so the process ends with status 130, no
    diagnostic of the script is printed and no network call is made. *)
Theorem interrupt_at_prompt u ins vo ve rs :
  ~ blank u ->
  let r1 := run (script (InputInterrupted :: ins) (Completed 0 vo ve :: rs)) in
  let r2 := run (script (Line u :: InputInterrupted :: ins) (Completed 0 vo ve :: rs)) in
  r1.2 = Uncaught KeyboardInterrupt /\ commands r1.1 = [curl_version_cmd] /\
  list.last r1.1 = Some (EvPrompt (py "GitHub username: ")) /\
  r2.2 = Uncaught KeyboardInterrupt /\ commands r2.1 = [curl_version_cmd] /\
  list.last r2.1 = Some (EvPrompt (py "GitHub Personal Access Token: ")) /\
  exit_status r2.2 = 130.
Proof.
  intros Hu%not_blank_decide. cbv zeta. rewrite !run_prefix. unfold after_instructions. sym. done.
Qed.

(** C9: progress: once [curl] is present and both answers are not
    blank, the creation request with the stripped user name and token is
    sent, whatever the remaining answers of the operating system. *)
Theorem create_request_sent u t ins vo ve rs :
  ~ blank u -> ~ blank t ->
  create_repo_cmd (strip u) (strip t) ∈
    commands (run (script (Line u :: Line t :: ins) (Completed 0 vo ve :: rs))).1.
Proof.
  intros Hu Ht. rewrite run_prefix. unfold after_instructions.
  rewrite (exec_bind_normal _ _ _ _ _ _ (exec_read_credentials u t ins rs [] Hu Ht)). cbv beta iota.
  match goal with |- context [exec ?p {| stdin := ins; runs := rs; dirs := [] |}] =>
    assert (Hev : Exists (fun ev => ev = EvRun (create_repo_cmd (strip u) (strip t)))
                    (exec p {| stdin := ins; runs := rs; dirs := [] |}).1.1);
    [|destruct (exec p _) as [[t3 o3] w3]] end.
  - apply exec_eventually, eventually_bind. unfold create_repo, print, subprocess_run. cbn.
    by do 2 apply ev_print_later; apply ev_run_now.
  - cbv beta iota delta [fst snd] in *. unfold commands. rewrite !omap_app.
    by apply elem_of_app; right; apply elem_of_app; right; apply commands_eventually.
Qed.

(** C34: in every world, the module body first changes to the fixed
    directory of line 143: when that fails, [os.chdir] raises
    [FileNotFoundError] before [main] prints anything; when it succeeds,
    the run is the run of [main] in the world that follows. *)
Theorem missing_directory `{World W} (w : W) :
  let d := py "/home/david/review-analysis-saas" in
  ((w_chdir w d).1 = false -> (exec entry w).1 = ([EvChdir d], Uncaught FileNotFoundError)) /\
  ((w_chdir w d).1 = true ->
   (exec entry w).1 = (EvChdir d :: (exec main (w_chdir w d).2).1.1, (exec main (w_chdir w d).2).1.2)).
Proof.
  cbv zeta. unfold entry, os_chdir. cbn -[main py].
  destruct (w_chdir w _) as [[|] w1]; cbn -[main py]; split; intros; try done.
  by destruct (exec main w1) as [[??]?].
Qed.

End Props.

(** ** Witnesses *)

#[local] Existing Instance witness_interpreter.

Lemma not_blank_forallb u : forallb is_space u = false -> ~ blank u.
Proof. intros H Hb. apply forallb_Forall_iff in Hb. congruence. Qed.

Lemma script_refines_workflow_witness :
  let a := {| tool_present := true; user := py "octocat"; secret := py "ghp_x";
              created := true; api_message := []; pushed := true |} in
  let s := script [Line (py " octocat "); Line (py "ghp_x")]
             [Completed 0 [] []; Completed 0 (py "{}") []; Completed 0 [] [];
              Completed 0 [] []; Completed 1 [] []; Completed 0 [] []] in
  commands (run s).1 = map (command_of (user a) (secret a)) (workflow a).1 /\
  exit_status (run s).2 = exit_code (workflow a).2.
Proof.
  apply script_refines_workflow. split; [reflexivity|].
  exists (py " octocat "), (py "ghp_x"), [], (Completed 0 [] []), (Completed 0 (py "{}") []),
    (Completed 0 [] []), (Completed 0 [] []), (Completed 1 [] []), (Completed 0 [] []), [].
  split; [reflexivity|]. split; [reflexivity|]. split; [reflexivity|]. split; [reflexivity|].
  split; [split; [eauto | reflexivity]|].
  split; [exists 0, (py "{}"), []; split; [reflexivity|]; split; [reflexivity | discriminate]|].
  split; [by do 3 eexists|]. split; [by do 3 eexists|]. split; [by do 3 eexists|].
  exists 0, [], []. split; [reflexivity | done].
Defined.

Lemma script_refines_diagnostics_witness :
  let a := {| tool_present := true; user := py "octocat"; secret := py "ghp_x";
              created := false; api_message := py "Bad credentials"; pushed := false |} in
  let o := [123] ++ dq ++ py "message" ++ dq ++ py ": " ++ dq ++ py "Bad credentials" ++ dq ++ [125] in
  let s := script [Line (py " octocat "); Line (py "ghp_x")]
             [Completed 0 [] []; Completed 22 o []; Completed 0 [] [];
              Completed 1 [] []; Completed 0 [] []; Completed 0 [] []] in
  realizes a s /\ list.last (outputs (run s).1) = Some (diagnostic a).
Proof.
  intros a o s. assert (Hs : realizes a s).
  { split; [reflexivity|].
    exists (py " octocat "), (py "ghp_x"), [], (Completed 0 [] []),
      (Completed 22 ([123] ++ dq ++ py "message" ++ dq ++ py ": " ++ dq ++ py "Bad credentials" ++ dq ++ [125]) []),
      (Completed 0 [] []), (Completed 1 [] []), (Completed 0 [] []), (Completed 0 [] []), [].
    split; [reflexivity|]. split; [reflexivity|]. split; [reflexivity|]. split; [reflexivity|].
    split; [split; [eauto | reflexivity]|].
    split; [eexists _, _, _; split; [reflexivity|]; split; [reflexivity|]|].
    { intros _. eexists. split; reflexivity. }
    split; [by do 3 eexists|]. split; [by do 3 eexists|]. split; [by do 3 eexists|].
    exists 1, [], []. split; [reflexivity | split; [discriminate | lia]]. }
  split; [exact Hs | exact (script_refines_diagnostics a s Hs)].
Defined.

Lemma missing_input_no_network_witness :
  let r := run (script [Line [32; 9]; Line (py "ghp_x")] [Completed 0 [] []]) in
  commands r.1 = [curl_version_cmd] /\ exit_status r.2 = 1.
Proof. apply missing_input_no_network. left. apply forallb_Forall_iff. reflexivity. Defined.

Lemma bad_credentials_witness :
  let out := dumps (JDict [(py "message", JStr (py "Bad credentials"));
                           (py "documentation_url", JStr (py "https://docs.github.com/rest"))]) in
  let r := run (until_create (py "octocat") (py "ghp_x") [] [] [] (Completed 0 out []) []) in
  list.last (outputs r.1) = Some (txt (py "❌ Invalid token! Please check your Personal Access Token.")) /\
  commands r.1 = [curl_version_cmd; create_repo_cmd (py "octocat") (py "ghp_x")] /\ exit_status r.2 = 1.
Proof.
  intros out. apply (bad_credentials (py "octocat") (py "ghp_x") [] [] [] 0 out [] []
    [(py "message", JStr (py "Bad credentials"));
     (py "documentation_url", JStr (py "https://docs.github.com/rest"))]);
    try (apply not_blank_forallb); reflexivity.
Defined.

Lemma already_exists_witness :
  let m := py "name already exists on this account" in
  let out := dumps (JDict [(py "message", JStr m)]) in
  let r := run (until_create (py "octocat") (py "ghp_x") [] [] [] (Completed 0 out []) []) in
  list.last (outputs r.1) =
    Some (txt (py "❌ Repository " ++ py "octocat" ++ py "/" ++ repo_name ++ py " already exists!")) /\
  commands r.1 = [curl_version_cmd; create_repo_cmd (py "octocat") (py "ghp_x")] /\ exit_status r.2 = 1.
Proof.
  intros m out. apply (already_exists (py "octocat") (py "ghp_x") [] [] [] 0 out [] [] [(py "message", JStr m)] m);
    try (apply not_blank_forallb); reflexivity.
Defined.

Lemma api_error_message_witness :
  let m := py "Repository creation failed." in
  let out := dumps (JDict [(py "message", JStr m);
                           (py "errors", JList [JDict [(py "resource", JStr (py "Repository"));
                                                       (py "code", JStr (py "custom"));
                                                       (py "field", JStr (py "name"));
                                                       (py "message", JStr (py "name already exists on this account"))]])]) in
  let r := run (until_create (py "octocat") (py "ghp_x") [] [] [] (Completed 0 out []) []) in
  list.last (outputs r.1) = Some [PText (py "❌ Error: "); PText m] /\
  commands r.1 = [curl_version_cmd; create_repo_cmd (py "octocat") (py "ghp_x")] /\ exit_status r.2 = 1.
Proof.
  intros m out.
  apply (api_error_message (py "octocat") (py "ghp_x") [] [] [] 0 out [] []
    [(py "message", JStr m);
     (py "errors", JList [JDict [(py "resource", JStr (py "Repository"));
                                 (py "code", JStr (py "custom"));
                                 (py "field", JStr (py "name"));
                                 (py "message", JStr (py "name already exists on this account"))]])] m);
    try (apply not_blank_forallb); try reflexivity.
  discriminate.
Defined.

Lemma api_error_unknown_witness :
  let out := dumps (JDict [(py "name", JStr repo_name);
                           (py "owner", JDict [(py "login", JStr (py "octocat"))]);
                           (py "template_repository", JDict [(py "message", JStr (py "x"))])]) in
  let r := run (until_create (py "octocat") (py "ghp_x") [] [] [] (Completed 0 out []) []) in
  list.last (outputs r.1) = Some [PText (py "❌ Error: "); PText (py "Unknown error")] /\
  commands r.1 = [curl_version_cmd; create_repo_cmd (py "octocat") (py "ghp_x")] /\ exit_status r.2 = 1.
Proof.
  intros out.
  apply (api_error_unknown (py "octocat") (py "ghp_x") [] [] [] 0 out [] []
    [(py "name", JStr repo_name);
     (py "owner", JDict [(py "login", JStr (py "octocat"))]);
     (py "template_repository", JDict [(py "message", JStr (py "x"))])]);
    try (apply not_blank_forallb); reflexivity.
Defined.

Lemma success_summary_witness :
  let u := py "octocat" in
  let r := run (script [Line u; Line (py "ghp_x")]
                  [Completed 0 [] []; Completed 0 (py "{}") []; Completed 128 [] [];
                   Completed 0 [] []; Completed 1 [] []; Completed 6 [] []]) in
  exit_status r.2 = 0 /\ commands r.1 = canonical u (py "ghp_x") /\
  txt (py "📁 Repository: https://github.com/" ++ u ++ py "/" ++ repo_name) ∈ outputs r.1 /\
  txt (py "📄 Deploy Page: https://" ++ u ++ py ".github.io/" ++ repo_name ++ py "/") ∈ outputs r.1 /\
  list.last (outputs r.1) = Some (txt (py "✨ Your Review Insights platform is ready to share!")).
Proof.
  intros u. apply (success_summary u (py "ghp_x") [] [] [] 0 (py "{}") [] 128 [] [] [] [] 1 [] [] 6 [] [] []);
    try (apply not_blank_forallb); reflexivity.
Defined.

Lemma push_failure_recovery_witness :
  let u := py "octocat" in let t := py "ghp_x" in
  let pe := py "error: src refspec main does not match any" in
  let r := run (script [Line u; Line t]
                  [Completed 0 [] []; Completed 0 (py "{}") []; Completed 0 [] [];
                   Completed 1 [] pe]) in
  txt (py "❌ Push failed: " ++ pe) ∈ outputs r.1 /\
  txt (py "git remote set-url origin https://" ++ u ++ py ":" ++ t ++
       py "@github.com/" ++ u ++ py "/" ++ repo_name ++ py ".git") ∈ outputs r.1 /\
  commands r.1 = [curl_version_cmd; create_repo_cmd u t; remote_add_cmd u; push_main_cmd] /\
  exit_status r.2 = 1.
Proof.
  intros u t pe. apply (push_failure_recovery u t [] [] [] 0 (py "{}") [] 0 [] [] 1 [] pe []);
    try (apply not_blank_forallb); try reflexivity. lia.
Defined.

Lemma token_not_printed_witness :
  let rs := [Completed 0 [] []; Completed 0 (py "{}") []; Completed 0 [] []; Completed 0 [] [];
             Completed 1 [] []; Completed 0 [] []] in
  outputs (run (script [Line (py "octocat"); Line (py "ghp_a")] rs)).1 =
  outputs (run (script [Line (py "octocat"); Line (py "ghp_b")] rs)).1.
Proof.
  intros rs. apply token_not_printed; [apply not_blank_forallb; reflexivity ..|].
  intros rc o e H. vm_compute in H. congruence.
Defined.

Lemma exit_status_01_witness :
  Forall typed (stdin (script [Line (py "octocat"); EndOfInput] [Completed 0 [] []])) /\
  Forall not_interrupted (runs (script [Line (py "octocat"); EndOfInput] [Completed 0 [] []])) /\
  (status (script [Line (py "octocat"); EndOfInput] [Completed 0 [] []]) = 0 \/
   status (script [Line (py "octocat"); EndOfInput] [Completed 0 [] []]) = 1).
Proof.
  assert (Hi : Forall typed (stdin (script [Line (py "octocat"); EndOfInput] [Completed 0 [] []])))
    by (repeat constructor).
  assert (Hr : Forall not_interrupted (runs (script [Line (py "octocat"); EndOfInput] [Completed 0 [] []])))
    by (repeat constructor).
  split; [exact Hi | split; [exact Hr | exact (exit_status_01 _ Hi Hr)]].
Defined.

Lemma interrupt_during_create_witness :
  let r := run (until_create (py "octocat") (py "ghp_x") [] [] [] Interrupted []) in
  r.2 = Uncaught KeyboardInterrupt /\ exit_status r.2 = 130 /\
  list.last (outputs r.1) = Some (txt (nl ++ py "📡 Creating repository...")).
Proof. apply interrupt_during_create; apply not_blank_forallb; reflexivity. Defined.

Lemma interrupt_at_prompt_witness :
  let r1 := run (script [InputInterrupted] [Completed 0 [] []]) in
  let r2 := run (script [Line (py "octocat"); InputInterrupted] [Completed 0 [] []]) in
  r1.2 = Uncaught KeyboardInterrupt /\ commands r1.1 = [curl_version_cmd] /\
  list.last r1.1 = Some (EvPrompt (py "GitHub username: ")) /\
  r2.2 = Uncaught KeyboardInterrupt /\ commands r2.1 = [curl_version_cmd] /\
  list.last r2.1 = Some (EvPrompt (py "GitHub Personal Access Token: ")) /\
  exit_status r2.2 = 130.
Proof. apply interrupt_at_prompt. apply not_blank_forallb. reflexivity. Defined.

Lemma eof_at_prompt_witness :
  let r1 := run (script [EndOfInput] [Completed 0 [] []]) in
  let r2 := run (script [Line (py "octocat")] [Completed 0 [] []]) in
  r1.2 = Uncaught EOFError /\ commands r1.1 = [curl_version_cmd] /\
  list.last r1.1 = Some (EvPrompt (py "GitHub username: ")) /\
  r2.2 = Uncaught EOFError /\ commands r2.1 = [curl_version_cmd] /\
  list.last r2.1 = Some (EvPrompt (py "GitHub Personal Access Token: ")) /\
  exit_status r2.2 = 1.
Proof. apply (eof_at_prompt (py "octocat") [] [] [] []). apply not_blank_forallb. reflexivity. Defined.

Lemma missing_directory_witness :
  let w := {| stdin := [Line (py "octocat")]; runs := []; dirs := [false] |} in
  (exec entry w).1 = ([EvChdir (py "/home/david/review-analysis-saas")], Uncaught FileNotFoundError).
Proof. intros w. apply (proj1 (missing_directory w)). reflexivity. Defined.

Lemma create_request_sent_witness :
  create_repo_cmd (py "octocat") (py "ghp_x") ∈
    commands (run (script [Line (py " octocat "); Line (py "ghp_x")] [Completed 0 [] []])).1.
Proof.
  change (py "octocat") with (strip (py " octocat ")) at 1.
  change (py "ghp_x") with (strip (py "ghp_x")) at 1.
  apply create_request_sent; apply not_blank_forallb; reflexivity.
Defined.

Lemma tool_missing_witness :
  let r := run (script [] [Interrupted]) in
  list.last (outputs r.1) = Some (txt (py "❌ Error: curl is required but not installed")) /\
  commands r.1 = [curl_version_cmd] /\ exit_status r.2 = 1.
Proof. apply tool_missing. right. left. reflexivity. Defined.

Lemma request_bodies_decode_witness :
  forallb scalarb (py "Zoë") = true /\
  exists body, request_body (create_repo_cmd (py "Zoë") (py "ghp_x")) = Some body /\
    loads body = Some (JDict [
       (py "name", JStr (py "review-insights-platform"));
       (py "description", JStr (py "AI-powered review management platform with zero-config setup"));
       (py "homepage", JStr (py "https://Zoë.github.io/review-insights-platform/"));
       (py "private", JBool false); (py "has_issues", JBool true); (py "has_projects", JBool true);
       (py "has_wiki", JBool false); (py "auto_init", JBool false)]).
Proof.
  assert (Hu : forallb scalarb (py "Zoë") = true) by reflexivity.
  split; [exact Hu | exact (proj1 (request_bodies_decode _ (py "ghp_x") Hu))].
Defined.

Lemma homepage_is_deploy_page_witness :
  exists body d url,
    request_body (create_repo_cmd (py "octocat") (py "ghp_x")) = Some body /\ loads body = Some (JDict d) /\
    dict_get d (py "homepage") = Some (JStr url) /\
    txt (py "📄 Deploy Page: " ++ url) ∈ outputs (printed (summary (py "octocat"))).
Proof. apply homepage_is_deploy_page. reflexivity. Defined.

Lemma deep_response_uncaught_witness :
  let r := run (until_create (py "octocat") (py "ghp_x") [] [] [] (Completed 22 (replicate 101 91) []) []) in
  r.2 = Uncaught RecursionError /\ exit_status r.2 = 1 /\
  list.last (outputs r.1) = Some (txt (nl ++ py "📡 Creating repository...")).
Proof.
  apply (deep_response_uncaught (py "octocat") (py "ghp_x") [] [] [] 22 (replicate 101 91) [] []);
    try (apply not_blank_forallb); reflexivity.
Defined.

Lemma malformed_response_uncaught_witness :
  let r := run (until_create (py "octocat") (py "ghp_x") [] [] [] (Completed 6 [] []) []) in
  r.2 = Uncaught JSONDecodeError /\
  list.last (outputs r.1) = Some (txt (nl ++ py "📡 Creating repository...")).
Proof.
  apply (malformed_response_uncaught (py "octocat") (py "ghp_x") [] [] [] 6 [] [] []);
    try (apply not_blank_forallb); reflexivity.
Defined.

Lemma scalar_message_uncaught_witness :
  let out := dumps (JDict [(py "message", JNull)]) in
  let r := run (until_create (py "octocat") (py "ghp_x") [] [] [] (Completed 0 out []) []) in
  r.2 = Uncaught TypeError /\
  list.last (outputs r.1) = Some (txt (nl ++ py "📡 Creating repository...")).
Proof.
  intros out. apply (scalar_message_uncaught (py "octocat") (py "ghp_x") [] [] [] 0 out [] []
    [(py "message", JNull)] JNull); try (apply not_blank_forallb); try reflexivity; exact I.
Defined.

Lemma container_message_text_witness :
  let m := JList [JStr (py "name already exists")] in
  let out := dumps (JDict [(py "message", m)]) in
  let r := run (until_create (py "octocat") (py "ghp_x") [] [] [] (Completed 22 out []) []) in
  option_map (@line_text ascii_runtime) (list.last (outputs r.1)) =
    Some (py "❌ Error: ['name already exists']") /\ exit_status r.2 = 1.
Proof.
  intros m out r.
  destruct (@container_message_text _ ascii_runtime (py "octocat") (py "ghp_x") [] [] [] 22 out [] []
              [(py "message", m)] m) as (_ & Hn & He).
  all: try (apply not_blank_forallb); try reflexivity; try exact I.
  subst r. split; [|exact He]. rewrite Hn; [vm_compute; reflexivity|].
  intros Hin%list_elem_of_singleton. vm_compute in Hin. congruence.
Defined.

Lemma non_object_response_uncaught_witness :
  let out := dumps (JList []) in
  let r := run (until_create (py "octocat") (py "ghp_x") [] [] [] (Completed 22 out []) []) in
  r.2 = Uncaught AttributeError /\
  list.last (outputs r.1) = Some (txt (nl ++ py "📡 Creating repository...")).
Proof.
  intros out. apply (non_object_response_uncaught (py "octocat") (py "ghp_x") [] [] [] 22 out [] [] (JList []));
    try (apply not_blank_forallb); try reflexivity. discriminate.
Defined.

Lemma remote_add_missing_git_witness :
  let r := run (script [Line (py "octocat"); Line (py "ghp_x")]
                  [Completed 0 [] []; Completed 0 (py "{}") []; NotFound]) in
  r.2 = Uncaught FileNotFoundError /\
  commands r.1 = [curl_version_cmd; create_repo_cmd (py "octocat") (py "ghp_x"); remote_add_cmd (py "octocat")].
Proof.
  apply (remote_add_missing_git (py "octocat") (py "ghp_x") [] [] [] 0 (py "{}") [] []);
    try (apply not_blank_forallb); reflexivity.
Defined.

End ProvisionerProps.
